(** * csng_invariances: linear receptive-field filters and MEI gradient ascent

    A shallow embedding of the numerical core of the repository:

    - [csng_invariances/utility/lin_filter.py]: the [Filter] family
      (reshaping between the 4-D and the flattened 2-D filter, the closed-form
      estimators) and the [Hyperparametersearch] family;
    - [csng_invariances/training/mei.py]: the lowpass kernel, the
      frequency-domain gradient filter and one gradient-ascent step.

    Python exceptions are values of an error monad, numpy arrays are a shape
    with row-major data, and IEEE-754 numbers are [spec_float] with the
    operations of [SpecFloat] (binary64 for numpy and Python floats, binary32
    for torch's default dtype). *)

From Stdlib Require Import String.
From Stdlib Require Import ZArith List Bool Arith Lia.
From Stdlib Require Import Floats.SpecFloat.
Import ListNotations.

Set Implicit Arguments.

(* ================================================================== *)
(** * Python results *)
(* ================================================================== *)

Module Py.

(** The exceptions the modelled code can raise. *)
Inductive exn : Type :=
| ValueError
| AttributeError
| AssertionError
| IndexError
| AxisError
| RuntimeError
| OSError.

Inductive result (A : Type) : Type :=
| Ok (a : A)
| Raise (e : exn).

Arguments Ok {A} a.
Arguments Raise {A} e.

Definition bind {A B} (m : result A) (k : A -> result B) : result B :=
  match m with
  | Ok a => k a
  | Raise e => Raise e
  end.

Definition returns {A} (m : result A) : bool :=
  match m with Ok _ => true | Raise _ => false end.

End Py.

Import Py.

Declare Scope py_scope.
Delimit Scope py_scope with py.
Notation "x <- m ;; k" := (Py.bind m (fun x => k))
  (at level 61, m at next level, right associativity) : py_scope.
Notation "m ;;; k" := (Py.bind m (fun _ => k))
  (at level 61, right associativity) : py_scope.
Open Scope py_scope.

(* ================================================================== *)
(** * numpy arrays *)
(* ================================================================== *)

Module Np.

(** An [ndarray] is its [shape] and its elements in C (row-major) order. *)
Record ndarray (A : Type) : Type := mk_ndarray
  { shape : list nat;
    data : list A }.

Arguments mk_ndarray {A} shape data.

(** [prod(shape)], numpy's [a.size]. *)
Definition size_of (sh : list nat) : nat := fold_right Nat.mul 1 sh.

Definition ndim {A} (a : ndarray A) : nat := length (shape a).

(** The representation invariant of an array. *)
Definition wf {A} (a : ndarray A) : Prop :=
  length (data a) = size_of (shape a).

(** [a.squeeze()]: every axis of length one is dropped. *)
Definition squeeze {A} (a : ndarray A) : ndarray A :=
  mk_ndarray (filter (fun d => negb (d =? 1)) (shape a)) (data a).

(** [a.reshape(sh)]: the element count must be kept. *)
Definition reshape {A} (a : ndarray A) (sh : list nat) : result (ndarray A) :=
  if size_of sh =? size_of (shape a)
  then Ok (mk_ndarray sh (data a))
  else Raise ValueError.

(** The [k]-th block of [b] consecutive elements. *)
Definition block {A} (b k : nat) (l : list A) : list A :=
  firstn b (skipn (k * b) l).

(** Row-major data of an [r] x [c] grid of blocks, read column by column. *)
Definition swap_data {A} (r c b : nat) (l : list A) : list A :=
  flat_map (fun j => flat_map (fun i => block b (i * c + j) l) (seq 0 r))
           (seq 0 c).

(** [np.moveaxis(a, [0, 1], [1, 0])]: the first two axes change places. *)
Definition moveaxis_01 {A} (a : ndarray A) : result (ndarray A) :=
  match shape a with
  | r :: c :: rest =>
      Ok (mk_ndarray (c :: r :: rest) (swap_data r c (size_of rest) (data a)))
  | _ => Raise AxisError
  end.

End Np.

Import Np.

(* ================================================================== *)
(** * IEEE-754 numbers *)
(* ================================================================== *)

(** Operations shared by both formats; [prec] and [emax] as in [SpecFloat]. *)
Module IEEE.
Section Format.

Variables prec emax : Z.

Definition of_Z (n : Z) : spec_float := binary_normalize prec emax n 0 false.

Definition of_nat (n : nat) : spec_float := of_Z (Z.of_nat n).

Definition is_nan (x : spec_float) : bool :=
  match x with S754_nan => true | _ => false end.

(** Rounding of a number of another format. *)
Definition round (x : spec_float) : spec_float :=
  match x with
  | S754_finite s m e => binary_normalize prec emax (cond_Zopp s (Zpos m)) e s
  | _ => x
  end.

(** A number that is zero, finite or infinite, and not negative. *)
Definition nonneg (x : spec_float) : Prop :=
  match x with
  | S754_zero s | S754_infinity s | S754_finite s _ _ => s = false
  | S754_nan => False
  end.

(** [maximum] and [minimum] propagate NaN, as [torch.maximum],
    [torch.minimum] and [Tensor.max] do. *)
Definition maximum (x y : spec_float) : spec_float :=
  if is_nan x || is_nan y then S754_nan
  else if SFltb x y then y else x.

Definition minimum (x y : spec_float) : spec_float :=
  if is_nan x || is_nan y then S754_nan
  else if SFltb y x then y else x.

(** Left-to-right sum from [+0]. *)
Definition sum (l : list spec_float) : spec_float :=
  fold_left (SFadd prec emax) l (S754_zero false).

End Format.
End IEEE.

(** binary64: numpy's [float64] and Python's [float]. *)
Module F64.
Definition prec : Z := 53.
Definition emax : Z := 1024.
Definition zero : spec_float := S754_zero false.
Definition nan : spec_float := S754_nan.
Definition of_Z := IEEE.of_Z prec emax.
Definition of_nat := IEEE.of_nat prec emax.
Definition one : spec_float := of_Z 1.
Definition add := SFadd prec emax.
Definition mul := SFmul prec emax.
Definition div := SFdiv prec emax.
Definition eqb := SFeqb.
Definition ltb := SFltb.
Definition is_nan := IEEE.is_nan.
Definition sum := IEEE.sum prec emax.
End F64.

(** binary32: torch's default [float32]. *)
Module F32.
Definition prec : Z := 24.
Definition emax : Z := 128.
Definition zero : spec_float := S754_zero false.
Definition nan : spec_float := S754_nan.
Definition of_Z := IEEE.of_Z prec emax.
Definition of_nat := IEEE.of_nat prec emax.
Definition one : spec_float := of_Z 1.
Definition add := SFadd prec emax.
Definition sub := SFsub prec emax.
Definition mul := SFmul prec emax.
Definition div := SFdiv prec emax.
Definition abs := SFabs.
Definition eqb := SFeqb.
Definition ltb := SFltb.
Definition is_nan := IEEE.is_nan.
Definition maximum := IEEE.maximum.
Definition minimum := IEEE.minimum.
Definition sum := IEEE.sum prec emax.
(** A Python [float] used as a scalar operand of a [float32] tensor. *)
Definition of_f64 := IEEE.round prec emax.
Definition reciprocal (x : spec_float) : spec_float := div one x.
(** [s / t] for a Python scalar [s] and a tensor element [t]:
    [Tensor.__rtruediv__] is [t.reciprocal() * s]. *)
Definition rtruediv (s x : spec_float) : spec_float := mul (reciprocal x) s.
End F32.

(* ================================================================== *)
(** * lin_filter.py: the [Filter] family *)
(* ================================================================== *)

Module LinFilter.

(** The process environment the constructor touches: the clock and the
    file system ([Path.mkdir]). *)
Record Env : Type := mk_Env
  { now : string;
    cwd : string;
    mkdir : string -> result unit }.

(** The strategy stored in [self._compute_filter]. *)
Inductive strategy : Type :=
| laplace_regularized_filter
| ridge_regularized_filter
| whitened_filter
| normal_filter.

Section Scalars.

(** The element type of the arrays, with the arithmetic numpy applies to
    it. The closed-form estimators are modelled over exact arithmetic. *)
Variable A : Type.
Variables zero one : A.
Variables add mul : A -> A -> A.

(** [numpy.linalg.pinv], a function of the matrix; it raises when the
    SVD does not converge. *)
Variable pinv : ndarray A -> result (ndarray A).

(** [reg_factor]: [None], one number, or one number per neuron. *)
Inductive factor : Type :=
| FNone
| FScalar (x : A)
| FList (l : list A).

Record Filter : Type := mk_Filter
  { images : ndarray A;
    image_count : nat;
    channels : nat;
    dim1 : nat;
    dim2 : nat;
    responses : ndarray A;
    neuron_count : nat;
    reg_factor : factor;
    reg_type : string;
    _compute_filter : strategy;
    time : string;
    model_dir : string;
    report_dir : option string;
    figure_dir : option string;
    fil : option (ndarray A);
    prediction : option (ndarray A);
    corr : option A }.

Definition set_fil (self : Filter) (f : ndarray A) : Filter :=
  mk_Filter (images self) (image_count self) (channels self) (dim1 self)
            (dim2 self) (responses self) (neuron_count self)
            (reg_factor self) (reg_type self) (_compute_filter self)
            (time self) (model_dir self) (report_dir self)
            (figure_dir self) (Some f) (prediction self) (corr self).

Definition set_images (self : Filter) (x : ndarray A) : Filter :=
  mk_Filter x (image_count self) (channels self) (dim1 self)
            (dim2 self) (responses self) (neuron_count self)
            (reg_factor self) (reg_type self) (_compute_filter self)
            (time self) (model_dir self) (report_dir self)
            (figure_dir self) (fil self) (prediction self) (corr self).

(** [a.shape[i]]: a tuple index out of range is an [IndexError]. *)
Definition shape_at (a : ndarray A) (i : nat) : result nat :=
  match nth_error (shape a) i with
  | Some d => Ok d
  | None => Raise IndexError
  end.

(** The [assert self.reg_type in set([...])] of the constructor together
    with the [if]/[elif] chain that follows it. *)
Definition select_strategy (reg_type : string) : result strategy :=
  if String.eqb reg_type "laplace regularized" then Ok laplace_regularized_filter
  else if String.eqb reg_type "ridge regularized" then Ok ridge_regularized_filter
  else if String.eqb reg_type "whitened" then Ok whitened_filter
  else if String.eqb reg_type "raw" then Ok normal_filter
  else Raise AssertionError.

(** [Filter.__init__]. *)
Definition __init__ (env : Env) (images responses : ndarray A)
           (reg_type : string) (reg_factor : factor) : result Filter :=
  image_count <- shape_at images 0 ;;
  channels <- shape_at images 1 ;;
  dim1 <- shape_at images 2 ;;
  dim2 <- shape_at images 3 ;;
  neuron_count <- shape_at responses 1 ;;
  compute <- select_strategy reg_type ;;
  let time := now env in
  let model_dir :=
    (cwd env ++ "/models/linear_filter/" ++ time)%string in
  mkdir env model_dir ;;;
  Ok (mk_Filter images image_count channels dim1 dim2 responses
                neuron_count reg_factor reg_type compute time model_dir
                None None None None None).

(** [self.fil.shape]: [self.fil] is [None] until a filter is computed. *)
Definition get_fil (self : Filter) : result (ndarray A) :=
  match fil self with
  | Some f => Ok f
  | None => Raise AttributeError
  end.

(** [Filter._image_2d]. *)
Definition _image_2d (self : Filter) : result Filter :=
  x <- reshape (images self) [image_count self; dim1 self * dim2 self] ;;
  Ok (set_images self x).

(** [Filter._fil_2d]. *)
Definition _fil_2d (self : Filter) : result Filter :=
  f <- get_fil self ;;
  if ndim f =? 4 then
    let f := squeeze f in
    f <- reshape f [neuron_count self; dim1 self * dim2 self] ;;
    f <- moveaxis_01 f ;;
    Ok (set_fil self f)
  else Ok self.

(** [Filter._fil_4d]. The file carries an unresolved merge conflict at the
    head of this method: one side adds [self.fil = self.fil.numpy()] before
    the test, the other only rewords the docstring. The statements from the
    test on are common to both sides and are what is modelled; [self.fil] is
    a numpy array, on which the [torch.is_tensor] conversion does nothing. *)
Definition _fil_4d (self : Filter) : result Filter :=
  f <- get_fil self ;;
  if ndim f =? 2 then
    f <- moveaxis_01 f ;;
    f <- reshape f [neuron_count self; channels self; dim1 self; dim2 self] ;;
    Ok (set_fil self f)
  else Ok self.

(** The module-level [_reshape_filter_2d]. *)
Definition _reshape_filter_2d (f : ndarray A) : result (ndarray A) :=
  if ndim f =? 4 then
    neuron_count <- shape_at f 0 ;;
    dim1 <- shape_at f 2 ;;
    dim2 <- shape_at f 3 ;;
    let f := squeeze f in
    f <- reshape f [neuron_count; dim1 * dim2] ;;
    moveaxis_01 f
  else Raise AssertionError.

(** ** Matrix arithmetic on 2-D arrays *)

Fixpoint map2 (f : A -> A -> A) (u v : list A) : list A :=
  match u, v with
  | x :: u', y :: v' => f x y :: map2 f u' v'
  | _, _ => []
  end.

Definition dot (u v : list A) : A := fold_left add (map2 mul u v) zero.

(** [a.T] of a 2-D array. *)
Definition transpose (a : ndarray A) : result (ndarray A) :=
  match shape a with
  | [_; _] => moveaxis_01 a
  | _ => Raise ValueError
  end.

(** [np.matmul] of two 2-D arrays: the inner dimensions must agree. *)
Definition matmul (a b : ndarray A) : result (ndarray A) :=
  match shape a, shape b with
  | [n; k], [k'; m] =>
      if k =? k' then
        let bt := swap_data k' m 1 (data b) in
        Ok (mk_ndarray [n; m]
              (flat_map (fun i =>
                 map (fun j => dot (block k i (data a)) (block k' j bt))
                     (seq 0 m))
                 (seq 0 n)))
      else Raise ValueError
  | _, _ => Raise ValueError
  end.

(** [np.identity(p)]. *)
Definition identity (p : nat) : ndarray A :=
  mk_ndarray [p; p]
    (flat_map (fun i => map (fun j => if i =? j then one else zero) (seq 0 p))
              (seq 0 p)).

(** [s * a] for a scalar [s]. *)
Definition scale (s : A) (a : ndarray A) : ndarray A :=
  mk_ndarray (shape a) (map (mul s) (data a)).

(** [a + b] for arrays of one shape. *)
Definition plus (a b : ndarray A) : result (ndarray A) :=
  if list_eq_dec Nat.eq_dec (shape a) (shape b)
  then Ok (mk_ndarray (shape a) (map2 add (data a) (data b)))
  else Raise ValueError.

(** ** The closed-form estimators *)

(** [Filter._normal_filter]: the spike-triggered average. *)
Definition _normal_filter (self : Filter) (responses : ndarray A)
  : result (Filter * ndarray A) :=
  self <- _image_2d self ;;
  xt <- transpose (images self) ;;
  f <- matmul xt responses ;;
  Ok (self, f).

(** [Filter._whitened_filter]. *)
Definition _whitened_filter (self : Filter) (responses : ndarray A)
  : result (Filter * ndarray A) :=
  self <- _image_2d self ;;
  xt <- transpose (images self) ;;
  xtx <- matmul xt (images self) ;;
  inv <- pinv xtx ;;
  xt' <- transpose (images self) ;;
  xty <- matmul xt' responses ;;
  f <- matmul inv xty ;;
  Ok (self, f).

(** [Filter._ridge_regularized_filter]. *)
Definition _ridge_regularized_filter (self : Filter) (responses : ndarray A)
           (reg_factor : A) : result (Filter * ndarray A) :=
  self <- _image_2d self ;;
  xt <- transpose (images self) ;;
  xtx <- matmul xt (images self) ;;
  m <- plus xtx (scale reg_factor (identity (dim1 self * dim2 self))) ;;
  inv <- pinv m ;;
  xt' <- transpose (images self) ;;
  xty <- matmul xt' responses ;;
  f <- matmul inv xty ;;
  Ok (self, f).

End Scalars.

End LinFilter.

(* ================================================================== *)
(** * lin_filter.py: the [Hyperparametersearch] family *)
(* ================================================================== *)

(** The part of pandas the module reaches for. *)
Module Pd.

(** A [DataFrame] of [float64]: the column labels and the rows. *)
Record DataFrame : Type := mk_DataFrame
  { columns : list spec_float;
    values : list (list spec_float) }.

(** What an attribute of the module [pd] can evaluate to. *)
Inductive object : Type :=
| cls_DataFrame
| cls_Series
| fn_read_csv.

(** [pd.<name>]: pandas exports no attribute beyond its public names; of
    those the model knows the ones this repository uses. *)
Definition getattr (name : string) : result object :=
  if String.eqb name "DataFrame" then Ok cls_DataFrame
  else if String.eqb name "Series" then Ok cls_Series
  else if String.eqb name "read_csv" then Ok fn_read_csv
  else Raise AttributeError.

(** [<object>.<name>]: none of the objects above has an attribute named
    [report_dataFrame], the only name the code asks of them. *)
Definition getattr_of (o : object) (name : string) : result object :=
  Raise AttributeError.

(** [cls(array, columns=labels)]: only the class [DataFrame] builds a
    frame; a 2-D array is required. *)
Definition call (o : object) (a : ndarray spec_float)
           (labels : list spec_float) : result DataFrame :=
  match o, shape a with
  | cls_DataFrame, [r; c] =>
      if c =? length labels
      then Ok (mk_DataFrame labels (map (fun i => block c i (data a)) (seq 0 r)))
      else Raise ValueError
  | _, _ => Raise ValueError
  end.

Definition notnan (x : spec_float) : bool := negb (F64.is_nan x).

Definition fmax (x y : spec_float) : spec_float :=
  if F64.ltb x y then y else x.

(** One row of [df.max(axis=1)]: NaN entries are skipped; a row without
    any other entry gives NaN. *)
Definition row_max (row : list spec_float) : spec_float :=
  match filter notnan row with
  | [] => F64.nan
  | x :: xs => fold_left fmax xs x
  end.

(** [df.max(axis=1)], as the list of its values. *)
Definition max_axis1 (df : DataFrame) : list spec_float :=
  map row_max (values df).

(** [df.eq(s, axis=0)]: row [i] is compared with [s[i]]. *)
Fixpoint eq_axis0 (rows : list (list spec_float)) (s : list spec_float)
  : list (list bool) :=
  match rows, s with
  | row :: rows', m :: s' => map (fun x => F64.eqb x m) row :: eq_axis0 rows' s'
  | row :: rows', [] => map (fun _ => false) row :: eq_axis0 rows' []
  | [], _ => []
  end.

Fixpoint where_row (ps : list spec_float) (ms : list bool) : list spec_float :=
  match ps with
  | [] => []
  | p :: ps' => (if hd false ms then p else F64.nan) :: where_row ps' (tl ms)
  end.

(** [df[mask]] for a boolean frame [mask] with the row index and the
    column labels of [df] (both tables of a search are built with the same
    ones): the entries where the mask is false (or absent) become NaN. *)
Fixpoint where_ (rows : list (list spec_float)) (mask : list (list bool))
  : list (list spec_float) :=
  match rows with
  | [] => []
  | row :: rows' => where_row row (hd [] mask) :: where_ rows' (tl mask)
  end.

(** [Series.mean()]: NaN entries count as zero in the sum and are left
    out of the count; NaN when nothing is counted. *)
Definition mean (s : list spec_float) : spec_float :=
  let count := length (filter notnan s) in
  if count =? 0 then F64.nan
  else F64.div
         (F64.sum (map (fun x => if F64.is_nan x then F64.zero else x) s))
         (F64.of_nat count).

End Pd.

Module Search.

Definition array := ndarray spec_float.

(** [np.hstack] of 2-D arrays: one row count, the rows put side by side. *)
Definition hstack (arrs : list array) : result array :=
  match arrs with
  | [] => Raise ValueError
  | a :: _ =>
      match shape a with
      | [r; _] =>
          if forallb (fun b => match shape b with
                               | [r'; _] => r' =? r
                               | _ => false
                               end) arrs
          then
            let width (b : array) := nth 1 (shape b) 0 in
            Ok (mk_ndarray [r; fold_right (fun b n => width b + n) 0 arrs]
                  (flat_map (fun i =>
                     flat_map (fun b => block (width b) i (data b)) arrs)
                     (seq 0 r)))
          else Raise ValueError
      | _ => Raise ValueError
      end
  end.

(** A 1-D array made of a list. *)
Definition array1 (l : list spec_float) : array := mk_ndarray [length l] l.

(** A 2-D array made of rows of one length [c]. *)
Definition array2 (c : nat) (rows : list (list spec_float)) : array :=
  mk_ndarray [length rows; c] (concat rows).

Section Search.

(** The two filter objects are only used through [train], [predict] and
    two attributes; their classes are left open. *)
Variables TF VF : Type.
Variable tf_neuron_count : TF -> nat.
Variable train :
  TF -> LinFilter.factor spec_float -> result (TF * array).
Variable predict :
  VF -> array -> bool -> result (VF * (array * spec_float)).
Variable vf_single_neuron_correlations : VF -> result (list spec_float).

Record Hyperparametersearch : Type := mk_Search
  { TrainFilter : TF;
    ValidationFilter : VF;
    reg_factors : list spec_float;
    report : bool;
    neuron_count : nat;
    neurons : list nat;
    time : string;
    report_dir : option string;
    df_params : option Pd.DataFrame;
    df_corrs : option Pd.DataFrame;
    hyperparameters : option array;
    single_neuron_correlations : option array;
    results : option array;
    avg_correlation : option spec_float;
    written : list string }.

(** [Hyperparametersearch.__init__]. *)
Definition __init__ (now : string) (tf : TF) (vf : VF)
           (reg_factors : list spec_float) (report : bool)
  : Hyperparametersearch :=
  mk_Search tf vf reg_factors report (tf_neuron_count tf)
            (seq 0 (tf_neuron_count tf)) now None None None None None None
            None [].

Definition with_report_dir (self : Hyperparametersearch) (d : string)
  : Hyperparametersearch :=
  mk_Search (TrainFilter self) (ValidationFilter self) (reg_factors self)
            (report self) (neuron_count self) (neurons self) (time self)
            (Some d) (df_params self) (df_corrs self)
            (hyperparameters self) (single_neuron_correlations self)
            (results self) (avg_correlation self) (written self).

(** [GlobalHyperparametersearch.__init__] and
    [IndividualHyperparametersearch.__init__]: the report directory is
    named after the kind of search and made. *)
Definition subclass__init__ (kind : string) (env : LinFilter.Env)
           (tf : TF) (vf : VF) (reg_factors : list spec_float) (report : bool)
  : result Hyperparametersearch :=
  let self := __init__ (LinFilter.now env) tf vf reg_factors report in
  let d := (LinFilter.cwd env ++ "/reports/linear_filter/" ++ kind ++ "/"
              ++ time self)%string in
  LinFilter.mkdir env d ;;;
  Ok (with_report_dir self d).

Definition global__init__ := subclass__init__ "global_hyperparametersearch".

Definition individual__init__ :=
  subclass__init__ "individual_hyperparametersearch".

Definition store_best (self : Hyperparametersearch)
           (h s r : array) (avg : spec_float) (files : list string)
  : Hyperparametersearch :=
  mk_Search (TrainFilter self) (ValidationFilter self) (reg_factors self)
            (report self) (neuron_count self) (neurons self) (time self)
            (report_dir self) (df_params self) (df_corrs self)
            (Some h) (Some s) (Some r) (Some avg) (written self ++ files).

Definition with_filters (self : Hyperparametersearch) (tf : TF) (vf : VF)
  : Hyperparametersearch :=
  mk_Search tf vf (reg_factors self)
            (report self) (neuron_count self) (neurons self) (time self)
            (report_dir self) (df_params self) (df_corrs self)
            (hyperparameters self) (single_neuron_correlations self)
            (results self) (avg_correlation self) (written self).

Definition with_frames (self : Hyperparametersearch)
           (p c : Pd.DataFrame) : Hyperparametersearch :=
  mk_Search (TrainFilter self) (ValidationFilter self) (reg_factors self)
            (report self) (neuron_count self) (neurons self) (time self)
            (report_dir self) (Some p) (Some c)
            (hyperparameters self) (single_neuron_correlations self)
            (results self) (avg_correlation self) (written self).

(** An attribute that is only set by another method. *)
Definition attr {X} (o : option X) : result X :=
  match o with
  | Some x => Ok x
  | None => Raise AttributeError
  end.

(** [masked[masked == masked.astype(float)]]: a NaN is not equal to
    itself and is dropped. *)
Definition drop_nan (l : list spec_float) : list spec_float :=
  filter (fun x => F64.eqb x x) l.

(** The values [compute_best_parameter] reshapes into its second column. *)
Definition selected (params corrs : Pd.DataFrame) : list spec_float :=
  let mask := Pd.eq_axis0 (Pd.values corrs) (Pd.max_axis1 corrs) in
  drop_nan (concat (Pd.where_ (Pd.values params) mask)).

(** [Hyperparametersearch.compute_best_parameter]. *)
Definition compute_best_parameter (self : Hyperparametersearch)
  : result (Hyperparametersearch * (array * spec_float)) :=
  corrs <- attr (df_corrs self) ;;
  params <- attr (df_params self) ;;
  hyper <- reshape (array1 (selected params corrs)) [neuron_count self; 1] ;;
  single <- reshape (array1 (Pd.max_axis1 corrs)) [neuron_count self; 1] ;;
  res <- hstack [mk_ndarray [neuron_count self; 1] (map F64.of_nat (neurons self));
                 hyper; single] ;;
  let avg := Pd.mean (Pd.max_axis1 corrs) in
  files <- (if report self then
              d <- attr (report_dir self) ;;
              Ok [(d ++ "/hyperparametersearch_report.npy")%string;
                  (d ++ "/readme.txt")%string]
            else Ok []) ;;
  Ok (store_best self hyper single res avg files, (res, avg)).

(** The tables both searches try to build once their loop is over:
    [pd.self.report_dataFrame(table, columns=self.reg_factors)] twice,
    then the array that would be returned. *)
Definition build_tables (self : Hyperparametersearch) (params corrs : array)
  : result (Hyperparametersearch * array) :=
  pd_self <- Pd.getattr "self" ;;
  ctor <- Pd.getattr_of pd_self "report_dataFrame" ;;
  dfp <- Pd.call ctor params (reg_factors self) ;;
  pd_self' <- Pd.getattr "self" ;;
  ctor' <- Pd.getattr_of pd_self' "report_dataFrame" ;;
  dfc <- Pd.call ctor' corrs (reg_factors self) ;;
  search <- hstack [mk_ndarray [neuron_count self; 1] (map F64.of_nat (neurons self));
                    params; corrs] ;;
  Ok (with_frames self dfp dfc, search).

(** The loop of [GlobalHyperparametersearch.conduct_search]: one training
    and one prediction per candidate; the correlations in order. *)
Fixpoint global_loop (tf : TF) (vf : VF) (cands : list spec_float)
  : result (TF * VF * list spec_float) :=
  match cands with
  | [] => Ok (tf, vf, [])
  | reg_factor :: rest =>
      r <- train tf (LinFilter.FScalar reg_factor) ;;
      let '(tf, filter) := r in
      p <- predict vf filter false ;;
      let '(vf, (_, corr)) := p in
      q <- global_loop tf vf rest ;;
      let '(tf, vf, c) := q in
      Ok (tf, vf, corr :: c)
  end.

(** [GlobalHyperparametersearch.conduct_search]. *)
Definition global_conduct_search (self : Hyperparametersearch)
  : result (Hyperparametersearch * array) :=
  r <- global_loop (TrainFilter self) (ValidationFilter self) (reg_factors self) ;;
  let '(tf, vf, c) := r in
  let self := with_filters self tf vf in
  let k := length (reg_factors self) in
  let params := array2 k (map (fun _ => reg_factors self) (seq 0 (neuron_count self))) in
  let corrs := array2 k (map (fun _ => c) (seq 0 (neuron_count self))) in
  build_tables self params corrs.

(** [table[:, counter] = s]: the values written into a column of [n]
    entries; one value is broadcast, any other length must be [n]. *)
Definition assign_column (n : nat) (s : list spec_float)
  : result (list spec_float) :=
  match s with
  | [x] => Ok (map (fun _ => x) (seq 0 n))
  | _ => if length s =? n then Ok s else Raise ValueError
  end.

(** The loop of [IndividualHyperparametersearch.conduct_search]: the
    columns of [self.params] and [self.corrs], one per candidate; a column
    must have [neuron_count] entries. *)
Fixpoint individual_loop (n : nat) (tf : TF) (vf : VF)
         (cands : list spec_float)
  : result (TF * VF * list (list spec_float) * list (list spec_float)) :=
  match cands with
  | [] => Ok (tf, vf, [], [])
  | reg_factor :: rest =>
      let reg_factor := map (fun _ => reg_factor) (seq 0 n) in
      r <- train tf (LinFilter.FList reg_factor) ;;
      let '(tf, filter) := r in
      p <- predict vf filter true ;;
      let '(vf, _) := p in
      s <- vf_single_neuron_correlations vf ;;
      s <- assign_column n s ;;
      q <- individual_loop n tf vf rest ;;
      let '(tf, vf, ps, cs) := q in
      Ok (tf, vf, reg_factor :: ps, s :: cs)
  end.

(** The [n] x [k] array whose columns are the given lists of length [n]. *)
Definition of_columns (n : nat) (cols : list (list spec_float)) : array :=
  mk_ndarray [n; length cols] (swap_data (length cols) n 1 (concat cols)).

(** [IndividualHyperparametersearch.conduct_search]. *)
Definition individual_conduct_search (self : Hyperparametersearch)
  : result (Hyperparametersearch * array) :=
  r <- individual_loop (neuron_count self) (TrainFilter self)
         (ValidationFilter self) (reg_factors self) ;;
  let '(tf, vf, ps, cs) := r in
  let self := with_filters self tf vf in
  build_tables self (of_columns (neuron_count self) ps)
               (of_columns (neuron_count self) cs).

End Search.

End Search.

(* ================================================================== *)
(** * mei.py: lowpass kernel, gradient filter, one ascent step *)
(* ================================================================== *)

Module Mei.

(** A [float32] tensor, and a [complex64] number and tensor. *)
Definition real := ndarray spec_float.
Definition complex : Type := spec_float * spec_float.

(** A tensor with its dtype. *)
Inductive tensor : Type :=
| TReal (a : ndarray spec_float)
| TComplex (a : ndarray complex).

Definition tshape (t : tensor) : list nat :=
  match t with
  | TReal a => shape a
  | TComplex a => shape a
  end.

Definition is_real (t : tensor) : bool :=
  match t with
  | TReal _ => true
  | TComplex _ => false
  end.

Definition of_real (x : spec_float) : complex := (x, F32.zero).

(** Product of two [complex64] numbers. *)
Definition cmul (u v : complex) : complex :=
  let '(a, b) := u in
  let '(c, d) := v in
  (F32.sub (F32.mul a c) (F32.mul b d),
   F32.add (F32.mul a d) (F32.mul b c)).

(** ** Broadcasting *)

(** The broadcast of two shapes, both written last axis first. *)
Fixpoint bshape_rev (ra rb : list nat) : option (list nat) :=
  match ra, rb with
  | [], _ => Some rb
  | _, [] => Some ra
  | x :: ra', y :: rb' =>
      match bshape_rev ra' rb' with
      | None => None
      | Some t =>
          if x =? y then Some (x :: t)
          else if x =? 1 then Some (y :: t)
          else if y =? 1 then Some (x :: t)
          else None
      end
  end.

Definition bshape (a b : list nat) : option (list nat) :=
  option_map (@rev nat) (bshape_rev (rev a) (rev b)).

(** The flat index, in an operand of reversed shape [rsh], of the element
    that meets flat index [k] of the result of reversed shape [rout]. *)
Fixpoint bindex (rsh rout : list nat) (k : nat) : nat :=
  match rsh, rout with
  | d :: rsh', o :: rout' =>
      (if d =? 1 then 0 else k mod o) + d * bindex rsh' rout' (k / o)
  | _, _ => 0
  end.

(** [pp * f] for a complex tensor [pp] and a real tensor [f]. *)
Definition mul_complex_real (pp : ndarray complex) (f : real)
  : result (ndarray complex) :=
  match bshape (shape pp) (shape f) with
  | None => Raise RuntimeError
  | Some out =>
      Ok (mk_ndarray out
            (map (fun k =>
                    cmul (nth (bindex (rev (shape pp)) (rev out) k) (data pp)
                              (F32.nan, F32.nan))
                         (of_real (nth (bindex (rev (shape f)) (rev out) k)
                                       (data f) F32.nan)))
                 (seq 0 (size_of out))))
  end.

(** ** Reductions *)

(** [t.mean()]. *)
Definition mean (a : real) : spec_float :=
  F32.div (F32.sum (data a)) (F32.of_nat (length (data a))).

(** [t.max()]: not defined on an empty tensor. *)
Definition max (a : real) : result spec_float :=
  match data a with
  | [] => Raise RuntimeError
  | x :: xs => Ok (fold_left F32.maximum xs x)
  end.

Definition map_data (f : spec_float -> spec_float) (a : real) : real :=
  mk_ndarray (shape a) (map f (data a)).

(** The Python float [1e-12]. *)
Definition eps : spec_float := S754_finite false 4951760157141521 (-92).

Section Torch.

(** Elementwise power with a Python scalar exponent ([t ** e]). *)
Variable tpow : spec_float -> spec_float -> spec_float.

(** The numeric kernels of [torch.fft.fft2] and [torch.fft.ifft2]: from
    the shape and the data of the input to the data of the output. *)
Variable fft2_kernel : list nat -> list complex -> list complex.
Variable ifft2_kernel : list nat -> list complex -> list complex.

(** [loss_function(encoding_model(image), neuron_idx).backward()]: the
    gradient left in [image.grad]. *)
Variable backward : real -> nat -> result real.

(** [torchvision.transforms.functional.gaussian_blur]. *)
Variable gaussian_blur : real -> nat -> spec_float -> real.

(** [torch.minimum(torch.arange(0, n, 1), torch.arange(n - 1, -1, -1))]. *)
Definition ramp (n : nat) : list spec_float :=
  map (fun x => F32.minimum (F32.of_nat x) (F32.of_nat (n - 1 - x))) (seq 0 n).

(** One entry of the kernel, from its entries of [tw] and [th]. *)
Definition lowpass_entry (alpha twx thy : spec_float) : spec_float :=
  F32.rtruediv F32.one
    (F32.maximum F32.one
       (tpow (F32.add (tpow twx (F64.of_Z 2)) (tpow thy (F64.of_Z 2))) alpha)).

(** [get_lowpass_tensor]. *)
Definition get_lowpass_tensor (image : real)
           (gradient_smoothing_factor : spec_float) : result real :=
  match shape image with
  | [_; _; height; width] =>
      let tw := ramp width in
      let th := ramp height in
      Ok (mk_ndarray [height; width]
            (flat_map (fun thy =>
               map (fun twx => lowpass_entry gradient_smoothing_factor twx thy) tw)
               th))
  | _ => Raise ValueError
  end.

(** [torch.fft.fft2] of a real tensor and [torch.fft.ifft2] of a complex
    one: the last two axes are transformed, so there must be two. *)
Definition fft2 (a : real) : result (ndarray complex) :=
  if 2 <=? ndim a
  then Ok (mk_ndarray (shape a) (fft2_kernel (shape a) (map of_real (data a))))
  else Raise IndexError.

Definition ifft2 (a : ndarray complex) : result (ndarray complex) :=
  if 2 <=? ndim a
  then Ok (mk_ndarray (shape a) (ifft2_kernel (shape a) (data a)))
  else Raise IndexError.

(** [lowpass_filtering_in_frequency_domain]. *)
Definition lowpass_filtering_in_frequency_domain
           (image_grad lowpass : real) : result tensor :=
  let m := mean lowpass in
  let f := map_data (fun x => F32.div x m) lowpass in
  pp <- fft2 image_grad ;;
  prod <- mul_complex_real pp f ;;
  out <- ifft2 prod ;;
  Ok (TComplex out).

(** The factor in front of [image.grad] in the update:
    [(lr / torch.abs(image.grad).mean() + 1e-12) * (step_gain / 255)]. *)
Definition ascent_rate (grad : real) (step_gain lr : spec_float) : spec_float :=
  F32.mul
    (F32.add (F32.rtruediv (F32.of_f64 lr) (mean (map_data F32.abs grad)))
             (F32.of_f64 eps))
    (F32.of_f64 (F64.div step_gain (F64.of_Z 255))).

(** The term added to the image. *)
Definition ascent_update (grad : real) (step_gain lr : spec_float) : real :=
  map_data (F32.mul (ascent_rate grad step_gain lr)) grad.

(** [image += update]; [image.grad], and with it the update, has the
    shape of [image]. *)
Definition iadd (image update : real) : result real :=
  if list_eq_dec Nat.eq_dec (shape image) (shape update)
  then Ok (mk_ndarray (shape image)
             (LinFilter.map2 F32.add (data image) (data update)))
  else Raise RuntimeError.

(** The rate as the contract words it, with epsilon inside the
    denominator: [lr / (mean(|grad|) + 1e-12) * (step_gain / 255)]. *)
Definition contract_rate (grad : real) (step_gain lr : spec_float) : spec_float :=
  F32.mul
    (F32.div (F32.of_f64 lr)
             (F32.add (mean (map_data F32.abs grad)) (F32.of_f64 eps)))
    (F32.of_f64 (F64.div step_gain (F64.of_Z 255))).

(** The update as the contract words it: the rate above times the filtered
    gradient. *)
Definition contract_update (grad filtered : real) (step_gain lr : spec_float)
  : real :=
  map_data (F32.mul (contract_rate grad step_gain lr)) filtered.

(** [naive_gradient_ascent_step]; the two [print] calls are left out. *)
Definition naive_gradient_ascent_step (image lowpass : real)
           (neuron_idx : nat) (step_gain lr sigma : spec_float)
  : result real :=
  m <- max image ;;
  let image := map_data (fun x => F32.div x m) image in
  grad <- backward image neuron_idx ;;
  a <- lowpass_filtering_in_frequency_domain grad lowpass ;;
  image <- iadd image (ascent_update grad step_gain lr) ;;
  Ok (gaussian_blur image 3 sigma).

End Torch.

(** What IEEE 754 fixes for a power function at the operands the corner
    of the kernel meets: [pow(x, +-0) = 1] for every [x], and
    [pow(+0, a) = +0] for every [a > 0]. *)
Definition pow_zero_exponent (tpow : spec_float -> spec_float -> spec_float)
  : Prop :=
  forall x a, SFeqb a (S754_zero false) = true -> tpow x a = F32.one.

Definition pow_zero_base (tpow : spec_float -> spec_float -> spec_float)
  : Prop :=
  forall a, SFltb (S754_zero false) a = true ->
            tpow (S754_zero false) a = S754_zero false.

End Mei.

(* ================================================================== *)
(** * Conditions on correlation tables *)
(* ================================================================== *)

(** The situations the statements about [compute_best_parameter]
    distinguish, as decidable conditions on the rows of the tables. *)
Module Tables.

(** Entry [j] of the row is a number and every other entry is strictly
    below it. *)
Definition dominates (j : nat) (row : list spec_float) : bool :=
  match nth_error row j with
  | Some c =>
      Pd.notnan c &&
      forallb (fun kx => (fst kx =? j) || F64.ltb (snd kx) c)
              (combine (seq 0 (length row)) row)
  | None => false
  end.

(** The row of factors has a number at position [j]. *)
Definition has_factor (j : nat) (row : list spec_float) : bool :=
  match nth_error row j with
  | Some p => Pd.notnan p
  | None => false
  end.

(** How many entries of the row equal its maximum. *)
Definition winners (row : list spec_float) : nat :=
  length (filter (fun x => F64.eqb x (Pd.row_max row)) row).

(** More than one entry achieves the maximum of the row. *)
Definition tied (row : list spec_float) : bool := 2 <=? winners row.

(** Every row of factors is free of NaN and at least as long as the row
    of correlations at the same position. *)
Definition covers (params corrs : list (list spec_float)) : bool :=
  forallb (fun pc => (length (snd pc) <=? length (fst pc)) &&
                     forallb Pd.notnan (fst pc))
          (combine params corrs).

(** Column [j] of a table. *)
Definition column (j : nat) (rows : list (list spec_float))
  : list spec_float :=
  map (fun row => nth j row F64.nan) rows.

End Tables.

(* ================================================================== *)
(** * Concrete inputs *)
(* ================================================================== *)

Module Examples.

Import LinFilter.

Definition env : Env :=
  mk_Env "2021-09-01_12:00:00" "/home/user" (fun _ => Ok tt).

(** A filter object over the integers whose filter tensor has two
    channels: shape (1, 2, 1, 1). *)
Definition two_channel_filter : Filter Z :=
  mk_Filter (mk_ndarray [1; 2; 1; 1] [1; 2]%Z) 1 2 1 1
            (mk_ndarray [1; 1] [5%Z]) 1 (FNone Z) "raw" normal_filter
            "2021-09-01_12:00:00" "/home/user/models/linear_filter/2021-09-01_12:00:00"
            None None (Some (mk_ndarray [1; 2; 1; 1] [7; 8]%Z)) None None.

(** A single-channel filter object: three neurons, images of 2 x 2. *)
Definition one_channel_filter : Filter Z :=
  mk_Filter (mk_ndarray [1; 1; 2; 2] [1; 2; 3; 4]%Z) 1 1 2 2
            (mk_ndarray [1; 3] [5; 6; 7]%Z) 3 (FNone Z) "raw" normal_filter
            "2021-09-01_12:00:00" "/home/user/models/linear_filter/2021-09-01_12:00:00"
            None None
            (Some (mk_ndarray [3; 1; 2; 2]
                     [1; 2; 3; 4; 5; 6; 7; 8; 9; 10; 11; 12]%Z))
            None None.

(** Two images of one pixel against three rows of responses. *)
Definition two_images : ndarray Z := mk_ndarray [2; 1; 1; 1] [1; 2]%Z.
Definition three_responses : ndarray Z := mk_ndarray [3; 1] [1; 2; 3]%Z.

(** ** Correlation tables *)

Definition q (a b : Z) : spec_float := F64.div (F64.of_Z a) (F64.of_Z b).

Definition search (n : nat) (factors : list spec_float)
           (corrs : list (list spec_float))
  : Search.Hyperparametersearch unit unit :=
  Search.mk_Search tt tt factors false n (seq 0 n) "2021-09-01_12:00:00"
    (Some "/home/user/reports/linear_filter/global_hyperparametersearch/2021-09-01_12:00:00"%string)
    (Some (Pd.mk_DataFrame factors (map (fun _ => factors) (seq 0 n))))
    (Some (Pd.mk_DataFrame factors corrs))
    None None None None [].

(** Two neurons, three candidates; the second candidate is best for both. *)
Definition dominated_search : Search.Hyperparametersearch unit unit :=
  search 2 [F64.of_Z 1; F64.of_Z 10; F64.of_Z 100]
         [[q 1 4; q 3 4; q 1 2]; [q 0 1; q 1 2; q 1 4]].

(** One neuron, two candidates with the same correlation. *)
Definition tied_search : Search.Hyperparametersearch unit unit :=
  search 1 [F64.of_Z 1; F64.of_Z 10] [[q 1 2; q 1 2]].

(** ** Tensors *)

(** The power function where IEEE 754 fixes its value without rounding
    and the examples need it: a zero exponent gives one, a NaN operand
    gives NaN, and [+0] to a positive power is [+0], to a negative power
    [+inf]. The examples use no other operands (there it is NaN). *)
Definition pow_ref (x a : spec_float) : spec_float :=
  if SFeqb a (S754_zero false) then F32.one
  else if IEEE.is_nan x || IEEE.is_nan a then S754_nan
  else match x with
       | S754_zero false =>
           if SFltb (S754_zero false) a then S754_zero false
           else S754_infinity false
       | _ => S754_nan
       end.

(** The transform of a plane with a single sample (H = W = 1) is that
    sample, forwards and backwards: the kernel for tensors of such planes. *)
Definition fft2_single_sample (sh : list nat) (d : list Mei.complex)
  : list Mei.complex := d.

(** An image of one pixel, an image of 2 x 2 pixels, and masks for them. *)
Definition pixel : Mei.real := mk_ndarray [1; 1; 1; 1] [F32.of_Z 2].
Definition pixel_mask : Mei.real := mk_ndarray [1; 1] [F32.one].
Definition image_2x2 : Mei.real :=
  mk_ndarray [1; 1; 2; 2] [F32.of_Z 1; F32.of_Z 2; F32.of_Z 3; F32.of_Z 4].
Definition mask_2x2 : Mei.real :=
  mk_ndarray [2; 2] [F32.of_Z 1; F32.of_Z 1; F32.of_Z 1; F32.of_Z 1].

(** The gradient of a constant score: zero at every pixel. *)
Definition constant_score (image : Mei.real) (neuron_idx : nat)
  : result Mei.real :=
  Ok (Mei.map_data (fun _ => F32.zero) image).

(** The Python floats [1.5] and [1]. *)
Definition lr_default : spec_float := q 3 2.
Definition step_gain_default : spec_float := F64.of_Z 1.

End Examples.

(* ================================================================== *)
(** * lin_filter.py: training *)
(* ================================================================== *)

Module Training.

Import LinFilter.

Section Methods.

Variable A : Type.

(** [self._compute_filter(responses=..., reg_factor=...)]: the call of the
    estimator whose reference the constructor stored in the object. *)
Variable call_compute_filter :
  Filter A -> ndarray A -> factor A -> result (Filter A * ndarray A).

(** [Filter._handle_train_parsing]. *)
Definition _handle_train_parsing (self : Filter A) (reg_factor : factor A)
  : factor A :=
  match reg_factor with
  | FNone _ => LinFilter.reg_factor self
  | _ => reg_factor
  end.

(** [GlobalRegularizationFilter.train]; the calls of [_shape_printer] only
    print. *)
Definition GlobalRegularizationFilter_train (self : Filter A)
           (reg_factor : factor A) : result (Filter A * ndarray A) :=
  let reg_factor := _handle_train_parsing self reg_factor in
  self <- _image_2d self ;;
  r <- call_compute_filter self (responses self) reg_factor ;;
  let '(self, f) := r in
  let self := set_fil self f in
  self <- _fil_4d self ;;
  f <- get_fil self ;;
  Ok (self, f).

End Methods.

(** Entry [(i, j)] of a 2-D array with [cols] columns, zero outside. *)
Definition entry {A} (zero : A) (cols : nat) (a : ndarray A) (i j : nat) : A :=
  nth (i * cols + j) (data a) zero.

(** The sum over the samples [i < n] of [x i * y i], from the left. *)
Definition sum_of_products {A} (zero : A) (add mul : A -> A -> A)
           (n : nat) (x y : nat -> A) : A :=
  dot zero add mul (map x (seq 0 n)) (map y (seq 0 n)).

End Training.

(* ================================================================== *)
(** * lin_filter.py: reading the hyperparameters back *)
(* ================================================================== *)

Module Parameters.

Import Search.

(** [a[0]]: the first entry along the first axis. *)
Definition first_row (a : array) : result array :=
  match shape a with
  | d :: rest =>
      if 0 <? d then Ok (mk_ndarray rest (firstn (size_of rest) (data a)))
      else Raise IndexError
  | [] => Raise IndexError
  end.

Section Parameters.

Variables TF VF : Type.

(** [GlobalHyperparametersearch.get_parameters]. *)
Definition global_get_parameters (self : Hyperparametersearch TF VF)
  : result array :=
  h <- attr (hyperparameters self) ;;
  first_row h.

(** [IndividualHyperparametersearch.get_parameters]. *)
Definition individual_get_parameters (self : Hyperparametersearch TF VF)
  : result array :=
  attr (hyperparameters self).

End Parameters.

End Parameters.

(* ================================================================== *)
(** * mei.py: the loop over neurons and epochs *)
(* ================================================================== *)

Module MeiLoop.

Import Mei.

(** The Python float [0.1], the default [gradient_smoothing_factor], and
    the default [step_gain], [1]. *)
Definition alpha_default : spec_float := F64.div (F64.of_Z 1) (F64.of_Z 10).
Definition step_gain_default : spec_float := F64.of_Z 1.

(** [l[i]] on a Python list. *)
Definition index {X} (l : list X) (i : nat) : result X :=
  match nth_error l i with
  | Some x => Ok x
  | None => Raise IndexError
  end.

(** [d[k] = v] on a dict, kept in insertion order: the value of a key that
    is present is replaced where it stands. *)
Fixpoint dict_set {V} (d : list (nat * V)) (k : nat) (v : V) : list (nat * V) :=
  match d with
  | [] => [(k, v)]
  | (k', v') :: d' =>
      if k' =? k then (k, v) :: d' else (k', v') :: dict_set d' k v
  end.

Fixpoint dict_get {V} (d : list (nat * V)) (k : nat) : option V :=
  match d with
  | [] => None
  | (k', v') :: d' => if k' =? k then Some v' else dict_get d' k
  end.

Section Loop.

Variable tpow : spec_float -> spec_float -> spec_float.
Variable fft2_kernel : list nat -> list complex -> list complex.
Variable ifft2_kernel : list nat -> list complex -> list complex.
Variable gaussian_blur : real -> nat -> spec_float -> real.

(** The backward pass for an image that requires grad: its [image.grad]. *)
Variable backward : real -> nat -> result real.

(** The forward and backward pass for an image that does not require
    grad: only its errors matter, [image.grad] stays [None]. *)
Variable backward_untracked : real -> nat -> result unit.

(** [torch.linspace(start, end, steps).tolist()]. *)
Variable linspace : spec_float -> spec_float -> nat -> list spec_float.

(** What the loop does outside the tensors: [wandb.init] with the making
    of the directory, the saving of the image with its readme, and the
    figures of [show] and [show_last]. *)
Variable start_run : nat -> result unit.
Variable save_mei : nat -> real -> result unit.
Variable plot : nat -> real -> result unit.
Variable final_figures : nat -> real -> bool -> bool -> result unit.

(** [naive_gradient_ascent_step] on the tensor a step returned. That
    tensor was made inside [with torch.no_grad()] and does not require
    grad, so after the backward pass its [.grad] is [None] and
    [image_grad.new_tensor] in the gradient filter raises. *)
Definition step_without_grad (image : real) (neuron_idx : nat) : result real :=
  m <- max image ;;
  let image := map_data (fun x => F32.div x m) image in
  backward_untracked image neuron_idx ;;;
  Raise AttributeError.

(** The [for epoch in track(range(epochs - 1), ...)] loop, over the values
    [epoch + 1] it works with. *)
Fixpoint later_epochs (lrs sigmas : list spec_float) (neuron : nat) (show : bool)
         (epochs : list nat) (new_image : real) : result real :=
  match epochs with
  | [] => Ok new_image
  | epoch :: rest =>
      lr <- index lrs epoch ;;
      sigma <- index sigmas epoch ;;
      new_image <- step_without_grad new_image neuron ;;
      (if show && (epoch mod 10 =? 0) then plot neuron new_image else Ok tt) ;;;
      later_epochs lrs sigmas neuron show rest new_image
  end.

(** The body of the loop over the neurons. *)
Definition one_neuron (image lowpass : real) (lrs sigmas : list spec_float)
           (epochs : nat) (show show_last : bool)
           (meis : list (nat * real)) (neuron : nat)
  : result (list (nat * real)) :=
  start_run neuron ;;;
  lr <- index lrs 0 ;;
  sigma <- index sigmas 0 ;;
  new_image <- naive_gradient_ascent_step fft2_kernel ifft2_kernel backward
                 gaussian_blur image lowpass neuron step_gain_default lr sigma ;;
  new_image <- later_epochs lrs sigmas neuron show (seq 1 (epochs - 1)) new_image ;;
  save_mei neuron new_image ;;;
  let meis := dict_set meis neuron new_image in
  final_figures neuron new_image show show_last ;;;
  Ok meis.

Fixpoint over_neurons (image lowpass : real) (lrs sigmas : list spec_float)
         (epochs : nat) (show show_last : bool)
         (meis : list (nat * real)) (neurons : list nat)
  : result (list (nat * real)) :=
  match neurons with
  | [] => Ok meis
  | neuron :: rest =>
      meis <- one_neuron image lowpass lrs sigmas epochs show show_last
                         meis neuron ;;
      over_neurons image lowpass lrs sigmas epochs show show_last meis rest
  end.

(** [mei]. *)
Definition mei (image : real) (selected_neuron_indicies : list nat)
           (lr_start lr_end : spec_float) (epochs : nat)
           (show show_last : bool) (sigma_start sigma_end : spec_float)
  : result (list (nat * real)) :=
  lowpass <- get_lowpass_tensor tpow image alpha_default ;;
  let lrs := linspace lr_start lr_end epochs in
  let sigmas := linspace sigma_start sigma_end epochs in
  over_neurons image lowpass lrs sigmas epochs show show_last []
               selected_neuron_indicies.

End Loop.

End MeiLoop.

(** Inputs on which the loop is run. *)
Module MeiExamples.

(** [torch.linspace(a, a, n).tolist()]: [n] times [a]. *)
Definition linspace_constant (a b : spec_float) (n : nat) : list spec_float :=
  repeat a n.

(** A run in which nothing outside the tensors fails. *)
Definition quiet (neuron : nat) : result unit := Ok tt.
Definition quiet_save (neuron : nat) (image : Mei.real) : result unit := Ok tt.
Definition quiet_figures (neuron : nat) (image : Mei.real) (show show_last : bool)
  : result unit := Ok tt.

(** A backward pass that reaches the parameters of the model. *)
Definition backward_parameters (image : Mei.real) (neuron_idx : nat)
  : result unit := Ok tt.

(** A blur that leaves the image as it is. *)
Definition no_blur (image : Mei.real) (kernel_size : nat) (sigma : spec_float)
  : Mei.real := image.

(** An image of one pixel that is NaN among two. *)
Definition nan_pixel : Mei.real :=
  mk_ndarray [1; 1; 1; 2] [F32.of_Z 2; S754_nan].

End MeiExamples.

(* ================================================================== *)
(** * lin_filter.py: the Laplace regularizer *)
(* ================================================================== *)

Module Laplace.

Import LinFilter.

(** [l[i] = v] for an index in range. *)
Fixpoint set_nth {X} (l : list X) (i : nat) (v : X) : list X :=
  match l, i with
  | [], _ => []
  | _ :: l', 0 => v :: l'
  | x :: l', S i' => x :: set_nth l' i' v
  end.

(** A [for] loop whose body may raise. *)
Fixpoint for_each {X S} (body : S -> X -> result S) (l : list X) (s : S)
  : result S :=
  match l with
  | [] => Ok s
  | x :: l' => s <- body s x ;; for_each body l' s
  end.

Section Bias.

Variable A : Type.

(** The numbers [0.0], [4.0] and [-1.0] of the element type. *)
Variables zero four neg_one : A.
Variables add mul : A -> A -> A.
Variable pinv : ndarray A -> result (ndarray A).

(** [norm[i, j] = v] on a matrix of [rows] by [cols]. *)
Definition setitem (rows cols : nat) (norm : list A) (i j : nat) (v : A)
  : result (list A) :=
  if (i <? rows) && (j <? cols)
  then Ok (set_nth norm (i * cols + j) v)
  else Raise IndexError.

(** The body of the inner loop up to [norm.flatten()]: the stencil of the
    pixel (x, y). *)
Definition stencil (sizex sizey x y : nat) : result (list A) :=
  let norm := repeat zero (sizex * sizey) in
  norm <- setitem sizex sizey norm x y four ;;
  norm <- (if 0 <? x then setitem sizex sizey norm (x - 1) y neg_one
           else Ok norm) ;;
  norm <- (if x <? sizex - 1 then setitem sizex sizey norm (x + 1) y neg_one
           else Ok norm) ;;
  norm <- (if 0 <? y then setitem sizex sizey norm x (y - 1) neg_one
           else Ok norm) ;;
  norm <- (if y <? sizey - 1 then setitem sizex sizey norm x (y + 1) neg_one
           else Ok norm) ;;
  Ok norm.

(** [S[row, :] = v]. *)
Definition set_row (S : list (list A)) (row : nat) (v : list A)
  : result (list (list A)) :=
  if row <? length S then Ok (set_nth S row v) else Raise IndexError.

(** The body of the two loops: the stencil of (x, y) goes to row
    [x * sizex + y]. *)
Definition write_stencil (sizex sizey : nat) (S : list (list A))
           (xy : nat * nat) : result (list (list A)) :=
  let '(x, y) := xy in
  norm <- stencil sizex sizey x y ;;
  set_row S (x * sizex + y) norm.

(** [__laplaceBias], with [S] kept as its list of rows until it is
    returned. *)
Definition __laplaceBias (sizex sizey : nat) : result (ndarray A) :=
  let n := sizex * sizey in
  let S := repeat (repeat zero n) n in
  S <- for_each
         (fun S x =>
            for_each (fun S y => write_stencil sizex sizey S (x, y))
                     (seq 0 sizey) S)
         (seq 0 sizex) S ;;
  Ok (mk_ndarray [n; n] (concat S)).

(** [Filter._laplace_regularized_filter], for a number as [reg_factor].
    The returned [np.matrix] is given as its shape and data. *)
Definition _laplace_regularized_filter (self : Filter A)
           (responses : ndarray A) (reg_factor : A)
  : result (Filter A * ndarray A) :=
  self <- _image_2d self ;;
  laplace <- __laplaceBias (dim1 self) (dim2 self) ;;
  let X := images self in
  let y := LinFilter.responses self in
  let reg_matrix := scale mul reg_factor laplace in
  xt <- transpose X ;;
  xtx <- matmul zero add mul xt X ;;
  inv <- plus add xtx reg_matrix ;;
  inv <- pinv inv ;;
  xt' <- transpose X ;;
  a <- matmul zero add mul inv xt' ;;
  fil <- matmul zero add mul a y ;;
  Ok (self, fil).

End Bias.

End Laplace.

(** Inputs for the regularizer. *)
Module LaplaceExamples.

Import LinFilter.

(** One image of two rows and one column, one neuron. *)
Definition tall_filter : Filter Z :=
  mk_Filter (mk_ndarray [1; 1; 2; 1] [1; 2]%Z) 1 1 2 1
            (mk_ndarray [1; 1] [5%Z]) 1 (FScalar 10%Z) "laplace regularized"
            laplace_regularized_filter
            "2021-09-01_12:00:00" "/home/user/models/linear_filter/2021-09-01_12:00:00"
            None None None None None.

(** A pseudo-inverse whose SVD does not converge. *)
Definition pinv_diverges (m : ndarray Z) : result (ndarray Z) :=
  Raise ValueError.

End LaplaceExamples.

(* ================================================================== *)
(** * lin_filter.py: [predict] and [evaluate] *)
(* ================================================================== *)

Module Evaluate.

Import LinFilter.

Section Methods.

Variable A : Type.
Variable zero : A.
Variables add mul : A -> A -> A.

(** The Pearson coefficient of two samples of one length, entry [0, 1] of
    what [np.corrcoef] returns. *)
Variable pearson : list A -> list A -> A.

(** [self.train()] of the class of the object: the object it leaves and
    the value it returns ([None] for the base class). *)
Variable train : Filter A -> result (Filter A * option (ndarray A)).

(** The file system: [Path.mkdir], the writing of [Correlations.csv] under
    [self.report_dir], the saving of the filter with its readme under
    [self.model_dir], and the saving of a figure. *)
Variable env : Env.
Variable write_correlations : option string -> list (nat * A) -> result unit.
Variable save_filter : string -> ndarray A -> result unit.
Variable save_figure : string -> nat -> A -> ndarray A -> result unit.

(** The attributes [predict] and [evaluate] add to the object. *)
Record Evaluated : Type := mk_Evaluated
  { filter : Filter A;
    single_neuron_correlations : option (list A);
    neural_correlations : option (list (nat * A)) }.

Definition set_filter (self : Evaluated) (f : Filter A) : Evaluated :=
  mk_Evaluated f (single_neuron_correlations self) (neural_correlations self).

(** [self.fil = v] for a value that may be [None]. *)
Definition set_fil_value (self : Filter A) (v : option (ndarray A)) : Filter A :=
  mk_Filter (images self) (image_count self) (channels self) (dim1 self)
            (dim2 self) (responses self) (neuron_count self)
            (reg_factor self) (reg_type self) (_compute_filter self)
            (time self) (model_dir self) (report_dir self)
            (figure_dir self) v (prediction self) (corr self).

Definition set_prediction (self : Filter A) (p : ndarray A) (c : A) : Filter A :=
  mk_Filter (images self) (image_count self) (channels self) (dim1 self)
            (dim2 self) (responses self) (neuron_count self)
            (reg_factor self) (reg_type self) (_compute_filter self)
            (time self) (model_dir self) (report_dir self)
            (figure_dir self) (fil self) (Some p) (Some c).

Definition set_report_dir (self : Filter A) (d : string) : Filter A :=
  mk_Filter (images self) (image_count self) (channels self) (dim1 self)
            (dim2 self) (responses self) (neuron_count self)
            (reg_factor self) (reg_type self) (_compute_filter self)
            (time self) (model_dir self) (Some d)
            (figure_dir self) (fil self) (prediction self) (corr self).

Definition set_figure_dir (self : Filter A) (d : string) : Filter A :=
  mk_Filter (images self) (image_count self) (channels self) (dim1 self)
            (dim2 self) (responses self) (neuron_count self)
            (reg_factor self) (reg_type self) (_compute_filter self)
            (time self) (model_dir self) (report_dir self)
            (Some d) (fil self) (prediction self) (corr self).

(** [np.corrcoef(x, y)[0, 1]] for two 1-D arrays: they are stacked, so
    they must have one length. *)
Definition corrcoef (x y : list A) : result A :=
  if length x =? length y then Ok (pearson x y) else Raise ValueError.

(** [a[:, j]] for a 2-D array. *)
Definition column (a : ndarray A) (j : nat) : result (list A) :=
  match shape a with
  | [r; c] =>
      if j <? c
      then Ok (map (fun i => nth (i * c + j) (data a) zero) (seq 0 r))
      else Raise IndexError
  | _ => Raise IndexError
  end.

(** The last test of [_handle_predict_parsing]. *)
Definition flatten_if_4d (f : ndarray A) : result (ndarray A) :=
  if ndim f =? 4 then _reshape_filter_2d f else Ok f.

(** [Filter._handle_predict_parsing]. *)
Definition _handle_predict_parsing (self : Filter A) (fil : option (ndarray A))
  : result (Filter A * ndarray A) :=
  match fil with
  | None =>
      self <- match LinFilter.fil self with
              | None => r <- train self ;; Ok (fst r)
              | Some _ => Ok self
              end ;;
      self <- _fil_2d self ;;
      f <- get_fil self ;;
      f <- flatten_if_4d f ;;
      Ok (self, f)
  | Some f =>
      f <- flatten_if_4d f ;;
      Ok (self, f)
  end.

(** The loop of [predict] over the neurons. *)
Fixpoint single_correlations (prediction responses : ndarray A)
         (neurons : list nat) : result (list A) :=
  match neurons with
  | [] => Ok []
  | neuron :: rest =>
      pred <- column prediction neuron ;;
      resp <- column responses neuron ;;
      single_corr <- corrcoef pred resp ;;
      cs <- single_correlations prediction responses rest ;;
      Ok (single_corr :: cs)
  end.

(** [Filter.predict], for a filter that is 2-D once parsed. *)
Definition predict (self : Evaluated) (fil : option (ndarray A))
           (single_neuron_correlation : bool)
  : result (Evaluated * (ndarray A * A)) :=
  r <- _handle_predict_parsing (filter self) fil ;;
  let '(s, f) := r in
  s <- _image_2d s ;;
  prediction <- matmul zero add mul (images s) f ;;
  c <- corrcoef (data prediction) (data (responses s)) ;;
  let s := set_prediction s prediction c in
  if single_neuron_correlation then
    cs <- single_correlations prediction (responses s)
            (seq 0 (neuron_count s)) ;;
    Ok (mk_Evaluated s (Some cs) (neural_correlations self), (prediction, c))
  else Ok (set_filter self s, (prediction, c)).

(** [Filter._handle_evaluate_parsing]; without a filter it returns
    [self.prediction] as it finds it. *)
Definition _handle_evaluate_parsing (self : Evaluated)
           (fil : option (ndarray A))
  : result (Evaluated * option (ndarray A)) :=
  match fil with
  | None =>
      self <- match LinFilter.fil (filter self) with
              | None =>
                  r <- train (filter self) ;;
                  Ok (set_filter self (set_fil_value (fst r) (snd r)))
              | Some _ => Ok self
              end ;;
      self <- match prediction (filter self) with
              | None => r <- predict self None false ;; Ok (fst r)
              | Some _ => Ok self
              end ;;
      Ok (self, prediction (filter self))
  | Some f =>
      f <- flatten_if_4d f ;;
      r <- predict self (Some f) false ;;
      Ok (fst r, Some (fst (snd r)))
  end.

(** [_reshape_filter_2d(fil)] for an argument that may be [None]. *)
Definition reshape_argument (fil : option (ndarray A)) : result (ndarray A) :=
  match fil with
  | Some f => _reshape_filter_2d f
  | None => Raise AttributeError
  end.

(** The body of the loop of [evaluate]. *)
Definition evaluate_neuron (store_images : bool)
           (computed_prediction fil : ndarray A)
           (state : Filter A * list (nat * A)) (neuron : nat)
  : result (Filter A * list (nat * A)) :=
  let '(s, correlations) := state in
  pred <- column computed_prediction neuron ;;
  resp <- column (responses s) neuron ;;
  c <- corrcoef pred resp ;;
  s <- (if store_images then
          let figure_dir :=
            (cwd env ++ "/reports/figures/linear_filter/" ++ time s)%string in
          let s := set_figure_dir s figure_dir in
          mkdir env figure_dir ;;;
          col <- column fil neuron ;;
          im <- reshape (mk_ndarray [length col] col) [dim1 s; dim2 s] ;;
          save_figure figure_dir neuron c im ;;;
          Ok s
        else Ok s) ;;
  Ok (s, correlations ++ [(neuron, c)]).

Fixpoint evaluate_neurons (store_images : bool)
         (computed_prediction fil : ndarray A)
         (neurons : list nat) (state : Filter A * list (nat * A))
  : result (Filter A * list (nat * A)) :=
  match neurons with
  | [] => Ok state
  | neuron :: rest =>
      state <- evaluate_neuron store_images computed_prediction fil
                 state neuron ;;
      evaluate_neurons store_images computed_prediction fil rest state
  end.

(** [Filter.evaluate]. *)
Definition evaluate (self : Evaluated) (fil : option (ndarray A))
           (reports store_images : bool) (report_dir : option string)
  : result (Evaluated * list (nat * A)) :=
  s <- match report_dir with
       | None =>
           let d := (cwd env ++ "/reports/linear_filter/"
                     ++ time (filter self))%string in
           mkdir env d ;;;
           Ok (set_report_dir (filter self) d)
       | Some d => Ok (set_report_dir (filter self) d)
       end ;;
  r <- _handle_evaluate_parsing (set_filter self s) fil ;;
  let '(self, computed_prediction) := r in
  fil <- reshape_argument fil ;;
  computed_prediction <- match computed_prediction with
                         | Some p => Ok p
                         | None => Raise AttributeError
                         end ;;
  count <- shape_at computed_prediction 1 ;;
  state <- evaluate_neurons store_images computed_prediction fil
             (seq 0 count) (filter self, []) ;;
  let '(s, correlations) := state in
  let s := set_fil s fil in
  s <- _fil_4d s ;;
  (if reports then
     write_correlations (LinFilter.report_dir s) correlations ;;;
     f <- get_fil s ;;
     save_filter (model_dir s) f
   else Ok tt) ;;;
  Ok (mk_Evaluated s (single_neuron_correlations self) (Some correlations),
      correlations).

End Methods.

End Evaluate.

(** Inputs for [predict] and [evaluate]. *)
Module EvaluateExamples.

Import LinFilter.

(** The coefficient of two samples that lie on one rising line, as the
    predictions and the responses of the examples do. *)
Definition pearson_collinear (x y : list Z) : Z := 1%Z.

(** [Filter.train] of the base class: it does nothing and returns
    [None]. *)
Definition base_train (self : Filter Z)
  : result (Filter Z * option (ndarray Z)) := Ok (self, None).

(** A file system on which every write succeeds. *)
Definition write_ok (d : option string) (c : list (nat * Z)) : result unit :=
  Ok tt.
Definition save_ok (d : string) (f : ndarray Z) : result unit := Ok tt.
Definition figure_ok (d : string) (neuron : nat) (c : Z) (im : ndarray Z)
  : result unit := Ok tt.

(** The single-channel object before any prediction or evaluation. *)
Definition fresh : Evaluate.Evaluated Z :=
  Evaluate.mk_Evaluated Examples.one_channel_filter None None.

(** Its three filters of 2 x 2 pixels. *)
Definition three_filters : ndarray Z :=
  mk_ndarray [3; 1; 2; 2] [1; 2; 3; 4; 5; 6; 7; 8; 9; 10; 11; 12]%Z.

End EvaluateExamples.

(* ================================================================== *)
(** * lin_filter.py: [FilterReport] *)
(* ================================================================== *)

(** Results whose exception may also be a [TypeError]. *)
Module PyType.

Inductive exn : Type :=
| Builtin (e : Py.exn)
| TypeError.

Inductive outcome (A : Type) : Type :=
| Returned (a : A)
| Raised (e : exn).

Arguments Returned {A} a.
Arguments Raised {A} e.

Definition lift {A} (m : result A) : outcome A :=
  match m with
  | Ok a => Returned a
  | Raise e => Raised (Builtin e)
  end.

Definition and_then {A B} (m : outcome A) (k : A -> outcome B) : outcome B :=
  match m with
  | Returned a => k a
  | Raised e => Raised e
  end.

End PyType.

Module Report.

Import LinFilter PyType.

(** The character [/]. *)
Definition slash : Ascii.ascii := Ascii.ascii_of_nat 47.

(** [s.split(sep)] for a separator of one character. *)
Fixpoint split (sep : Ascii.ascii) (s : string) : list string :=
  match s with
  | EmptyString => [EmptyString]
  | String c s' =>
      if Ascii.eqb c sep then EmptyString :: split sep s'
      else match split sep s' with
           | p :: ps => String c p :: ps
           | [] => [String c EmptyString]
           end
  end.

(** [sep.join(parts)]. *)
Definition join (sep : Ascii.ascii) (parts : list string) : string :=
  match parts with
  | [] => EmptyString
  | p :: ps => fold_left (fun acc q => (acc ++ String sep q)%string) ps p
  end.

(** [s.rsplit(sep, maxsplit)]: the [maxsplit] rightmost separators split,
    the others stay in the first part. *)
Definition rsplit (sep : Ascii.ascii) (maxsplit : nat) (s : string)
  : list string :=
  let parts := split sep s in
  let joined := length parts - 1 - maxsplit in
  join sep (firstn (S joined) parts) :: skipn (S joined) parts.

(** [path / segment] of [pathlib]: an absolute segment replaces the path,
    an empty one leaves it. *)
Definition div (path segment : string) : string :=
  match segment with
  | EmptyString => path
  | String c _ =>
      if Ascii.eqb c slash then segment
      else (path ++ "/" ++ segment)%string
  end.

(** [Path.mkdir] with keyword arguments: its keywords are [mode],
    [parents] and [exist_ok]; any other is a [TypeError]. *)
Definition mkdir (env : Env) (path : string) (keywords : list string)
  : outcome unit :=
  if forallb (fun k => existsb (String.eqb k) ["mode"; "parents"; "exist_ok"]%string)
             keywords
  then lift (LinFilter.mkdir env path)
  else Raised TypeError.

Record FilterReport : Type := mk_FilterReport
  { counter : nat;
    report_file : string;
    correlation_file : string;
    report_figure_path : string;
    filter_file : string }.

(** [FilterReport.__init__]. *)
Definition __init__ (env : Env) (report_file : string) (counter : nat)
  : outcome FilterReport :=
  match rsplit slash 5 report_file with
  | [_; reports_dir; fil_type; reg_type; date_time; _] =>
      let correlation_file :=
        div (div (div (div (div (cwd env) reports_dir) fil_type) reg_type)
                 date_time) "Correlations.csv" in
      let report_figure_path :=
        div (div (div (div (div (cwd env) reports_dir) "figures") fil_type)
                 reg_type) date_time in
      and_then (mkdir env report_figure_path ["parents"; "exists_ok"]%string)
        (fun _ =>
           let filter_file :=
             div (div (div (div (cwd env) "models") fil_type) date_time)
                 "evaluated_filter.npy" in
           Returned (mk_FilterReport counter report_file correlation_file
                       report_figure_path filter_file))
  | _ => Raised (Builtin ValueError)
  end.

End Report.

(* ================================================================== *)
(** * lin_filter.py: [IndividualRegularizationFilter.train] *)
(* ================================================================== *)

Module Individual.

Import LinFilter PyType.

Section Methods.

Variable A : Type.
Variable zero : A.

(** The estimator stored in [self._compute_filter]. *)
Variable call_compute_filter :
  Filter A -> ndarray A -> factor A -> result (Filter A * ndarray A).

(** What the memory [np.empty] hands out holds, cell by cell. *)
Variable garbage : nat -> A.

(** [np.empty(shape)]. *)
Definition empty (sh : list nat) : ndarray A :=
  mk_ndarray sh (map garbage (seq 0 (size_of sh))).

(** Column [j] of an [r] x [c] array set to the values [v i]. *)
Definition with_column (r c j : nat) (v : nat -> A) (a : ndarray A)
  : ndarray A :=
  mk_ndarray [r; c]
    (map (fun idx => if idx mod c =? j then v (idx / c)
                     else nth idx (data a) zero)
         (seq 0 (r * c))).

(** [filters[:, j] = v]: [v] is broadcast to the column, so it has the
    length of the column or a single element. *)
Definition set_column (filters : ndarray A) (j : nat) (v : ndarray A)
  : result (ndarray A) :=
  match shape filters with
  | [r; c] =>
      if j <? c then
        match shape v with
        | [] => Ok (with_column r c j (fun _ => nth 0 (data v) zero) filters)
        | [m] =>
            if m =? r
            then Ok (with_column r c j (fun i => nth i (data v) zero) filters)
            else if m =? 1
            then Ok (with_column r c j (fun _ => nth 0 (data v) zero) filters)
            else Raise ValueError
        | _ => Raise ValueError
        end
      else Raise IndexError
  | _ => Raise IndexError
  end.

(** The loop over [zip(range(self.neuron_count), reg_factors)]. *)
Fixpoint train_loop (self : Filter A) (filters : ndarray A)
         (pairs : list (nat * A)) : result (Filter A * ndarray A) :=
  match pairs with
  | [] => Ok (self, filters)
  | (neuron, reg_factor) :: rest =>
      self <- _image_2d self ;;
      col <- Evaluate.column zero (responses self) neuron ;;
      response <- reshape (mk_ndarray [length col] col)
                          [image_count self; 1] ;;
      r <- call_compute_filter self response (FScalar reg_factor) ;;
      let '(self, fil) := r in
      filters <- set_column filters neuron (squeeze fil) ;;
      train_loop self filters rest
  end.

(** [IndividualRegularizationFilter.train]: [zip] needs an iterable, so a
    number or [None] as the factors is a [TypeError]. *)
Definition IndividualRegularizationFilter_train (self : Filter A)
           (reg_factors : factor A) : outcome (Filter A * ndarray A) :=
  let reg_factors := Training._handle_train_parsing self reg_factors in
  let filters := empty [dim1 self * dim2 self; neuron_count self] in
  match reg_factors with
  | FList l =>
      lift (r <- train_loop self filters
                   (combine (seq 0 (neuron_count self)) l) ;;
            let '(self, filters) := r in
            let self := set_fil self filters in
            self <- _fil_4d self ;;
            f <- get_fil self ;;
            Ok (self, f))
  | _ => Raised TypeError
  end.

End Methods.

End Individual.

(** Inputs for the training with one factor per neuron. *)
Module IndividualExamples.

Import LinFilter.

(** One dark image of two pixels, two neurons. *)
Definition dark_filter : Filter Z :=
  mk_Filter (mk_ndarray [1; 1; 1; 2] [0; 0]%Z) 1 1 1 2
            (mk_ndarray [1; 2] [5; 6]%Z) 2 (FNone Z) "ridge regularized"
            ridge_regularized_filter
            "2021-09-01_12:00:00" "/home/user/models/linear_filter/2021-09-01_12:00:00"
            None None None None None.

(** The pseudo-inverse on the identity matrix, the only matrix the dark
    image with the factor 1 hands to it. *)
Definition pinv_of_identity (m : ndarray Z) : result (ndarray Z) := Ok m.

(** The stored ridge estimator, called with a number as the factor. *)
Definition ridge_call (s : Filter Z) (r : ndarray Z) (f : factor Z)
  : result (Filter Z * ndarray Z) :=
  match f with
  | FScalar x => _ridge_regularized_filter 0%Z 1%Z Z.add Z.mul pinv_of_identity s r x
  | _ => Raise ValueError
  end.

(** The stored raw estimator: it takes the factor and does not use it. *)
Definition raw_call (s : Filter Z) (r : ndarray Z) (f : factor Z)
  : result (Filter Z * ndarray Z) :=
  _normal_filter 0%Z Z.add Z.mul s r.

(** Memory that holds -1 in every cell. *)
Definition memory (cell : nat) : Z := (-1)%Z.

End IndividualExamples.
(* ================================================================== *)
(** * Facts about arrays *)
(* ================================================================== *)

Module NpFacts.

Section Lists.

Variable A : Type.
Implicit Types l : list A.

Lemma skipn_cons_nth_error l : forall k x,
  nth_error l k = Some x -> skipn k l = x :: skipn (S k) l.
Proof.
  induction l as [|a l IH]; intros [|k] x H; simpl in *; try discriminate.
  - now inversion H.
  - now apply IH.
Qed.

(** A block of one element is that element. *)
Lemma block_one l k x : nth_error l k = Some x -> block 1 k l = [x].
Proof.
  intros H. unfold block. rewrite Nat.mul_1_r.
  now rewrite (skipn_cons_nth_error _ _ H).
Qed.

Lemma block_one_lt l k (d : A) : k < length l -> block 1 k l = [nth k l d].
Proof.
  intros H. apply block_one. now apply nth_error_nth'.
Qed.

Variable B : Type.

(** Pieces of one length [r], laid end to end. *)
Lemma length_pieces (f : nat -> list B) r : forall c,
  (forall j, j < c -> length (f j) = r) ->
  length (flat_map f (seq 0 c)) = c * r.
Proof.
  induction c as [|c IH]; intros H; [reflexivity|].
  rewrite seq_S, flat_map_app, length_app, IH by (intros; apply H; lia).
  simpl. rewrite app_nil_r, H by lia. lia.
Qed.

Lemma nth_error_pieces (f : nat -> list B) r : forall c j i,
  (forall j, j < c -> length (f j) = r) ->
  j < c -> i < r ->
  nth_error (flat_map f (seq 0 c)) (j * r + i) = nth_error (f j) i.
Proof.
  induction c as [|c IH]; intros j i H Hj Hi; [lia|].
  rewrite seq_S, flat_map_app. simpl. rewrite app_nil_r.
  assert (Hlen : length (flat_map f (seq 0 c)) = c * r)
    by (apply length_pieces; intros; apply H; lia).
  destruct (Nat.eq_dec j c) as [->|Hne].
  - rewrite nth_error_app2 by lia. f_equal. lia.
  - rewrite nth_error_app1 by nia. apply IH; auto; lia.
Qed.

End Lists.

Section Swap.

Variable A : Type.
Implicit Types l : list A.

Lemma swap_piece_length l r c j :
  length l = r * c -> j < c ->
  length (flat_map (fun i => block 1 (i * c + j) l) (seq 0 r)) = r * 1.
Proof.
  intros Hl Hj. apply length_pieces. intros i Hi.
  assert (Hk : i * c + j < length l) by nia.
  destruct (nth_error l (i * c + j)) eqn:E.
  - now rewrite (block_one _ _ E).
  - apply nth_error_None in E. lia.
Qed.

Lemma swap_data_length l r c :
  length l = r * c -> length (swap_data r c 1 l) = c * r.
Proof.
  intros Hl. unfold swap_data.
  rewrite (length_pieces _ (r := r * 1)); [lia|].
  intros j Hj. now apply swap_piece_length.
Qed.

(** Entry [(j, i)] of the swapped data is entry [(i, j)] of the data. *)
Lemma swap_data_nth_error l r c i j :
  length l = r * c -> i < r -> j < c ->
  nth_error (swap_data r c 1 l) (j * r + i) = nth_error l (i * c + j).
Proof.
  intros Hl Hi Hj. unfold swap_data.
  replace (j * r + i) with (j * (r * 1) + i) by lia.
  rewrite (nth_error_pieces _ (r := r * 1)); try lia;
    [|intros; now apply swap_piece_length].
  replace i with (i * 1 + 0) at 1 by lia.
  assert (Hk : forall i', i' < r -> i' * c + j < length l) by (intros; nia).
  rewrite (nth_error_pieces _ (r := 1)); try lia.
  - destruct (nth_error l (i * c + j)) eqn:E.
    + now rewrite (block_one _ _ E).
    + apply nth_error_None in E. specialize (Hk i Hi). lia.
  - intros i' Hi'. specialize (Hk i' Hi').
    destruct (nth_error l (i' * c + j)) eqn:E.
    + now rewrite (block_one _ _ E).
    + apply nth_error_None in E. lia.
Qed.

(** Swapping the two axes twice gives the data back. *)
Lemma swap_data_involutive l r c :
  length l = r * c -> swap_data c r 1 (swap_data r c 1 l) = l.
Proof.
  intros Hl.
  assert (Hl' : length (swap_data r c 1 l) = c * r) by now apply swap_data_length.
  assert (Hl'' : length (swap_data c r 1 (swap_data r c 1 l)) = r * c)
    by now apply swap_data_length.
  apply nth_error_ext. intros k.
  destruct (Nat.lt_ge_cases k (r * c)) as [Hk|Hk].
  - assert (Hc : c <> 0) by nia.
    assert (Hi : k / c < r) by (apply Nat.Div0.div_lt_upper_bound; lia).
    assert (Hj : k mod c < c) by now apply Nat.mod_upper_bound.
    assert (Ek : k = k / c * c + k mod c)
      by (rewrite Nat.mul_comm; now apply Nat.div_mod).
    rewrite Ek at 1 2.
    rewrite swap_data_nth_error by assumption.
    now rewrite swap_data_nth_error by assumption.
  - transitivity (@None A).
    + apply nth_error_None. lia.
    + symmetry. apply nth_error_None. lia.
Qed.

(** Dropping the axes of length one keeps the element count. *)
Lemma size_of_squeeze (sh : list nat) :
  size_of (filter (fun d => negb (d =? 1)) sh) = size_of sh.
Proof.
  induction sh as [|d sh IH]; [reflexivity|]. simpl.
  destruct (Nat.eqb_spec d 1) as [->|_]; simpl; lia.
Qed.

End Swap.

End NpFacts.

(* ================================================================== *)
(** * The filter tensor and its flattened form *)
(* ================================================================== *)

Module FilterFacts.

Import LinFilter NpFacts.

Section Reshape.

Variable A : Type.
Implicit Types self : Filter A.

Lemma set_fil_same self f : fil self = Some f -> set_fil self f = self.
Proof. destruct self; simpl; intros ->; reflexivity. Qed.

Lemma set_fil_twice self f g : set_fil (set_fil self f) g = set_fil self g.
Proof. reflexivity. Qed.

(** The reshapes of both methods succeed exactly when the tensor has as
    many elements as [neuron_count * dim1 * dim2]. *)
Lemma single_channel_size n c d1 d2 :
  c = 1 \/ n * (d1 * d2) = 0 ->
  n * (c * (d1 * (d2 * 1))) = n * (d1 * d2 * 1).
Proof. intros [->|H]; nia. Qed.

(** [_fil_2d] of a 4-D tensor: the flattened 2-D form. *)
Lemma fil_2d_of_4d self f :
  fil self = Some f ->
  shape f = [neuron_count self; channels self; dim1 self; dim2 self] ->
  channels self = 1 \/ neuron_count self * (dim1 self * dim2 self) = 0 ->
  _fil_2d self =
  Ok (set_fil self
        (mk_ndarray [dim1 self * dim2 self; neuron_count self]
           (swap_data (neuron_count self) (dim1 self * dim2 self) 1 (data f)))).
Proof.
  intros Hf Hs Hc. unfold _fil_2d, get_fil. rewrite Hf. simpl.
  unfold ndim. rewrite Hs. simpl.
  unfold reshape, squeeze. cbn [shape data].
  rewrite size_of_squeeze, Hs.
  cbn [size_of fold_right].
  rewrite (@single_channel_size _ _ _ _ Hc), Nat.eqb_refl. reflexivity.
Qed.

(** [_fil_4d] of a 2-D array: the 4-D form. *)
Lemma fil_4d_of_2d self f :
  fil self = Some f ->
  shape f = [dim1 self * dim2 self; neuron_count self] ->
  channels self = 1 \/ neuron_count self * (dim1 self * dim2 self) = 0 ->
  _fil_4d self =
  Ok (set_fil self
        (mk_ndarray [neuron_count self; channels self; dim1 self; dim2 self]
           (swap_data (dim1 self * dim2 self) (neuron_count self) 1 (data f)))).
Proof.
  intros Hf Hs Hc. unfold _fil_4d, get_fil. rewrite Hf. simpl.
  unfold ndim. rewrite Hs. simpl.
  unfold moveaxis_01. rewrite Hs. cbn [bind].
  unfold reshape. cbn [shape data size_of fold_right].
  rewrite (@single_channel_size _ _ _ _ Hc), Nat.eqb_refl. reflexivity.
Qed.

End Reshape.

(** C3, as amended. A filter tensor of shape (neuron_count, channels, dim1,
    dim2) with a single channel (or without elements) is returned unchanged,
    in shape and in values, by [_fil_2d] followed by [_fil_4d]; and its
    flattened form of shape (dim1 * dim2, neuron_count) is returned
    unchanged by [_fil_4d] followed by [_fil_2d]. *)
Theorem fil_round_trip (A : Type) (self : Filter A) (f : ndarray A) :
  fil self = Some f ->
  wf f ->
  channels self = 1 \/ neuron_count self * (dim1 self * dim2 self) = 0 ->
  (shape f = [neuron_count self; channels self; dim1 self; dim2 self] ->
   (s <- _fil_2d self ;; _fil_4d s) = Ok self) /\
  (shape f = [dim1 self * dim2 self; neuron_count self] ->
   (s <- _fil_4d self ;; _fil_2d s) = Ok self).
Proof.
  intros Hf Hwf Hc. split; intros Hs.
  - rewrite (@fil_2d_of_4d _ _ _ Hf Hs Hc). cbn [bind].
    erewrite fil_4d_of_2d; [|reflexivity|reflexivity|exact Hc].
    cbn [data neuron_count channels dim1 dim2 set_fil].
    rewrite swap_data_involutive.
    + rewrite <- Hs. destruct f; cbn [shape data].
      rewrite set_fil_twice. f_equal. now apply set_fil_same.
    + red in Hwf. rewrite Hwf, Hs. cbn [size_of fold_right].
      rewrite (@single_channel_size _ _ _ _ Hc). lia.
  - rewrite (@fil_4d_of_2d _ _ _ Hf Hs Hc). cbn [bind].
    erewrite fil_2d_of_4d; [|reflexivity|reflexivity|exact Hc].
    cbn [data neuron_count channels dim1 dim2 set_fil].
    rewrite swap_data_involutive.
    + rewrite <- Hs. destruct f; cbn [shape data].
      rewrite set_fil_twice. f_equal. now apply set_fil_same.
    + red in Hwf. rewrite Hwf, Hs. cbn [size_of fold_right]. lia.
Qed.

(** The round trip at a filter of three neurons over 2 x 2 images. *)
Lemma fil_round_trip_witness :
  (s <- _fil_2d Examples.one_channel_filter ;; _fil_4d s)
  = Ok Examples.one_channel_filter.
Proof.
  apply (@fil_round_trip Z Examples.one_channel_filter
           (mk_ndarray [3; 1; 2; 2] [1; 2; 3; 4; 5; 6; 7; 8; 9; 10; 11; 12]%Z));
    [reflexivity | reflexivity | left; reflexivity | reflexivity].
Defined.

(** C3 as stated fails for two channels: the reshape of [_fil_2d] raises. *)
Lemma fil_round_trip_two_channels :
  (s <- _fil_2d Examples.two_channel_filter ;; _fil_4d s) = Raise ValueError.
Proof. reflexivity. Qed.

End FilterFacts.

(* ================================================================== *)
(** * The closed-form estimators and the constructor *)
(* ================================================================== *)

Module EstimatorFacts.

Import LinFilter NpFacts.

Section Ring.

Variable A : Type.
Variables zero one : A.
Variables add mul : A -> A -> A.
Variable pinv : ndarray A -> result (ndarray A).

(** The laws of exact arithmetic the comparison of the ridge and the
    whitened estimator rests on: zero times an entry of the identity is
    zero, and zero is neutral for the addition. *)
Hypothesis mul_zero_zero : mul zero zero = zero.
Hypothesis mul_zero_one : mul zero one = zero.
Hypothesis add_zero_r : forall x, add x zero = x.

Lemma map2_add_zeros : forall (l l' : list A),
  length l = length l' ->
  Forall (fun y => mul zero y = zero) l' ->
  map2 add l (map (mul zero) l') = l.
Proof.
  induction l as [|x l IH]; intros [|y l'] H Hz; simpl in *; try discriminate;
    [reflexivity|].
  inversion Hz; subst.
  replace (mul zero y) with zero by (symmetry; assumption).
  rewrite add_zero_r, IH by (auto; lia). reflexivity.
Qed.

Lemma length_identity p : length (data (identity zero one p)) = p * p.
Proof.
  unfold identity. cbn [data]. apply length_pieces.
  intros. now rewrite length_map, length_seq.
Qed.

Lemma identity_entries p :
  Forall (fun y => mul zero y = zero) (data (identity zero one p)).
Proof.
  unfold identity. cbn [data]. apply Forall_forall. intros y Hy.
  apply in_flat_map in Hy. destruct Hy as (i & _ & Hy).
  apply in_map_iff in Hy. destruct Hy as (j & <- & _).
  now destruct (i =? j).
Qed.

(** A product of a [p] x [n] and an [n] x [p] matrix, when defined, is
    left unchanged by the addition of [zero] times the identity. *)
Lemma plus_zero_identity (a b m : ndarray A) p n :
  shape a = [p; n] -> shape b = [n; p] ->
  matmul zero add mul a b = Ok m ->
  plus add m (scale mul zero (identity zero one p)) = Ok m.
Proof.
  intros Ha Hb. unfold matmul. rewrite Ha, Hb, Nat.eqb_refl.
  intros [= <-]. unfold plus. cbn [shape data scale identity].
  destruct (list_eq_dec Nat.eq_dec [p; p] [p; p]) as [_|C]; [|now destruct C].
  f_equal. f_equal.
  apply map2_add_zeros.
  - rewrite (length_pieces _ (r := p)) by (intros; now rewrite length_map, length_seq).
    symmetry. apply (length_identity p).
  - apply identity_entries.
Qed.

Lemma image_2d_shape (self s : Filter A) :
  _image_2d self = Ok s ->
  shape (images s) = [image_count self; dim1 self * dim2 self] /\
  dim1 s = dim1 self /\ dim2 s = dim2 self.
Proof.
  unfold _image_2d, reshape.
  destruct (_ =? _); simpl; [|discriminate].
  intros [= <-]. simpl. auto.
Qed.

Lemma transpose_shape (a t : ndarray A) r c :
  shape a = [r; c] -> transpose a = Ok t -> shape t = [c; r].
Proof.
  intros Ha. unfold transpose, moveaxis_01. rewrite Ha.
  intros [= <-]. reflexivity.
Qed.

End Ring.

(** C7. Over exact arithmetic (zero times zero and zero times one are
    zero, and zero is neutral for addition), the ridge-regularized filter
    with regularization factor zero is the whitened filter, for every
    filter object and every response matrix: both are
    pinv(X^T X) . X^T Y, and both raise the same error when a step fails. *)
Theorem ridge_zero_is_whitened (A : Type) (zero one : A)
        (add mul : A -> A -> A) (pinv : ndarray A -> result (ndarray A))
        (self : Filter A) (responses : ndarray A) :
  mul zero zero = zero ->
  mul zero one = zero ->
  (forall x, add x zero = x) ->
  _ridge_regularized_filter zero one add mul pinv self responses zero
  = _whitened_filter zero add mul pinv self responses.
Proof.
  intros Hmul0 Hmul1 Hadd.
  unfold _ridge_regularized_filter, _whitened_filter.
  destruct (_image_2d self) as [s|e] eqn:E2d; [|reflexivity]. cbn [bind].
  destruct (@image_2d_shape A self s E2d) as (Hs & Hd1 & Hd2).
  destruct (transpose (images s)) as [xt|e] eqn:Et; [|reflexivity]. cbn [bind].
  pose proof (@transpose_shape A _ _ _ _ Hs Et) as Hxt.
  destruct (matmul zero add mul xt (images s)) as [xtx|e] eqn:Em;
    [|reflexivity]. cbn [bind].
  rewrite Hd1, Hd2.
  rewrite (@plus_zero_identity A zero one add mul Hmul0 Hmul1 Hadd
             xt (images s) xtx _ _ Hxt Hs Em).
  reflexivity.
Qed.

(** The equality at a filter over the integers, with a stand-in for the
    pseudo-inverse. *)
Lemma ridge_zero_is_whitened_witness :
  _ridge_regularized_filter 0%Z 1%Z Z.add Z.mul (fun m => Ok m)
    Examples.one_channel_filter (mk_ndarray [1; 3] [5; 6; 7]%Z) 0%Z
  = _whitened_filter 0%Z Z.add Z.mul (fun m => Ok m)
      Examples.one_channel_filter (mk_ndarray [1; 3] [5; 6; 7]%Z).
Proof.
  apply (@ridge_zero_is_whitened Z 0%Z 1%Z Z.add Z.mul (fun m => Ok m)
           Examples.one_channel_filter (mk_ndarray [1; 3] [5; 6; 7]%Z)).
  - reflexivity.
  - reflexivity.
  - intros x. apply Z.add_0_r.
Defined.

Section Constructor.

Variable A : Type.

Lemma shape_at_nth (a : ndarray A) i d :
  nth_error (shape a) i = Some d -> shape_at a i = Ok d.
Proof. unfold shape_at. now intros ->. Qed.

End Constructor.

(** C8, as amended. The constructor compares no sample counts: for 4-D
    images, 2-D responses, one of the four regularization types and a model
    directory that can be made, it returns a filter object whose
    [image_count] is the first axis of the images, whatever the first axis
    of the responses is. A disagreement of the two is raised only when an
    estimator multiplies X^T with the responses: [_normal_filter] then
    raises [ValueError]. *)
Theorem init_ignores_sample_counts (A : Type) (zero : A) (add mul : A -> A -> A)
        (env : Env) (images responses : ndarray A)
        (reg_type : string) (reg_factor : factor A)
        (n c d1 d2 m k : nat) (s : strategy) :
  shape images = [n; c; d1; d2] ->
  shape responses = [m; k] ->
  select_strategy reg_type = Ok s ->
  mkdir env (cwd env ++ "/models/linear_filter/" ++ now env)%string = Ok tt ->
  exists self,
    __init__ env images responses reg_type reg_factor = Ok self /\
    image_count self = n /\ neuron_count self = k /\
    LinFilter.images self = images /\ LinFilter.responses self = responses /\
    (n <> m ->
     _normal_filter zero add mul self (LinFilter.responses self)
     = Raise ValueError).
Proof.
  intros Hi Hr Hs Hm. unfold __init__.
  rewrite (shape_at_nth images 0 (d := n)), (shape_at_nth images 1 (d := c)),
    (shape_at_nth images 2 (d := d1)), (shape_at_nth images 3 (d := d2)),
    (shape_at_nth responses 1 (d := k)) by (rewrite ?Hi, ?Hr; reflexivity).
  cbn [bind]. rewrite Hs. cbn [bind]. rewrite Hm. cbn [bind].
  eexists. split; [reflexivity|]. cbn.
  repeat split; try reflexivity.
  intros Hne.
  unfold _normal_filter, _image_2d, reshape. cbn.
  rewrite Hi. cbn [size_of fold_right].
  destruct (_ =? _); [|reflexivity]. cbn.
  unfold matmul. cbn. rewrite Hr.
  destruct (Nat.eqb_spec n m) as [->|_]; [now destruct Hne|reflexivity].
Qed.

(** Construction with two images and three rows of responses. *)
Lemma init_ignores_sample_counts_witness :
  exists self,
    __init__ Examples.env Examples.two_images Examples.three_responses
             "raw" (FNone Z) = Ok self /\
    image_count self = 2 /\ neuron_count self = 1 /\
    LinFilter.images self = Examples.two_images /\
    LinFilter.responses self = Examples.three_responses /\
    (2 <> 3 ->
     _normal_filter 0%Z Z.add Z.mul self (LinFilter.responses self)
     = Raise ValueError).
Proof.
  apply (@init_ignores_sample_counts Z 0%Z Z.add Z.mul Examples.env
           Examples.two_images Examples.three_responses "raw" (FNone Z)
           2 1 1 1 3 1 normal_filter);
    reflexivity.
Defined.

(** C8 as stated fails: two images against three rows of responses are
    accepted by the constructor. *)
Lemma init_accepts_mismatched_counts :
  shape_at Examples.two_images 0 = Ok 2 /\
  shape_at Examples.three_responses 0 = Ok 3 /\
  returns (__init__ Examples.env Examples.two_images Examples.three_responses
                    "raw" (FNone Z)) = true.
Proof. repeat split. Qed.

End EstimatorFacts.

(* ================================================================== *)
(** * Facts about IEEE comparisons *)
(* ================================================================== *)

Unset Implicit Arguments.

Module IEEEFacts.

(** Case analysis on the outcome of a comparison. *)
Ltac by_compare x y :=
  destruct (SFcompare x y) as [[ | | ]|]; simpl; try congruence; auto.

Lemma compare_refl x : IEEE.is_nan x = false -> SFcompare x x = Some Eq.
Proof.
  destruct x as [s|s| |s m e]; simpl; intros H; try discriminate;
    try reflexivity.
  - now destruct s.
  - rewrite Z.compare_refl, Pos.compare_cont_refl. now destruct s.
Qed.

Lemma compare_antisym x y :
  SFcompare y x = option_map CompOpp (SFcompare x y).
Proof.
  destruct x as [s|s| |s m e], y as [s'|s'| |s' m' e']; simpl;
    try reflexivity;
    try (destruct s; reflexivity);
    try (destruct s'; reflexivity);
    try (destruct s, s'; reflexivity).
  assert (Hm : Pos.compare_cont Eq m' m = CompOpp (Pos.compare_cont Eq m m'))
    by (symmetry; apply (Pos.compare_cont_antisym m m' Eq)).
  rewrite (Z.compare_antisym e e'), Hm.
  destruct s, s'; simpl; try reflexivity;
    destruct (e ?= e')%Z; simpl; try reflexivity;
    destruct (Pos.compare_cont Eq m m'); reflexivity.
Qed.

Lemma eqb_refl x : IEEE.is_nan x = false -> SFeqb x x = true.
Proof. intros H. unfold SFeqb. now rewrite compare_refl. Qed.

Lemma eqb_nan_l x : SFeqb S754_nan x = false.
Proof. reflexivity. Qed.

Lemma eqb_self_notnan x : SFeqb x x = negb (IEEE.is_nan x).
Proof.
  destruct (IEEE.is_nan x) eqn:E.
  - destruct x; try discriminate. reflexivity.
  - now apply eqb_refl.
Qed.

Lemma eqb_sym x y : SFeqb y x = SFeqb x y.
Proof. unfold SFeqb. rewrite (compare_antisym x y). by_compare x y. Qed.

Lemma ltb_asym x y : SFltb x y = true -> SFltb y x = false.
Proof. unfold SFltb. rewrite (compare_antisym x y). by_compare x y. Qed.

Lemma ltb_not_eqb x y : SFltb x y = true -> SFeqb x y = false.
Proof. unfold SFltb, SFeqb. by_compare x y. Qed.

Lemma ltb_notnan_l x y : SFltb x y = true -> IEEE.is_nan x = false.
Proof. destruct x; try reflexivity. discriminate. Qed.

Lemma ltb_notnan_r x y : SFltb x y = true -> IEEE.is_nan y = false.
Proof. destruct y; try reflexivity. destruct x; discriminate. Qed.

Lemma leb_cases x y :
  SFleb x y = true -> SFltb x y = true \/ SFeqb x y = true.
Proof. unfold SFleb, SFltb, SFeqb. by_compare x y. Qed.

End IEEEFacts.

(* ================================================================== *)
(** * Row maxima and the selection of factors *)
(* ================================================================== *)

Module TableFacts.

Import Pd Tables IEEEFacts NpFacts.

Lemma notnan_eqb_refl x : notnan x = true -> F64.eqb x x = true.
Proof.
  unfold notnan, F64.is_nan, F64.eqb. intros H.
  apply eqb_refl. now destruct (IEEE.is_nan x).
Qed.

Lemma below_notnan x c : F64.ltb x c = true -> notnan x = true.
Proof.
  intros H. unfold notnan, F64.is_nan. now rewrite (ltb_notnan_l _ _ H).
Qed.

(** ** The maximum of a row *)

Lemma fmax_keeps c x : F64.ltb x c = true -> fmax c x = c.
Proof. intros H. unfold fmax, F64.ltb. now rewrite (ltb_asym _ _ H). Qed.

Lemma fold_fmax_top c l :
  Forall (fun x => F64.ltb x c = true) l -> fold_left fmax l c = c.
Proof.
  induction 1 as [|x l Hx _ IH]; simpl; [reflexivity|].
  now rewrite fmax_keeps.
Qed.

Lemma fold_fmax_below c l : forall acc,
  Forall (fun x => F64.ltb x c = true) l ->
  F64.ltb acc c = true ->
  F64.ltb (fold_left fmax l acc) c = true.
Proof.
  induction l as [|x l IH]; intros acc Hl Hacc; simpl; [assumption|].
  inversion Hl; subst. apply IH; [assumption|].
  unfold fmax. now destruct (F64.ltb acc x).
Qed.

Lemma filter_all (A : Type) (f : A -> bool) (l : list A) :
  Forall (fun x => f x = true) l -> filter f l = l.
Proof.
  induction 1 as [|x l Hx _ IH]; simpl; [reflexivity|]. now rewrite Hx, IH.
Qed.

(** The maximum of a row with one entry above all others is that entry. *)
Lemma row_max_dominating pre c post :
  notnan c = true ->
  Forall (fun x => F64.ltb x c = true) pre ->
  Forall (fun x => F64.ltb x c = true) post ->
  row_max (pre ++ c :: post) = c.
Proof.
  intros Hc Hpre Hpost. unfold row_max.
  rewrite filter_all.
  - destruct pre as [|a pre]; simpl.
    + now apply fold_fmax_top.
    + inversion Hpre; subst.
      rewrite fold_left_app. simpl.
      assert (Hb : F64.ltb (fold_left fmax pre a) c = true)
        by now apply fold_fmax_below.
      unfold fmax at 2. rewrite Hb. now apply fold_fmax_top.
  - apply Forall_app. split; [|constructor; [assumption|]].
    + eapply Forall_impl; [|exact Hpre]. intros x Hx. now apply below_notnan with c.
    + eapply Forall_impl; [|exact Hpost]. intros x Hx. now apply below_notnan with c.
Qed.

(** The maximum of a row with a number in it is one of its entries. *)
Lemma fold_fmax_in l : forall acc,
  fold_left fmax l acc = acc \/ In (fold_left fmax l acc) l.
Proof.
  induction l as [|x l IH]; intros acc; simpl; [now left|].
  destruct (IH (fmax acc x)) as [H|H]; [|now right; right].
  rewrite H. unfold fmax. destruct (F64.ltb acc x); [right; now left|now left].
Qed.

Lemma row_max_in row :
  existsb notnan row = true ->
  In (row_max row) row /\ notnan (row_max row) = true.
Proof.
  intros H. unfold row_max.
  destruct (filter notnan row) as [|x xs] eqn:E.
  - apply existsb_exists in H. destruct H as (y & Hy & Hn).
    assert (In y (filter notnan row)) by (apply filter_In; auto).
    rewrite E in *. contradiction.
  - assert (Hin : In (fold_left fmax xs x) (filter notnan row)).
    { rewrite E. destruct (fold_fmax_in xs x) as [->|Hi]; [now left|now right]. }
    apply filter_In in Hin. exact Hin.
Qed.

Lemma winners_positive row : existsb notnan row = true -> 1 <= winners row.
Proof.
  intros H. destruct (row_max_in _ H) as (Hin & Hn). unfold winners.
  assert (Hi : In (row_max row)
                  (filter (fun x => F64.eqb x (row_max row)) row)).
  { apply filter_In. split; [assumption|]. now apply notnan_eqb_refl. }
  destruct (filter _ row); [contradiction|simpl; lia].
Qed.

(** ** One row of the masked table of factors *)

Lemma drop_nan_app l l' :
  Search.drop_nan (l ++ l') = Search.drop_nan l ++ Search.drop_nan l'.
Proof. apply filter_app. Qed.

(** Beyond the mask everything is NaN, and dropped. *)
Lemma masked_without_mask ps : Search.drop_nan (where_row ps []) = [].
Proof. induction ps as [|p ps IH]; simpl; [reflexivity|exact IH]. Qed.

Lemma masked_none ms : forall ps,
  Forall (fun m => m = false) ms ->
  Search.drop_nan (where_row ps ms) = [].
Proof.
  induction ms as [|m ms IH]; intros ps H.
  - apply masked_without_mask.
  - inversion H; subst. destruct ps as [|p ps]; simpl; [reflexivity|].
    now apply IH.
Qed.

(** A mask with a single [true], at position [j]: the factor at [j]. *)
Lemma masked_single pre post : forall ps p,
  nth_error ps (length pre) = Some p ->
  notnan p = true ->
  Forall (fun m => m = false) pre ->
  Forall (fun m => m = false) post ->
  Search.drop_nan (where_row ps (pre ++ true :: post)) = [p].
Proof.
  induction pre as [|m pre IH]; intros ps p Hp Hn Hpre Hpost.
  - destruct ps as [|p' ps]; simpl in *; [discriminate|].
    injection Hp as ->. rewrite (notnan_eqb_refl _ Hn).
    now rewrite masked_none.
  - inversion Hpre; subst.
    destruct ps as [|p' ps]; simpl in *; [discriminate|].
    now apply IH.
Qed.

(** The number of factors kept is the number of [true] in the mask, when
    the factors are numbers and cover the mask. *)
Lemma masked_count (f : spec_float -> bool) crow : forall ps,
  length crow <= length ps ->
  forallb notnan ps = true ->
  length (Search.drop_nan (where_row ps (map f crow)))
  = length (filter f crow).
Proof.
  induction crow as [|c crow IH]; intros ps Hl Hn.
  - simpl. now rewrite masked_without_mask.
  - destruct ps as [|p ps]; simpl in *; [lia|].
    apply andb_prop in Hn. destruct Hn as (Hp & Hn).
    destruct (f c); simpl.
    + rewrite (notnan_eqb_refl _ Hp). simpl. rewrite IH by (auto; lia). reflexivity.
    + apply IH; auto; lia.
Qed.

(** ** Positions in a row *)

Lemma forallb_indexed (P : nat -> spec_float -> bool) l : forall s,
  forallb (fun kx => P (fst kx) (snd kx)) (combine (seq s (length l)) l) = true ->
  forall k x, nth_error l k = Some x -> P (s + k) x = true.
Proof.
  induction l as [|a l IH]; intros s H k x Hk.
  - destruct k; discriminate.
  - simpl in H. apply andb_prop in H. destruct H as (Ha & Hl).
    destruct k as [|k]; simpl in Hk.
    + injection Hk as <-. now rewrite Nat.add_0_r.
    + rewrite <- Nat.add_succ_comm. now apply IH.
Qed.

(** A dominated row, split at the dominating entry. *)
Lemma dominates_split j row :
  dominates j row = true ->
  exists pre c post,
    row = pre ++ c :: post /\ length pre = j /\ notnan c = true /\
    Forall (fun x => F64.ltb x c = true) pre /\
    Forall (fun x => F64.ltb x c = true) post.
Proof.
  unfold dominates. destruct (nth_error row j) as [c|] eqn:E; [|discriminate].
  intros H. apply andb_prop in H. destruct H as (Hc & Hall).
  destruct (nth_error_split _ _ E) as (pre & post & -> & Hlen).
  exists pre, c, post. repeat split; auto.
  - apply Forall_forall. intros x Hx.
    destruct (In_nth_error _ _ Hx) as (k & Hk).
    assert (Hlt : k < length pre) by (apply nth_error_Some; congruence).
    pose proof (forallb_indexed (fun k x => (k =? j) || F64.ltb x c) _ 0 Hall k x) as Hp.
    rewrite nth_error_app1 in Hp by assumption. specialize (Hp Hk).
    simpl in Hp. destruct (Nat.eqb_spec k j); [lia|exact Hp].
  - apply Forall_forall. intros x Hx.
    destruct (In_nth_error _ _ Hx) as (k & Hk).
    pose proof (forallb_indexed (fun k x => (k =? j) || F64.ltb x c) _ 0 Hall
                  (length pre + S k) x) as Hp.
    rewrite nth_error_app2 in Hp by lia.
    replace (length pre + S k - length pre) with (S k) in Hp by lia.
    specialize (Hp Hk). simpl in Hp.
    destruct (Nat.eqb_spec (length pre + S k) j); [lia|exact Hp].
Qed.

Lemma dominates_nth j row d :
  dominates j row = true -> row_max row = nth j row d /\ notnan (nth j row d) = true.
Proof.
  intros H. destruct (dominates_split _ _ H) as (pre & c & post & -> & Hl & Hc & Hpre & Hpost).
  rewrite app_nth2 by lia. replace (j - length pre) with 0 by lia. simpl.
  split; [now apply row_max_dominating|assumption].
Qed.

(** What is selected from a row of factors under a dominated row. *)
Lemma selected_row_dominating j prow crow :
  dominates j crow = true -> has_factor j prow = true ->
  Search.drop_nan (where_row prow (map (fun x => F64.eqb x (row_max crow)) crow))
  = [nth j prow F64.nan].
Proof.
  intros Hd Hf.
  destruct (dominates_split _ _ Hd) as (pre & c & post & -> & Hl & Hc & Hpre & Hpost).
  rewrite row_max_dominating by assumption.
  unfold has_factor in Hf. destruct (nth_error prow j) as [p|] eqn:Ep; [|discriminate].
  rewrite (nth_error_nth _ _ F64.nan Ep).
  rewrite map_app. simpl. rewrite (notnan_eqb_refl _ Hc).
  replace (length pre) with (length (map (fun x => F64.eqb x c) pre)) in Hl
    by apply length_map.
  subst j. apply masked_single; auto.
  - apply Forall_map. eapply Forall_impl; [|exact Hpre].
    intros x Hx. now apply ltb_not_eqb.
  - apply Forall_map. eapply Forall_impl; [|exact Hpost].
    intros x Hx. now apply ltb_not_eqb.
Qed.

(** ** The whole table *)

Lemma selected_unfold (prow : list spec_float) P (crow : list spec_float) C :
  Search.drop_nan
    (concat (where_ (prow :: P) (eq_axis0 (crow :: C) (map row_max (crow :: C)))))
  = Search.drop_nan
      (where_row prow (map (fun x => F64.eqb x (row_max crow)) crow))
    ++ Search.drop_nan (concat (where_ P (eq_axis0 C (map row_max C)))).
Proof. simpl. now rewrite drop_nan_app. Qed.

Lemma selected_dominating j : forall P C,
  length P = length C ->
  forallb (dominates j) C = true ->
  forallb (has_factor j) P = true ->
  Search.drop_nan (concat (where_ P (eq_axis0 C (map row_max C))))
  = column j P.
Proof.
  induction P as [|prow P IH]; intros [|crow C] Hl HC HP; try discriminate;
    [reflexivity|].
  rewrite selected_unfold.
  simpl in HC, HP. apply andb_prop in HC, HP.
  destruct HC as (Hc & HC), HP as (Hp & HP).
  rewrite (selected_row_dominating _ _ _ Hc Hp).
  simpl in Hl. rewrite IH by (auto; lia). reflexivity.
Qed.

Lemma selected_count : forall P C,
  length P = length C ->
  covers P C = true ->
  length (Search.drop_nan (concat (where_ P (eq_axis0 C (map row_max C)))))
  = list_sum (map winners C).
Proof.
  induction P as [|prow P IH]; intros [|crow C] Hl Hc; try discriminate;
    [reflexivity|].
  rewrite selected_unfold, length_app.
  unfold covers in Hc. simpl in Hc. apply andb_prop in Hc.
  destruct Hc as (Hrow & Hc). apply andb_prop in Hrow. destruct Hrow as (Hlen & Hn).
  apply Nat.leb_le in Hlen.
  rewrite masked_count by assumption.
  simpl in Hl. rewrite IH by (auto; lia). reflexivity.
Qed.

Lemma winners_sum C :
  forallb (existsb notnan) C = true ->
  existsb tied C = true ->
  length C < list_sum (map winners C).
Proof.
  induction C as [|row C IH]; intros Hall Hex; simpl in *; [discriminate|].
  apply andb_prop in Hall. destruct Hall as (Hrow & Hall).
  pose proof (winners_positive _ Hrow) as H1.
  assert (Hge : length C <= list_sum (map winners C)).
  { clear - Hall. induction C as [|r C IH]; simpl in *; [lia|].
    apply andb_prop in Hall. destruct Hall as (Hr & Hall).
    pose proof (winners_positive _ Hr). specialize (IH Hall). lia. }
  apply orb_prop in Hex. destruct Hex as [Ht|Hex].
  - unfold tied in Ht. apply Nat.leb_le in Ht. lia.
  - specialize (IH Hall Hex). lia.
Qed.

(** ** Means *)

Lemma mean_of_numbers l :
  forallb notnan l = true ->
  mean l = if length l =? 0 then F64.nan
           else F64.div (F64.sum l) (F64.of_nat (length l)).
Proof.
  intros H. unfold mean.
  assert (Hf : filter notnan l = l).
  { apply filter_all. apply Forall_forall. intros x Hx.
    rewrite forallb_forall in H. now apply H. }
  assert (Hm : map (fun x => if F64.is_nan x then F64.zero else x) l = l).
  { rewrite <- (map_id l) at 2. apply map_ext_in. intros x Hx.
    rewrite forallb_forall in H. specialize (H x Hx).
    unfold notnan in H. now destruct (F64.is_nan x). }
  now rewrite Hf, Hm.
Qed.

(** ** Stacking three columns *)

Lemma hstack_columns n (a b c : list spec_float) :
  length a = n -> length b = n -> length c = n ->
  Search.hstack [mk_ndarray [n; 1] a; mk_ndarray [n; 1] b; mk_ndarray [n; 1] c]
  = Ok (mk_ndarray [n; 3]
          (flat_map (fun i => [nth i a F64.nan; nth i b F64.nan; nth i c F64.nan])
                    (seq 0 n))).
Proof.
  intros Ha Hb Hc. unfold Search.hstack. cbn [shape forallb data nth fold_right].
  rewrite Nat.eqb_refl. cbn [andb Nat.add].
  f_equal. f_equal.
  rewrite !flat_map_concat_map. f_equal.
  apply map_ext_in. intros i Hi. apply in_seq in Hi.
  cbn [flat_map shape nth data].
  rewrite (block_one_lt a F64.nan), (block_one_lt b F64.nan),
    (block_one_lt c F64.nan) by lia.
  reflexivity.
Qed.

End TableFacts.

(* ================================================================== *)
(** * The hyperparameter searches *)
(* ================================================================== *)

Module SearchFacts.

Import Pd Tables Search TableFacts.

Section Searches.

Variables TF VF : Type.
Variable train :
  TF -> LinFilter.factor spec_float -> result (TF * array).
Variable predict :
  VF -> array -> bool -> result (VF * (array * spec_float)).
Variable vf_single_neuron_correlations : VF -> result (list spec_float).

Lemma reshape_column (l : list spec_float) n :
  length l = n -> reshape (array1 l) [n; 1] = Ok (mk_ndarray [n; 1] l).
Proof.
  intros <-. unfold reshape, array1. cbn [shape data size_of fold_right].
  now rewrite Nat.eqb_refl.
Qed.

Lemma reshape_column_fails (l : list spec_float) n :
  length l <> n -> reshape (array1 l) [n; 1] = Raise ValueError.
Proof.
  intros H. unfold reshape, array1. cbn [shape data size_of fold_right].
  destruct (Nat.eqb_spec (n * (1 * 1)) (length l * 1)); [lia|reflexivity].
Qed.

Lemma report_files (self : Hyperparametersearch TF VF) :
  report self = false \/ report_dir self <> None ->
  exists files,
    (if report self
     then d <- attr (report_dir self) ;;
          Ok [(d ++ "/hyperparametersearch_report.npy")%string;
              (d ++ "/readme.txt")%string]
     else Ok []) = Ok files.
Proof.
  intros [H|H].
  - rewrite H. now exists [].
  - destruct (report self); [|now exists []].
    destruct (report_dir self) as [d|]; [|now destruct H].
    simpl. eauto.
Qed.

Lemma nth_of_neurons n i :
  i < n -> nth i (map F64.of_nat (seq 0 n)) F64.nan = F64.of_nat i.
Proof.
  intros H.
  apply nth_error_nth.
  rewrite nth_error_map, nth_error_seq.
  destruct (Nat.ltb_spec i n); [reflexivity|lia].
Qed.

(** What the constructors establish: the neurons are numbered from zero,
    and a search of either subclass has its report directory. *)
Lemma init_neurons (tf_neuron_count : TF -> nat) (now : string)
      (tf : TF) (vf : VF) (factors : list spec_float) (report : bool) :
  let self := __init__ tf_neuron_count now tf vf factors report in
  neuron_count self = tf_neuron_count tf /\
  neurons self = seq 0 (neuron_count self).
Proof. split; reflexivity. Qed.

Lemma subclass_init_report_dir (tf_neuron_count : TF -> nat)
      (kind : string) (env : LinFilter.Env) (tf : TF) (vf : VF)
      (factors : list spec_float) (report : bool)
      (self : Hyperparametersearch TF VF) :
  subclass__init__ tf_neuron_count kind env tf vf factors report = Ok self ->
  report_dir self <> None /\
  neurons self = seq 0 (neuron_count self) /\
  df_corrs self = None.
Proof.
  unfold subclass__init__.
  destruct (LinFilter.mkdir env _); simpl; [|discriminate].
  intros [= <-]. simpl. repeat split. discriminate.
Qed.

End Searches.

(** C2. When one candidate (column [j]) has, for every neuron, a
    correlation strictly above the correlations of all other candidates,
    [compute_best_parameter] returns; the factor it selects for every neuron
    is that neuron's entry in column [j] of the factor table, the
    correlation it reports for a neuron is the maximum of the neuron's row,
    which is the neuron's entry in column [j], and the average it returns is
    the mean of these correlations over the neurons. *)
Theorem compute_best_parameter_dominating
        (TF VF : Type) (self : Hyperparametersearch TF VF)
        (params corrs : DataFrame) (j : nat) :
  df_params self = Some params ->
  df_corrs self = Some corrs ->
  length (values params) = neuron_count self ->
  length (values corrs) = neuron_count self ->
  neurons self = seq 0 (neuron_count self) ->
  report self = false \/ report_dir self <> None ->
  forallb (dominates j) (values corrs) = true ->
  forallb (has_factor j) (values params) = true ->
  let n := neuron_count self in
  let factors := column j (values params) in
  let best := column j (values corrs) in
  exists self',
    compute_best_parameter self
    = Ok (self',
          (mk_ndarray [n; 3]
             (flat_map (fun i => [F64.of_nat i; nth i factors F64.nan;
                                  nth i best F64.nan])
                       (seq 0 n)),
           mean best)) /\
    hyperparameters self' = Some (mk_ndarray [n; 1] factors) /\
    single_neuron_correlations self' = Some (mk_ndarray [n; 1] best) /\
    best = max_axis1 corrs /\
    mean best = (if n =? 0 then F64.nan
                 else F64.div (F64.sum best) (F64.of_nat n)).
Proof.
  intros Hp Hc Hlp Hlc Hneu Hrep Hdom Hfac n factors best.
  assert (Hbest : best = max_axis1 corrs).
  { unfold best, column, max_axis1. apply map_ext_in. intros row Hrow.
    rewrite forallb_forall in Hdom.
    symmetry. apply (dominates_nth j row F64.nan). now apply Hdom. }
  assert (Hsel : selected params corrs = factors).
  { unfold selected, max_axis1. apply selected_dominating; auto. congruence. }
  assert (Hlb : length best = n) by (unfold best, column; now rewrite length_map).
  assert (Hlf : length factors = n) by (unfold factors, column; now rewrite length_map).
  assert (Hnum : forallb notnan best = true).
  { apply forallb_forall. intros x Hx. unfold best, column in Hx.
    apply in_map_iff in Hx. destruct Hx as (row & <- & Hrow).
    rewrite forallb_forall in Hdom.
    apply (dominates_nth j row F64.nan). now apply Hdom. }
  destruct (report_files _ _ self Hrep) as (files & Hfiles).
  subst n. unfold compute_best_parameter. rewrite Hp, Hc. cbn [attr bind].
  rewrite Hsel, <- Hbest.
  rewrite (reshape_column factors _ Hlf), (reshape_column best _ Hlb).
  cbn [bind]. rewrite Hneu.
  rewrite hstack_columns by (auto; now rewrite length_map, length_seq).
  cbn [bind]. rewrite Hfiles. cbn [bind].
  eexists. split; [|split; [|split; [|split]]].
  - do 3 f_equal. f_equal. rewrite !flat_map_concat_map. f_equal.
    apply map_ext_in. intros i Hi. apply in_seq in Hi.
    now rewrite nth_of_neurons by lia.
  - reflexivity.
  - reflexivity.
  - reflexivity.
  - rewrite (mean_of_numbers best Hnum), Hlb. reflexivity.
Qed.

(** The selection on two neurons and three candidates, the second of which
    is best for both. *)
Lemma compute_best_parameter_dominating_witness :
  exists self',
    compute_best_parameter Examples.dominated_search
    = Ok (self',
          (mk_ndarray [2; 3]
             [F64.of_nat 0; F64.of_Z 10; Examples.q 3 4;
              F64.of_nat 1; F64.of_Z 10; Examples.q 1 2],
           F64.div (F64.add (Examples.q 3 4) (Examples.q 1 2)) (F64.of_Z 2))).
Proof.
  destruct (compute_best_parameter_dominating unit unit
              Examples.dominated_search
              (mk_DataFrame [F64.of_Z 1; F64.of_Z 10; F64.of_Z 100]
                 (map (fun _ => [F64.of_Z 1; F64.of_Z 10; F64.of_Z 100]) (seq 0 2)))
              (mk_DataFrame [F64.of_Z 1; F64.of_Z 10; F64.of_Z 100]
                 [[Examples.q 1 4; Examples.q 3 4; Examples.q 1 2];
                  [Examples.q 0 1; Examples.q 1 2; Examples.q 1 4]])
              1 eq_refl eq_refl eq_refl eq_refl eq_refl
              (or_introl eq_refl) eq_refl eq_refl)
    as (self' & H & _).
  exists self'. rewrite H. vm_compute. reflexivity.
Defined.

(** C5, as amended. When some neuron's maximum correlation is achieved by
    more than one candidate (every neuron having a correlation that is a
    number, and the factor table being free of NaN and as wide as the
    correlation table), [compute_best_parameter] selects more than
    [neuron_count] factors and the reshape into a [neuron_count]-by-1 column
    raises [ValueError]: no tie is broken and nothing is returned. *)
Theorem compute_best_parameter_tie_raises
        (TF VF : Type) (self : Hyperparametersearch TF VF)
        (params corrs : DataFrame) :
  df_params self = Some params ->
  df_corrs self = Some corrs ->
  length (values params) = neuron_count self ->
  length (values corrs) = neuron_count self ->
  forallb (existsb notnan) (values corrs) = true ->
  covers (values params) (values corrs) = true ->
  existsb tied (values corrs) = true ->
  neuron_count self < length (selected params corrs) /\
  compute_best_parameter self = Raise ValueError.
Proof.
  intros Hp Hc Hlp Hlc Hnum Hcov Htie.
  assert (Hlen : neuron_count self < length (selected params corrs)).
  { unfold selected, max_axis1.
    rewrite selected_count by (auto; congruence).
    rewrite <- Hlc. now apply winners_sum. }
  split; [exact Hlen|].
  unfold compute_best_parameter. rewrite Hp, Hc. cbn [attr bind].
  rewrite reshape_column_fails by lia. reflexivity.
Qed.

(** One neuron whose two candidates have the same correlation. *)
Lemma compute_best_parameter_tie_raises_witness :
  1 < length (selected
                (mk_DataFrame [F64.of_Z 1; F64.of_Z 10]
                              [[F64.of_Z 1; F64.of_Z 10]])
                (mk_DataFrame [F64.of_Z 1; F64.of_Z 10]
                              [[Examples.q 1 2; Examples.q 1 2]])) /\
  compute_best_parameter Examples.tied_search = Raise ValueError.
Proof.
  apply (compute_best_parameter_tie_raises unit unit Examples.tied_search
           (mk_DataFrame [F64.of_Z 1; F64.of_Z 10] [[F64.of_Z 1; F64.of_Z 10]])
           (mk_DataFrame [F64.of_Z 1; F64.of_Z 10]
                         [[Examples.q 1 2; Examples.q 1 2]]));
    reflexivity.
Defined.

(** C5 as stated fails: one neuron, two candidates with one correlation;
    the row is tied and no column of selected factors is produced. *)
Lemma compute_best_parameter_tie :
  tied [Examples.q 1 2; Examples.q 1 2] = true /\
  compute_best_parameter Examples.tied_search = Raise ValueError.
Proof. split; reflexivity. Qed.

(** C10. Both [conduct_search] methods run their loop over the candidates
    and then raise [AttributeError] at [pd.self]; for every train filter,
    validation filter and list of candidates neither returns its search
    array. *)
Theorem conduct_search_never_returns
        (TF VF : Type)
        (train : TF -> LinFilter.factor spec_float -> result (TF * array))
        (predict : VF -> array -> bool -> result (VF * (array * spec_float)))
        (vf_single_neuron_correlations : VF -> result (list spec_float))
        (self : Hyperparametersearch TF VF) :
  global_conduct_search train predict self
  = (global_loop train predict (TrainFilter self) (ValidationFilter self)
                 (reg_factors self) ;;; Raise AttributeError) /\
  individual_conduct_search train predict vf_single_neuron_correlations self
  = (individual_loop train predict vf_single_neuron_correlations
                     (neuron_count self) (TrainFilter self)
                     (ValidationFilter self) (reg_factors self)
     ;;; Raise AttributeError) /\
  returns (global_conduct_search train predict self) = false /\
  returns (individual_conduct_search train predict
             vf_single_neuron_correlations self) = false.
Proof.
  assert (Hg : global_conduct_search train predict self
               = (global_loop train predict (TrainFilter self)
                    (ValidationFilter self) (reg_factors self)
                  ;;; Raise AttributeError)).
  { unfold global_conduct_search.
    destruct (global_loop _ _ _ _ _) as [[[tf vf] c]|e]; reflexivity. }
  assert (Hi : individual_conduct_search train predict
                 vf_single_neuron_correlations self
               = (individual_loop train predict vf_single_neuron_correlations
                    (neuron_count self) (TrainFilter self)
                    (ValidationFilter self) (reg_factors self)
                  ;;; Raise AttributeError)).
  { unfold individual_conduct_search.
    destruct (individual_loop _ _ _ _ _ _ _) as [[[[tf vf] ps] cs]|e];
      reflexivity. }
  repeat split; try assumption.
  - rewrite Hg. now destruct (global_loop _ _ _ _ _).
  - rewrite Hi. now destruct (individual_loop _ _ _ _ _ _ _).
Qed.

End SearchFacts.

(* ================================================================== *)
(** * Rounding keeps the sign *)
(* ================================================================== *)

Module RoundingFacts.

Import IEEE.

Section Format.

Variables prec emax : Z.

Lemma iter_pos_invariant (A : Type) (P : A -> Prop) (f : A -> A) :
  (forall x, P x -> P (f x)) ->
  forall p x, P x -> P (iter_pos f p x).
Proof.
  intros Hf. induction p as [p IH|p IH|]; intros x Hx; simpl; auto.
Qed.

Lemma shr_1_nonneg mrs : (0 <= shr_m mrs)%Z -> (0 <= shr_m (shr_1 mrs))%Z.
Proof.
  destruct mrs as [m r s]. simpl.
  destruct m as [|[p|p|]|[p|p|]]; simpl; lia.
Qed.

Lemma shr_nonneg mrs e n :
  (0 <= shr_m mrs)%Z -> (0 <= shr_m (fst (shr mrs e n)))%Z.
Proof.
  intros H. unfold shr. destruct n; simpl; auto.
  apply iter_pos_invariant; auto. apply shr_1_nonneg.
Qed.

Lemma shr_record_of_loc_m m l : shr_m (shr_record_of_loc m l) = m.
Proof. destruct l as [|[ | | ]]; reflexivity. Qed.

Lemma shr_fexp_nonneg m e l :
  (0 <= m)%Z -> (0 <= shr_m (fst (shr_fexp prec emax m e l)))%Z.
Proof.
  intros H. unfold shr_fexp. apply shr_nonneg.
  now rewrite shr_record_of_loc_m.
Qed.

Lemma round_nearest_even_nonneg m l :
  (0 <= m)%Z -> (0 <= round_nearest_even m l)%Z.
Proof.
  intros H. unfold round_nearest_even.
  destruct l as [|[ | | ]]; try lia. destruct (Z.even m); lia.
Qed.

(** Rounding a non-negative mantissa with a positive sign never gives a
    NaN or a negative number. *)
Lemma binary_round_aux_nonneg m e l :
  (0 <= m)%Z -> nonneg (binary_round_aux prec emax false m e l).
Proof.
  intros H. unfold binary_round_aux.
  pose proof (shr_fexp_nonneg m e l H) as H1.
  destruct (shr_fexp prec emax m e l) as [mrs' e'].
  simpl in H1.
  pose proof (shr_fexp_nonneg _ e' loc_Exact
                (round_nearest_even_nonneg _ (loc_of_shr_record mrs') H1)) as H2.
  destruct (shr_fexp prec emax _ e' loc_Exact) as [mrs'' e''].
  simpl in H2.
  destruct (shr_m mrs'') as [|p|p]; simpl; try reflexivity; try lia.
  now destruct (e'' <=? emax - prec)%Z.
Qed.

Lemma of_nat_nonneg n : nonneg (IEEE.of_nat prec emax n).
Proof.
  unfold IEEE.of_nat, IEEE.of_Z, binary_normalize.
  destruct (Z.of_nat n) as [|p|p] eqn:E; try reflexivity; try lia.
  unfold binary_round.
  destruct (shl_align p 0 _) as [mz ez].
  apply binary_round_aux_nonneg. lia.
Qed.

End Format.

(** The smaller of [+0] and a number that is not negative is [+0]. *)
Lemma minimum_zero_nonneg x :
  nonneg x -> IEEE.minimum (S754_zero false) x = S754_zero false.
Proof.
  destruct x as [s|s| |s m e]; simpl; intros H; try contradiction; subst;
    reflexivity.
Qed.

End RoundingFacts.

(* ================================================================== *)
(** * The lowpass kernel *)
(* ================================================================== *)

Module KernelFacts.

Import Mei NpFacts RoundingFacts.

Lemma nth_error_rows (A B : Type) (f : A -> list B) r : forall l j i a,
  (forall a, length (f a) = r) ->
  nth_error l j = Some a -> i < r ->
  nth_error (flat_map f l) (j * r + i) = nth_error (f a) i.
Proof.
  induction l as [|x l IH]; intros j i a Hf Hj Hi.
  - destruct j; discriminate.
  - simpl. destruct j as [|j]; simpl in Hj.
    + injection Hj as ->. simpl. apply nth_error_app1. now rewrite Hf.
    + rewrite nth_error_app2 by (rewrite Hf; lia).
      rewrite Hf. replace (S j * r + i - r) with (j * r + i) by lia.
      now apply IH.
Qed.

Lemma length_rows (A B : Type) (f : A -> list B) r : forall l,
  (forall a, length (f a) = r) ->
  length (flat_map f l) = length l * r.
Proof.
  induction l as [|x l IH]; intros Hf; simpl; [reflexivity|].
  rewrite length_app, Hf, IH by assumption. reflexivity.
Qed.

Lemma length_ramp n : length (ramp n) = n.
Proof. unfold ramp. now rewrite length_map, length_seq. Qed.

Lemma nth_error_ramp n x :
  x < n ->
  nth_error (ramp n) x
  = Some (F32.minimum (F32.of_nat x) (F32.of_nat (n - 1 - x))).
Proof.
  intros H. unfold ramp. rewrite nth_error_map, nth_error_seq.
  destruct (Nat.ltb_spec x n); [reflexivity|lia].
Qed.

(** The first entry of a ramp is [+0]. *)
Lemma ramp_head n :
  0 < n -> nth_error (ramp n) 0 = Some (S754_zero false).
Proof.
  intros H. rewrite nth_error_ramp by assumption. f_equal.
  change (F32.of_nat 0) with (S754_zero false).
  apply minimum_zero_nonneg. apply of_nat_nonneg.
Qed.

(** The entry of the kernel where both ramps are [+0], for an exponent
    that is not negative. *)
Lemma lowpass_entry_corner tpow alpha :
  pow_zero_exponent tpow -> pow_zero_base tpow ->
  SFleb (S754_zero false) alpha = true ->
  lowpass_entry tpow alpha (S754_zero false) (S754_zero false) = F32.one.
Proof.
  intros H0 Hb Ha. unfold lowpass_entry.
  rewrite (Hb (F64.of_Z 2)) by reflexivity.
  change (F32.add (S754_zero false) (S754_zero false)) with (S754_zero false).
  destruct (IEEEFacts.leb_cases _ _ Ha) as [Hlt|Heq].
  - rewrite (Hb alpha Hlt). reflexivity.
  - rewrite <- IEEEFacts.eqb_sym in Heq.
    rewrite (H0 _ alpha Heq). reflexivity.
Qed.

(** C6, as amended. For an image of shape (b, c, H, W) and every exponent
    alpha, [get_lowpass_tensor] returns an H-by-W array whose entry at
    (y, x) is 1 / max(1, (min(x, W-1-x)^2 + min(y, H-1-y)^2)^alpha), in
    float32 arithmetic; and for a power function that follows IEEE 754 at a
    zero base and at a zero exponent, its entry at (0, 0) is 1 for every
    alpha that is not negative (H and W at least one). *)
Theorem get_lowpass_tensor_entries
        (tpow : spec_float -> spec_float -> spec_float)
        (image : real) (alpha : spec_float) (b c H W : nat) :
  shape image = [b; c; H; W] ->
  pow_zero_exponent tpow ->
  pow_zero_base tpow ->
  exists t,
    get_lowpass_tensor tpow image alpha = Ok t /\
    shape t = [H; W] /\
    length (data t) = H * W /\
    (forall y x, y < H -> x < W ->
       nth_error (data t) (y * W + x)
       = Some (F32.rtruediv F32.one
                 (F32.maximum F32.one
                    (tpow
                       (F32.add
                          (tpow (F32.minimum (F32.of_nat x) (F32.of_nat (W - 1 - x)))
                                (F64.of_Z 2))
                          (tpow (F32.minimum (F32.of_nat y) (F32.of_nat (H - 1 - y)))
                                (F64.of_Z 2)))
                       alpha)))) /\
    (0 < H -> 0 < W -> SFleb (S754_zero false) alpha = true ->
     nth_error (data t) 0 = Some F32.one).
Proof.
  intros Hs H0 Hb. unfold get_lowpass_tensor. rewrite Hs.
  eexists. split; [reflexivity|]. cbn [shape data].
  assert (Hrow : forall thy,
            length (map (fun twx => lowpass_entry tpow alpha twx thy) (ramp W)) = W)
    by (intros; now rewrite length_map, length_ramp).
  split; [reflexivity|]. split; [|split].
  - rewrite (length_rows _ _ _ W) by exact Hrow. now rewrite length_ramp.
  - intros y x Hy Hx.
    rewrite (nth_error_rows _ _ _ W _ _ _ _ Hrow (nth_error_ramp H y Hy) Hx).
    rewrite nth_error_map, (nth_error_ramp W x Hx). reflexivity.
  - intros HH HW Ha.
    change 0 with (0 * W + 0) at 1.
    rewrite (nth_error_rows _ _ _ W _ _ _ _ Hrow (ramp_head H HH) HW).
    rewrite nth_error_map, (ramp_head W HW). simpl. f_equal.
    now apply lowpass_entry_corner.
Qed.

Lemma pow_ref_zero_exponent : pow_zero_exponent Examples.pow_ref.
Proof. intros x a H. unfold Examples.pow_ref. now rewrite H. Qed.

Lemma pow_ref_zero_base : pow_zero_base Examples.pow_ref.
Proof.
  intros a H. unfold Examples.pow_ref. rewrite H.
  assert (Hn : IEEE.is_nan a = false) by now apply IEEEFacts.ltb_notnan_r in H.
  assert (He : SFeqb a (S754_zero false) = false)
    by (rewrite IEEEFacts.eqb_sym; now apply IEEEFacts.ltb_not_eqb).
  now rewrite He, Hn.
Qed.

(** The kernel of a 2 x 2 image with exponent 1/10: four entries, the
    first of them one. *)
Lemma get_lowpass_tensor_entries_witness :
  exists t,
    get_lowpass_tensor Examples.pow_ref Examples.image_2x2 (Examples.q 1 10) = Ok t /\
    shape t = [2; 2] /\
    length (data t) = 4 /\
    nth_error (data t) 0 = Some F32.one.
Proof.
  destruct (get_lowpass_tensor_entries Examples.pow_ref Examples.image_2x2
              (Examples.q 1 10) 1 1 2 2 eq_refl
              pow_ref_zero_exponent pow_ref_zero_base)
    as (t & Ht & Hs & Hl & _ & Hc).
  exists t. repeat split; try assumption.
  apply Hc; [lia | lia | reflexivity].
Defined.

(** C6 as stated fails for a negative exponent: [+0] to the power -1 is
    [+inf], and the entry at (0, 0) of the kernel is [+0]. *)
Lemma get_lowpass_tensor_negative_alpha :
  Examples.pow_ref (S754_zero false) (F64.of_Z (-1)) = S754_infinity false /\
  get_lowpass_tensor Examples.pow_ref Examples.pixel (F64.of_Z (-1))
  = Ok (mk_ndarray [1; 1] [S754_zero false]) /\
  SFeqb (S754_zero false) F32.one = false.
Proof. repeat split. Qed.

End KernelFacts.

(* ================================================================== *)
(** * The gradient filter and the ascent step *)
(* ================================================================== *)

Module GradientFacts.

Import Mei.

(** ** Broadcasting a mask over the planes of a tensor *)

Lemma bindex_axis d k : (if d =? 1 then 0 else k mod d) = k mod d.
Proof.
  destruct (Nat.eqb_spec d 1) as [->|_]; [|reflexivity].
  now rewrite Nat.mod_1_r.
Qed.

(** An operand of the shape of the result is read at the index written. *)
Lemma bindex_same : forall rsh k,
  k < fold_right Nat.mul 1 rsh -> bindex rsh rsh k = k.
Proof.
  induction rsh as [|d rsh IH]; intros k Hk; simpl in *; [lia|].
  rewrite bindex_axis.
  destruct (Nat.eq_dec d 0) as [->|Hd]; [simpl in Hk; lia|].
  rewrite IH by (apply Nat.Div0.div_lt_upper_bound; lia).
  pose proof (Nat.div_mod k d Hd). lia.
Qed.

(** A mask of shape (h, w) against a result of shape (b, c, h, w): the
    mask is read at the index within the plane. *)
Lemma bindex_plane b c h w k :
  bindex [w; h] [w; h; c; b] k = k mod (h * w).
Proof.
  simpl. rewrite !bindex_axis, (Nat.mul_comm h w), Nat.Div0.mod_mul_r. lia.
Qed.

Lemma bshape_plane b c h w :
  bshape [b; c; h; w] [h; w] = Some [b; c; h; w].
Proof. unfold bshape. simpl. now rewrite !Nat.eqb_refl. Qed.

Lemma div_nan m : F32.div F32.nan m = F32.nan.
Proof. reflexivity. Qed.

(** C4, as amended. For a gradient G of shape (b, c, h, w) and a mask L of
    shape (h, w), the filter returns a complex tensor of the shape of G: the
    inverse transform of the product, entry by entry, of the transform of G
    with L / mean(L) repeated over the planes. The result keeps its
    imaginary part: its dtype is complex, not real. *)
Theorem lowpass_filtering_returns_complex
        (fft2_kernel ifft2_kernel : list nat -> list complex -> list complex)
        (G L : real) (b c h w : nat) :
  shape G = [b; c; h; w] ->
  shape L = [h; w] ->
  let spectrum := fft2_kernel (shape G) (map of_real (data G)) in
  let f k := F32.div (nth (k mod (h * w)) (data L) F32.nan) (mean L) in
  exists out,
    lowpass_filtering_in_frequency_domain fft2_kernel ifft2_kernel G L
    = Ok out /\
    is_real out = false /\
    tshape out = shape G /\
    out = TComplex
            (mk_ndarray (shape G)
               (ifft2_kernel (shape G)
                  (map (fun k => cmul (nth k spectrum (F32.nan, F32.nan))
                                      (of_real (f k)))
                       (seq 0 (b * c * h * w))))).
Proof.
  intros HG HL spectrum f.
  unfold lowpass_filtering_in_frequency_domain, fft2, ifft2, mul_complex_real,
    ndim, map_data.
  cbn [shape data]. rewrite HG, HL. cbn [length Nat.leb bind shape data].
  rewrite bshape_plane. cbn [bind shape data length Nat.leb rev app].
  eexists. split; [reflexivity|]. split; [reflexivity|]. split; [reflexivity|].
  do 3 f_equal.
  replace (b * c * h * w) with (size_of [b; c; h; w]) by (simpl; lia).
  apply map_ext_in. intros k Hk. apply in_seq in Hk.
  rewrite bindex_plane.
  rewrite bindex_same by (simpl in *; lia).
  f_equal.
  - unfold spectrum. now rewrite HG.
  - unfold f. f_equal.
    rewrite <- (div_nan (mean L)) at 1.
    apply (map_nth (fun x => F32.div x (mean L))).
Qed.

(** The filter on the gradient of an image of 2 x 2 pixels. *)
Lemma lowpass_filtering_returns_complex_witness :
  exists out,
    lowpass_filtering_in_frequency_domain
      (fun _ d => d) (fun _ d => d) Examples.image_2x2 Examples.mask_2x2
    = Ok out /\
    is_real out = false /\
    tshape out = [1; 1; 2; 2].
Proof.
  destruct (lowpass_filtering_returns_complex (fun _ d => d) (fun _ d => d)
              Examples.image_2x2 Examples.mask_2x2 1 1 2 2 eq_refl eq_refl)
    as (out & H1 & H2 & H3 & _).
  exists out. repeat split; assumption.
Defined.

(** C4 as stated fails: on a gradient of one pixel, whose transform is
    the pixel itself, the filter returns a complex tensor. *)
Lemma lowpass_filtering_not_real :
  lowpass_filtering_in_frequency_domain
    Examples.fft2_single_sample Examples.fft2_single_sample
    Examples.pixel Examples.pixel_mask
  = Ok (TComplex (mk_ndarray [1; 1; 1; 1] [(F32.of_Z 2, S754_zero false)])) /\
  is_real (TComplex (mk_ndarray [1; 1; 1; 1] [(F32.of_Z 2, S754_zero false)]))
  = false.
Proof. split; reflexivity. Qed.

(** ** The ascent step *)

(** The step does not use what the filter returns: once the filter has
    run, the new image is the blurred sum of the normalized image and the
    rate times the raw gradient. *)
Lemma step_adds_raw_gradient
      (fft2_kernel ifft2_kernel : list nat -> list complex -> list complex)
      (backward : real -> nat -> result real)
      (gaussian_blur : real -> nat -> spec_float -> real)
      (image lowpass : real) (neuron_idx : nat)
      (step_gain lr sigma m : spec_float) (grad : real) (a : tensor) :
  max image = Ok m ->
  backward (map_data (fun x => F32.div x m) image) neuron_idx = Ok grad ->
  lowpass_filtering_in_frequency_domain fft2_kernel ifft2_kernel grad lowpass
  = Ok a ->
  naive_gradient_ascent_step fft2_kernel ifft2_kernel backward gaussian_blur
    image lowpass neuron_idx step_gain lr sigma
  = (image' <- iadd (map_data (fun x => F32.div x m) image)
                    (map_data (F32.mul (ascent_rate grad step_gain lr)) grad) ;;
     Ok (gaussian_blur image' 3 sigma)).
Proof.
  intros Hm Hg Ha. unfold naive_gradient_ascent_step.
  rewrite Hm. cbn [bind]. rewrite Hg. cbn [bind]. rewrite Ha. reflexivity.
Qed.

(** C1, the code at a failing input. For an image of one pixel and a
    constant score (a gradient of zero), with the default learning rate and
    step gain: the rate of the code is infinite, the update it adds is NaN
    and so is the image handed to the blur, whatever the transforms and the
    blur are; the rate of the contract is finite and its update of a zero
    gradient is zero. *)
Theorem step_on_zero_gradient
        (fft2_kernel ifft2_kernel : list nat -> list complex -> list complex)
        (gaussian_blur : real -> nat -> spec_float -> real)
        (sigma : spec_float) :
  let zero_gradient := mk_ndarray [1; 1; 1; 1] [S754_zero false] in
  ascent_rate zero_gradient Examples.step_gain_default Examples.lr_default
  = S754_infinity false /\
  ascent_update zero_gradient Examples.step_gain_default Examples.lr_default
  = mk_ndarray [1; 1; 1; 1] [S754_nan] /\
  naive_gradient_ascent_step fft2_kernel ifft2_kernel Examples.constant_score
    gaussian_blur Examples.pixel Examples.pixel_mask 0
    Examples.step_gain_default Examples.lr_default sigma
  = Ok (gaussian_blur (mk_ndarray [1; 1; 1; 1] [S754_nan]) 3 sigma) /\
  contract_update zero_gradient zero_gradient
    Examples.step_gain_default Examples.lr_default
  = mk_ndarray [1; 1; 1; 1] [S754_zero false].
Proof.
  intros zero_gradient. repeat split.
Qed.

End GradientFacts.

(* ================================================================== *)
(** * Flattened images, flattened filters and the raw estimator *)
(* ================================================================== *)

Module TrainingFacts.

Import LinFilter Training NpFacts.

Section Blocks.

Variable A : Type.
Implicit Types l : list A.

Lemma block_nth_error l b k j :
  j < b -> nth_error (block b k l) j = nth_error l (k * b + j).
Proof.
  intros H. unfold block. rewrite nth_error_firstn.
  destruct (Nat.ltb_spec j b); [|lia]. apply nth_error_skipn.
Qed.

Lemma block_length l b k :
  (k + 1) * b <= length l -> length (block b k l) = b.
Proof.
  intros H. unfold block. rewrite length_firstn, length_skipn. lia.
Qed.

(** Column [a] of an [n] x [p] array, as a block of its swapped data. *)
Lemma block_of_swap l n p a (d : A) :
  length l = n * p -> a < p ->
  block n a (swap_data n p 1 l) = map (fun i => nth (i * p + a) l d) (seq 0 n).
Proof.
  intros Hl Ha.
  assert (Hs : length (swap_data n p 1 l) = p * n) by now apply swap_data_length.
  apply nth_error_ext. intros i.
  destruct (Nat.lt_ge_cases i n) as [Hi|Hi].
  - rewrite block_nth_error by assumption.
    rewrite swap_data_nth_error by assumption.
    rewrite nth_error_map, nth_error_seq.
    destruct (Nat.ltb_spec i n); [|lia]. simpl.
    apply nth_error_nth'. nia.
  - transitivity (@None A).
    + apply nth_error_None. rewrite block_length; [lia|]. rewrite Hs. nia.
    + symmetry. apply nth_error_None. now rewrite length_map, length_seq.
Qed.

End Blocks.

Section Flatten.

Variable A : Type.
Implicit Types self s : Filter A.

Lemma set_images_same self x : images self = x -> set_images self x = self.
Proof. destruct self; simpl; intros ->; reflexivity. Qed.

(** Flattening the images of a single channel keeps their data. *)
Lemma image_2d_flat self :
  shape (images self)
  = [image_count self; channels self; dim1 self; dim2 self] ->
  channels self = 1 \/ image_count self * (dim1 self * dim2 self) = 0 ->
  _image_2d self
  = Ok (set_images self
          (mk_ndarray [image_count self; dim1 self * dim2 self]
                      (data (images self)))).
Proof.
  intros Hs Hc. unfold _image_2d, reshape. rewrite Hs.
  cbn [size_of fold_right].
  rewrite <- (@FilterFacts.single_channel_size _ _ _ _ Hc), Nat.eqb_refl.
  reflexivity.
Qed.

(** X1. A second [_image_2d] after a successful one succeeds and changes
    nothing: the estimators may flatten the images again and again. *)
Theorem image_2d_idempotent self s :
  _image_2d self = Ok s -> _image_2d s = Ok s.
Proof.
  unfold _image_2d, reshape.
  destruct (size_of [image_count self; dim1 self * dim2 self]
            =? size_of (shape (images self))); simpl; [|discriminate].
  intros [= <-]. cbn [images image_count dim1 dim2 set_images shape data].
  rewrite Nat.eqb_refl. simpl. reflexivity.
Qed.

(** X2. For images of shape (image_count, channels, dim1, dim2),
    [_image_2d] succeeds exactly when there is a single channel (or no
    element at all); it then keeps the data and gives the shape
    (image_count, dim1 * dim2). Otherwise it raises [ValueError]. *)
Theorem image_2d_single_channel self :
  shape (images self)
  = [image_count self; channels self; dim1 self; dim2 self] ->
  (channels self = 1 \/ image_count self * (dim1 self * dim2 self) = 0 ->
   _image_2d self
   = Ok (set_images self
           (mk_ndarray [image_count self; dim1 self * dim2 self]
                       (data (images self))))) /\
  (channels self <> 1 -> image_count self * (dim1 self * dim2 self) <> 0 ->
   _image_2d self = Raise ValueError).
Proof.
  intros Hs. split.
  - now apply image_2d_flat.
  - intros Hc Hn. unfold _image_2d, reshape. rewrite Hs.
    cbn [size_of fold_right].
    destruct (Nat.eqb_spec (image_count self * (dim1 self * dim2 self * 1))
                (image_count self * (channels self * (dim1 self * (dim2 self * 1)))))
      as [E|_]; [|reflexivity].
    exfalso. apply Hc.
    assert (E' : image_count self * (dim1 self * dim2 self) * 1
                 = image_count self * (dim1 self * dim2 self) * channels self)
      by lia.
    apply Nat.mul_cancel_l in E'; [lia|assumption].
Qed.

End Flatten.

Lemma image_2d_idempotent_witness :
  _image_2d (set_images Examples.one_channel_filter
               (mk_ndarray [1; 4] [1; 2; 3; 4]%Z))
  = Ok (set_images Examples.one_channel_filter
               (mk_ndarray [1; 4] [1; 2; 3; 4]%Z)).
Proof.
  apply (image_2d_idempotent Z Examples.one_channel_filter). reflexivity.
Defined.

Lemma image_2d_single_channel_witness :
  _image_2d Examples.one_channel_filter
  = Ok (set_images Examples.one_channel_filter
          (mk_ndarray [1; 4] [1; 2; 3; 4]%Z)).
Proof.
  apply (image_2d_single_channel Z Examples.one_channel_filter eq_refl).
  left. reflexivity.
Defined.



(** X3. On a 4-D filter whose axes are the counts of the object, the
    module-level [_reshape_filter_2d] returns what the method [_fil_2d]
    leaves in [self.fil], errors included. A filter that is not 4-D is
    rejected by the function ([AssertionError]) and left as it is by the
    method. *)
Theorem reshape_filter_2d_agrees (A : Type) (self : Filter A) (f : ndarray A) :
  fil self = Some f ->
  (shape f = [neuron_count self; channels self; dim1 self; dim2 self] ->
   _reshape_filter_2d f = (s <- _fil_2d self ;; get_fil s)) /\
  (ndim f <> 4 ->
   _reshape_filter_2d f = Raise AssertionError /\ _fil_2d self = Ok self).
Proof.
  intros Hf. split.
  - intros Hs. unfold _reshape_filter_2d, _fil_2d, get_fil, shape_at, ndim.
    rewrite Hf. cbn [bind]. rewrite Hs. cbn [length Nat.eqb nth_error bind].
    destruct (reshape (squeeze f) [neuron_count self; dim1 self * dim2 self])
      as [g|e] eqn:E; [|reflexivity].
    cbn [bind].
    destruct (moveaxis_01 g) as [h|e]; reflexivity.
  - intros Hn. unfold _reshape_filter_2d, _fil_2d, get_fil. rewrite Hf.
    cbn [bind].
    destruct (Nat.eqb_spec (ndim f) 4); [contradiction|]. split; reflexivity.
Qed.

Lemma reshape_filter_2d_agrees_witness :
  _reshape_filter_2d
    (mk_ndarray [3; 1; 2; 2] [1; 2; 3; 4; 5; 6; 7; 8; 9; 10; 11; 12]%Z)
  = (s <- _fil_2d Examples.one_channel_filter ;; get_fil s).
Proof.
  apply (reshape_filter_2d_agrees Z Examples.one_channel_filter
           (mk_ndarray [3; 1; 2; 2] [1; 2; 3; 4; 5; 6; 7; 8; 9; 10; 11; 12]%Z));
    reflexivity.
Defined.

(** X4. The flattened form of a single-channel filter of shape
    (n, 1, d1, d2) has shape (d1 * d2, n), and its entry (p, k) is entry
    k * (d1 * d2) + p of the data of the filter: column k is the filter of
    neuron k, pixel by pixel. *)
Theorem reshape_filter_2d_entries (A : Type) (f : ndarray A) (n d1 d2 : nat) :
  shape f = [n; 1; d1; d2] ->
  wf f ->
  exists g,
    _reshape_filter_2d f = Ok g /\
    shape g = [d1 * d2; n] /\
    length (data g) = d1 * d2 * n /\
    forall p k, p < d1 * d2 -> k < n ->
      nth_error (data g) (p * n + k) = nth_error (data f) (k * (d1 * d2) + p).
Proof.
  intros Hs Hwf. red in Hwf. rewrite Hs in Hwf. cbn [size_of fold_right] in Hwf.
  assert (Hl : length (data f) = n * (d1 * d2)) by lia.
  unfold _reshape_filter_2d, shape_at, ndim. rewrite Hs.
  cbn [length Nat.eqb nth_error bind].
  unfold reshape, squeeze. cbn [shape data].
  rewrite size_of_squeeze, Hs. cbn [size_of fold_right].
  replace (n * (1 * (d1 * (d2 * 1)))) with (n * (d1 * d2 * 1)) by lia.
  rewrite Nat.eqb_refl. cbn [bind moveaxis_01 shape data size_of fold_right].
  eexists. split; [reflexivity|]. cbn [shape data].
  split; [reflexivity|]. split.
  - now apply swap_data_length.
  - intros p k Hp Hk. now apply swap_data_nth_error.
Qed.

Lemma reshape_filter_2d_entries_witness :
  exists g,
    _reshape_filter_2d
      (mk_ndarray [3; 1; 2; 2] [1; 2; 3; 4; 5; 6; 7; 8; 9; 10; 11; 12]%Z)
    = Ok g /\
    shape g = [4; 3] /\
    nth_error (data g) (1 * 3 + 2) = Some 10%Z.
Proof.
  destruct (reshape_filter_2d_entries Z
              (mk_ndarray [3; 1; 2; 2] [1; 2; 3; 4; 5; 6; 7; 8; 9; 10; 11; 12]%Z)
              3 2 2 eq_refl eq_refl) as (g & Hg & Hs & _ & He).
  exists g. repeat split; try assumption.
  rewrite (He 1 2) by lia. reflexivity.
Defined.


(** ** The raw estimator and training *)

Section Raw.

Variable A : Type.
Variable zero : A.
Variables add mul : A -> A -> A.

(** The product X^T Y of the flattened images with the responses. *)
Lemma matmul_transposed (X Y : list A) (N p n : nat) :
  length X = N * p -> length Y = N * n ->
  exists d,
    matmul zero add mul (mk_ndarray [p; N] (swap_data N p 1 X))
                        (mk_ndarray [N; n] Y)
    = Ok (mk_ndarray [p; n] d) /\
    length d = p * n /\
    forall a k, a < p -> k < n ->
      nth_error d (a * n + k)
      = Some (sum_of_products zero add mul N
                (fun i => nth (i * p + a) X zero)
                (fun i => nth (i * n + k) Y zero)).
Proof.
  intros HX HY. unfold matmul. cbn [shape data]. rewrite Nat.eqb_refl.
  eexists. split; [reflexivity|].
  assert (Hrow : forall i, i < p ->
            length (map (fun j => dot zero add mul
                                    (block N i (swap_data N p 1 X))
                                    (block N j (swap_data N n 1 Y)))
                        (seq 0 n)) = n)
    by (intros; now rewrite length_map, length_seq).
  split.
  - now apply length_pieces.
  - intros a k Ha Hk.
    rewrite (nth_error_pieces _ (r := n)) by assumption.
    rewrite nth_error_map, nth_error_seq.
    destruct (Nat.ltb_spec k n); [|lia]. simpl. f_equal.
    unfold sum_of_products.
    now rewrite (block_of_swap A X N p a zero), (block_of_swap A Y N n k zero).
Qed.

End Raw.

(** X5. The raw estimator is X^T Y: for single-channel images of shape
    (N, 1, d1, d2) and responses of shape (N, n), [_normal_filter] flattens
    the images in the object and returns an array of shape (d1 * d2, n)
    whose entry (a, k) is the sum over the samples i of X[i, a] * Y[i, k],
    added up from the left. *)
Theorem normal_filter_is_sta (A : Type) (zero : A) (add mul : A -> A -> A)
        (self : Filter A) (responses : ndarray A) (n : nat) :
  shape (images self) = [image_count self; channels self; dim1 self; dim2 self] ->
  wf (images self) ->
  channels self = 1 ->
  shape responses = [image_count self; n] ->
  wf responses ->
  let p := dim1 self * dim2 self in
  exists f,
    _normal_filter zero add mul self responses
    = Ok (set_images self (mk_ndarray [image_count self; p] (data (images self))),
          f) /\
    shape f = [p; n] /\
    length (data f) = p * n /\
    forall a k, a < p -> k < n ->
      nth_error (data f) (a * n + k)
      = Some (sum_of_products zero add mul (image_count self)
                (fun i => entry zero p (images self) i a)
                (fun i => entry zero n responses i k)).
Proof.
  intros Hs Hwf Hc Hr Hwr p.
  red in Hwf, Hwr. rewrite Hs in Hwf. rewrite Hr in Hwr.
  cbn [size_of fold_right] in Hwf, Hwr. rewrite Hc in Hwf.
  destruct (matmul_transposed A zero add mul (data (images self)) (data responses)
              (image_count self) p n) as (d & Hm & Hl & He);
    [subst p; lia | lia |].
  unfold _normal_filter.
  rewrite (image_2d_flat A self Hs (or_introl Hc)). cbn [bind].
  cbn [images set_images transpose moveaxis_01 shape data size_of fold_right bind].
  destruct responses as [rs rd]. cbn [shape data] in *. subst rs.
  fold p. rewrite Hm. cbn [bind].
  eexists. split; [reflexivity|]. cbn [shape data].
  repeat split; assumption.
Qed.

Lemma normal_filter_is_sta_witness :
  exists f,
    _normal_filter 0%Z Z.add Z.mul Examples.one_channel_filter
      (mk_ndarray [1; 3] [5; 6; 7]%Z)
    = Ok (set_images Examples.one_channel_filter
            (mk_ndarray [1; 4] [1; 2; 3; 4]%Z), f) /\
    shape f = [4; 3] /\
    nth_error (data f) (1 * 3 + 2) = Some 14%Z.
Proof.
  destruct (normal_filter_is_sta Z 0%Z Z.add Z.mul Examples.one_channel_filter
              (mk_ndarray [1; 3] [5; 6; 7]%Z) 3
              eq_refl eq_refl eq_refl eq_refl eq_refl)
    as (f & Hf & Hs & _ & He).
  exists f. repeat split; try assumption.
  refine (He 1 2 _ _); simpl; lia.
Defined.

(** X6. Training and flattening compose. When the stored estimator
    returns a well-formed array [g] of shape (dim1 * dim2, neuron_count) for
    single-channel images, [GlobalRegularizationFilter.train] returns the
    4-D filter of shape (neuron_count, channels, dim1, dim2) it stores in
    the object, whose entry (k, 0, a) is entry (a, k) of [g]; and [_fil_2d]
    on the trained object gives [g] back. *)
Theorem train_stores_4d (A : Type)
        (call : Filter A -> ndarray A -> factor A -> result (Filter A * ndarray A))
        (self s : Filter A) (reg_factor : factor A) (g : ndarray A) :
  shape (images self) = [image_count self; channels self; dim1 self; dim2 self] ->
  channels self = 1 ->
  call (set_images self (mk_ndarray [image_count self; dim1 self * dim2 self]
                                    (data (images self))))
       (responses self) (_handle_train_parsing self reg_factor)
  = Ok (s, g) ->
  neuron_count s = neuron_count self -> channels s = 1 ->
  dim1 s = dim1 self -> dim2 s = dim2 self ->
  shape g = [dim1 self * dim2 self; neuron_count self] ->
  wf g ->
  exists f,
    GlobalRegularizationFilter_train call self reg_factor = Ok (set_fil s f, f) /\
    shape f = [neuron_count self; 1; dim1 self; dim2 self] /\
    (forall k a, k < neuron_count self -> a < dim1 self * dim2 self ->
       nth_error (data f) (k * (dim1 self * dim2 self) + a)
       = nth_error (data g) (a * neuron_count self + k)) /\
    (s' <- _fil_2d (set_fil s f) ;; get_fil s') = Ok g.
Proof.
  intros Hs Hc Hcall Hn Hc' Hd1 Hd2 Hg Hwf.
  unfold GlobalRegularizationFilter_train.
  rewrite (image_2d_flat A self Hs (or_introl Hc)). cbn [bind].
  cbn [responses set_images]. rewrite Hcall. cbn [bind].
  assert (Hfil : fil (set_fil s g) = Some g) by reflexivity.
  assert (Hone : channels (set_fil s g) = 1
                 \/ neuron_count (set_fil s g)
                    * (dim1 (set_fil s g) * dim2 (set_fil s g)) = 0)
    by (left; exact Hc').
  assert (Hg' : shape g = [dim1 (set_fil s g) * dim2 (set_fil s g);
                           neuron_count (set_fil s g)])
    by (cbn [dim1 dim2 neuron_count set_fil]; now rewrite Hd1, Hd2, Hn).
  rewrite (@FilterFacts.fil_4d_of_2d A (set_fil s g) g Hfil Hg' Hone).
  cbn [bind get_fil fil set_fil neuron_count channels dim1 dim2].
  rewrite Hd1, Hd2, Hn, Hc'.
  eexists. split; [reflexivity|]. cbn [shape data].
  split; [reflexivity|].
  red in Hwf. rewrite Hg in Hwf. cbn [size_of fold_right] in Hwf.
  split.
  - intros k a Hk Ha. apply swap_data_nth_error; [lia|assumption|assumption].
  - erewrite FilterFacts.fil_2d_of_4d;
      [|reflexivity
       |cbn [neuron_count channels dim1 dim2 set_fil];
        now rewrite Hd1, Hd2, Hn, Hc'
       |left; exact Hc'].
    cbn [bind get_fil fil set_fil data neuron_count dim1 dim2].
    rewrite Hd1, Hd2, Hn.
    rewrite swap_data_involutive by lia.
    rewrite <- Hg. now destruct g.
Qed.

Lemma train_stores_4d_witness :
  exists f,
    GlobalRegularizationFilter_train
      (fun s r _ => _normal_filter 0%Z Z.add Z.mul s r)
      Examples.one_channel_filter (FNone Z)
    = Ok (set_fil (set_images Examples.one_channel_filter
                     (mk_ndarray [1; 4] [1; 2; 3; 4]%Z)) f, f) /\
    shape f = [3; 1; 2; 2] /\
    nth_error (data f) (2 * 4 + 1) = Some 14%Z.
Proof.
  destruct (train_stores_4d Z
              (fun s r _ => _normal_filter 0%Z Z.add Z.mul s r)
              Examples.one_channel_filter
              (set_images Examples.one_channel_filter
                 (mk_ndarray [1; 4] [1; 2; 3; 4]%Z))
              (FNone Z)
              (mk_ndarray [4; 3] [5; 6; 7; 10; 12; 14; 15; 18; 21; 20; 24; 28]%Z)
              eq_refl eq_refl eq_refl eq_refl eq_refl eq_refl eq_refl
              eq_refl eq_refl)
    as (f & Hf & Hs & He & _).
  exists f. repeat split; try assumption.
  refine (He 2 1 _ _); simpl; lia.
Defined.

End TrainingFacts.

(* ================================================================== *)
(** * When the best parameters exist *)
(* ================================================================== *)

Module ParameterFacts.

Import Pd Tables Search Parameters TableFacts NpFacts.

Lemma length_three_columns n (f : nat -> list spec_float) :
  (forall i, length (f i) = 3) -> length (flat_map f (seq 0 n)) = n * 3.
Proof. intros H. apply length_pieces. intros; apply H. Qed.

(** X7. With both tables set, [compute_best_parameter] returns exactly when
    the mask selects [neuron_count] factors in all and the correlation table
    has [neuron_count] rows; it then returns an array of shape
    (neuron_count, 3) together with the mean of the row maxima, and stores
    the array in the object. In every other case it raises [ValueError]. *)
Theorem compute_best_parameter_returns_iff
        (TF VF : Type) (self : Hyperparametersearch TF VF)
        (params corrs : DataFrame) :
  df_params self = Some params ->
  df_corrs self = Some corrs ->
  length (neurons self) = neuron_count self ->
  report self = false \/ report_dir self <> None ->
  let n := neuron_count self in
  (length (selected params corrs) = n /\ length (values corrs) = n ->
   exists self' res,
     compute_best_parameter self = Ok (self', (res, mean (max_axis1 corrs))) /\
     shape res = [n; 3] /\
     length (data res) = n * 3 /\
     results self' = Some res /\
     avg_correlation self' = Some (mean (max_axis1 corrs))) /\
  (length (selected params corrs) <> n \/ length (values corrs) <> n ->
   compute_best_parameter self = Raise ValueError).
Proof.
  intros Hp Hc Hneu Hrep n. subst n.
  destruct (SearchFacts.report_files _ _ self Hrep) as (files & Hfiles).
  assert (Hmax : length (max_axis1 corrs) = length (values corrs))
    by (unfold max_axis1; apply length_map).
  unfold compute_best_parameter. rewrite Hp, Hc. cbn [attr bind].
  split.
  - intros (Hsel & Hrows).
    rewrite (SearchFacts.reshape_column _ _ Hsel).
    rewrite (SearchFacts.reshape_column (max_axis1 corrs) (neuron_count self))
      by congruence.
    cbn [bind].
    rewrite hstack_columns by (try assumption; try congruence;
                               now rewrite length_map).
    cbn [bind]. rewrite Hfiles. cbn [bind].
    do 2 eexists. split; [reflexivity|]. cbn [shape data].
    repeat split. now apply length_three_columns.
  - intros [Hsel|Hrows].
    + now rewrite SearchFacts.reshape_column_fails.
    + destruct (Nat.eq_dec (length (selected params corrs)) (neuron_count self))
        as [Hsel|Hsel].
      * rewrite (SearchFacts.reshape_column _ _ Hsel). cbn [bind].
        rewrite SearchFacts.reshape_column_fails by congruence. reflexivity.
      * now rewrite SearchFacts.reshape_column_fails.
Qed.

Lemma compute_best_parameter_returns_iff_witness :
  exists self' res,
    compute_best_parameter Examples.dominated_search
    = Ok (self', (res, mean [Examples.q 3 4; Examples.q 1 2])) /\
    shape res = [2; 3] /\
    length (data res) = 6.
Proof.
  destruct (compute_best_parameter_returns_iff unit unit
              Examples.dominated_search
              (mk_DataFrame [F64.of_Z 1; F64.of_Z 10; F64.of_Z 100]
                 (map (fun _ => [F64.of_Z 1; F64.of_Z 10; F64.of_Z 100]) (seq 0 2)))
              (mk_DataFrame [F64.of_Z 1; F64.of_Z 10; F64.of_Z 100]
                 [[Examples.q 1 4; Examples.q 3 4; Examples.q 1 2];
                  [Examples.q 0 1; Examples.q 1 2; Examples.q 1 4]])
              eq_refl eq_refl eq_refl (or_introl eq_refl))
    as (Hok & _).
  destruct (Hok (conj eq_refl eq_refl)) as (self' & res & H & Hs & Hl & _).
  exists self', res. repeat split; assumption.
Defined.

(** X8. A search of either subclass, as its constructor leaves it, has
    neither tables nor hyperparameters: [compute_best_parameter] and both
    [get_parameters] raise [AttributeError] on it. *)
Theorem fresh_search_has_no_parameters
        (TF VF : Type) (tf_neuron_count : TF -> nat)
        (kind : string) (env : LinFilter.Env) (tf : TF) (vf : VF)
        (factors : list spec_float) (report : bool)
        (self : Hyperparametersearch TF VF) :
  subclass__init__ tf_neuron_count kind env tf vf factors report = Ok self ->
  compute_best_parameter self = Raise AttributeError /\
  global_get_parameters self = Raise AttributeError /\
  individual_get_parameters self = Raise AttributeError.
Proof.
  unfold subclass__init__.
  destruct (LinFilter.mkdir env _); simpl; [|discriminate].
  intros [= <-]. repeat split.
Qed.

Lemma fresh_search_has_no_parameters_witness :
  compute_best_parameter
    (with_report_dir
       (Search.__init__ (fun _ : unit => 2) "2021-09-01_12:00:00" tt tt
                        [F64.of_Z 1] true)
       "/home/user/reports/linear_filter/global_hyperparametersearch/2021-09-01_12:00:00")
  = Raise AttributeError.
Proof.
  apply (fresh_search_has_no_parameters unit unit (fun _ => 2)
           "global_hyperparametersearch" Examples.env tt tt [F64.of_Z 1] true).
  reflexivity.
Defined.

(** X9. After a [compute_best_parameter] that returned, for at least one
    neuron, [GlobalHyperparametersearch.get_parameters] is the one-element
    array holding the factor in the first row of the returned array, and
    [IndividualHyperparametersearch.get_parameters] is the column of all
    selected factors. *)
Theorem get_parameters_after_best
        (TF VF : Type) (self self' : Hyperparametersearch TF VF)
        (res : array) (avg : spec_float) :
  compute_best_parameter self = Ok (self', (res, avg)) ->
  0 < neuron_count self ->
  length (neurons self) = neuron_count self ->
  exists sel,
    length sel = neuron_count self /\
    individual_get_parameters self'
    = Ok (mk_ndarray [neuron_count self; 1] sel) /\
    global_get_parameters self' = Ok (mk_ndarray [1] [nth 0 sel F64.nan]) /\
    nth 1 (data res) F64.nan = nth 0 sel F64.nan.
Proof.
  intros H Hn Hneu. unfold compute_best_parameter in H.
  destruct (attr (df_corrs self)) as [corrs|]; [|discriminate]. cbn [bind] in H.
  destruct (attr (df_params self)) as [params|]; [|discriminate]. cbn [bind] in H.
  destruct (Nat.eq_dec (length (selected params corrs)) (neuron_count self))
    as [Hsel|Hsel];
    [|rewrite SearchFacts.reshape_column_fails in H by assumption; discriminate].
  rewrite (SearchFacts.reshape_column _ _ Hsel) in H. cbn [bind] in H.
  destruct (Nat.eq_dec (length (max_axis1 corrs)) (neuron_count self))
    as [Hmax|Hmax];
    [|rewrite SearchFacts.reshape_column_fails in H by assumption; discriminate].
  rewrite (SearchFacts.reshape_column _ _ Hmax) in H. cbn [bind] in H.
  rewrite hstack_columns in H by (try assumption; now rewrite length_map).
  cbn [bind] in H.
  destruct (if report self then _ else _) as [files|]; [|discriminate].
  cbn [bind] in H. injection H as <- <- _.
  exists (selected params corrs). split; [assumption|].
  split; [reflexivity|].
  unfold global_get_parameters, first_row.
  cbn [hyperparameters store_best attr bind shape data size_of fold_right].
  destruct (neuron_count self) as [|m] eqn:En; [lia|].
  cbn [Nat.ltb Nat.leb seq flat_map app nth firstn].
  destruct (selected params corrs) as [|x sel]; [discriminate|].
  split; reflexivity.
Qed.

Lemma get_parameters_after_best_witness :
  exists self' res avg sel,
    compute_best_parameter Examples.dominated_search = Ok (self', (res, avg)) /\
    global_get_parameters self' = Ok (mk_ndarray [1] [nth 0 sel F64.nan]) /\
    nth 1 (data res) F64.nan = F64.of_Z 10.
Proof.
  destruct (compute_best_parameter Examples.dominated_search)
    as [[self' [res avg]]|e] eqn:E; [|vm_compute in E; discriminate].
  destruct (get_parameters_after_best unit unit Examples.dominated_search
              self' res avg E) as (sel & _ & _ & Hg & Hr);
    [simpl; lia | reflexivity |].
  exists self', res, avg, sel. repeat split; try assumption.
  vm_compute in E. injection E as _ <- _. reflexivity.
Defined.

End ParameterFacts.

(* ================================================================== *)
(** * The lowpass kernel is symmetric *)
(* ================================================================== *)

Module SymmetryFacts.

Import Mei NpFacts RoundingFacts KernelFacts.

(** Two numbers that are not negative and compare equal are the same
    number: the two zeros are the only distinct numbers that compare
    equal. *)
Lemma compare_eq_nonneg x y :
  IEEE.nonneg x -> IEEE.nonneg y -> SFcompare x y = Some Eq -> x = y.
Proof.
  destruct x as [s|s| |s m e], y as [s'|s'| |s' m' e']; simpl;
    intros Hx Hy H; try contradiction; subst; try discriminate;
    try reflexivity.
  destruct (e ?= e')%Z eqn:He; try discriminate.
  apply Z.compare_eq in He. subst e'.
  injection H as H. apply Pos.compare_eq in H. now subst.
Qed.

Lemma compare_nonneg_some x y :
  IEEE.nonneg x -> IEEE.nonneg y -> SFcompare x y <> None.
Proof.
  destruct x as [s|s| |s m e], y as [s'|s'| |s' m' e']; simpl;
    intros Hx Hy; try contradiction; subst; discriminate.
Qed.

Lemma nonneg_notnan x : IEEE.nonneg x -> IEEE.is_nan x = false.
Proof. destruct x; simpl; intros H; try reflexivity. contradiction. Qed.

(** On numbers that are not negative [minimum] is commutative. *)
Lemma minimum_comm_nonneg x y :
  IEEE.nonneg x -> IEEE.nonneg y -> IEEE.minimum x y = IEEE.minimum y x.
Proof.
  intros Hx Hy. unfold IEEE.minimum.
  rewrite (nonneg_notnan x Hx), (nonneg_notnan y Hy). simpl.
  pose proof (compare_eq_nonneg x y Hx Hy) as Heq.
  pose proof (compare_nonneg_some x y Hx Hy) as Hsome.
  unfold SFltb. rewrite (IEEEFacts.compare_antisym x y).
  destruct (SFcompare x y) as [[ | | ]|]; simpl; try reflexivity.
  - now apply Heq.
  - now contradiction Hsome.
Qed.

(** A ramp read from its end is the ramp. *)
Lemma ramp_reflect n x :
  x < n -> nth_error (ramp n) (n - 1 - x) = nth_error (ramp n) x.
Proof.
  intros H. rewrite !nth_error_ramp by lia.
  replace (n - 1 - (n - 1 - x)) with x by lia. f_equal.
  apply minimum_comm_nonneg; apply of_nat_nonneg.
Qed.

(** X10. The kernel of [get_lowpass_tensor] is symmetric under the
    reflection of either axis, for every power function and every
    exponent: its entries at (y, W-1-x) and at (H-1-y, x) are its entry at
    (y, x). *)
Theorem lowpass_kernel_symmetric
        (tpow : spec_float -> spec_float -> spec_float)
        (image : real) (alpha : spec_float) (b c H W : nat) :
  shape image = [b; c; H; W] ->
  exists t,
    get_lowpass_tensor tpow image alpha = Ok t /\
    shape t = [H; W] /\
    forall y x, y < H -> x < W ->
      nth_error (data t) (y * W + (W - 1 - x)) = nth_error (data t) (y * W + x) /\
      nth_error (data t) ((H - 1 - y) * W + x) = nth_error (data t) (y * W + x).
Proof.
  intros Hs. unfold get_lowpass_tensor. rewrite Hs.
  eexists. split; [reflexivity|]. cbn [shape data].
  split; [reflexivity|].
  assert (Hrow : forall thy,
            length (map (fun twx => lowpass_entry tpow alpha twx thy) (ramp W)) = W)
    by (intros; now rewrite length_map, length_ramp).
  intros y x Hy Hx.
  assert (HyR : H - 1 - y < H) by lia.
  assert (HxR : W - 1 - x < W) by lia.
  rewrite (nth_error_rows _ _ _ W _ _ _ _ Hrow (nth_error_ramp H y Hy) Hx).
  rewrite (nth_error_rows _ _ _ W _ _ _ _ Hrow (nth_error_ramp H y Hy) HxR).
  rewrite (nth_error_rows _ _ _ W _ _ _ _ Hrow (nth_error_ramp H _ HyR) Hx).
  rewrite !nth_error_map, (ramp_reflect W x Hx).
  split; [reflexivity|].
  replace (H - 1 - (H - 1 - y)) with y by lia.
  change F32.minimum with IEEE.minimum.
  rewrite (minimum_comm_nonneg (F32.of_nat (H - 1 - y)) (F32.of_nat y))
    by apply of_nat_nonneg.
  reflexivity.
Qed.

Lemma lowpass_kernel_symmetric_witness :
  exists t,
    get_lowpass_tensor Examples.pow_ref Examples.image_2x2 (Examples.q 1 10)
    = Ok t /\
    shape t = [2; 2] /\
    forall y x, y < 2 -> x < 2 ->
      nth_error (data t) (y * 2 + (2 - 1 - x)) = nth_error (data t) (y * 2 + x) /\
      nth_error (data t) ((2 - 1 - y) * 2 + x) = nth_error (data t) (y * 2 + x).
Proof.
  apply (lowpass_kernel_symmetric Examples.pow_ref Examples.image_2x2
           (Examples.q 1 10) 1 1 2 2).
  reflexivity.
Defined.

End SymmetryFacts.

(* ================================================================== *)
(** * The ascent step: what it depends on *)
(* ================================================================== *)

Module StepFacts.

Import Mei.

Lemma maximum_nan_r x : F32.maximum x S754_nan = S754_nan.
Proof. unfold F32.maximum, IEEE.maximum. simpl. now rewrite orb_true_r. Qed.

Lemma fold_maximum_nan l : fold_left F32.maximum l S754_nan = S754_nan.
Proof. induction l as [|a l IH]; simpl; [reflexivity|exact IH]. Qed.

(** The maximum of numbers one of which is NaN is NaN. *)
Lemma fold_maximum_in_nan : forall l x,
  In S754_nan l -> fold_left F32.maximum l x = S754_nan.
Proof.
  induction l as [|a l IH]; intros x H; simpl in *; [contradiction|].
  destruct H as [->|H].
  - rewrite maximum_nan_r. apply fold_maximum_nan.
  - now apply IH.
Qed.

Lemma max_nan (image : real) :
  In S754_nan (data image) -> max image = Ok S754_nan.
Proof.
  unfold max. destruct (data image) as [|x xs]; simpl; [contradiction|].
  intros [->|H]; f_equal.
  - apply fold_maximum_nan.
  - now apply fold_maximum_in_nan.
Qed.

Lemma div_by_nan x : F32.div x S754_nan = S754_nan.
Proof. now destruct x. Qed.

Lemma add_nan_l x : F32.add S754_nan x = S754_nan.
Proof. reflexivity. Qed.

Lemma map2_add_nan : forall (u v : list spec_float) x,
  (forall a, In a u -> a = S754_nan) ->
  In x (LinFilter.map2 F32.add u v) -> x = S754_nan.
Proof.
  induction u as [|a u IH]; intros v x Hu H; simpl in H; [contradiction|].
  destruct v as [|b v]; simpl in H; [contradiction|].
  destruct H as [<-|H].
  - rewrite (Hu a (or_introl eq_refl)). apply add_nan_l.
  - apply (IH v x); [|exact H]. intros a' Ha'. apply Hu. now right.
Qed.

Section Step.

Variable fft2_kernel : list nat -> list complex -> list complex.
Variable ifft2_kernel : list nat -> list complex -> list complex.
Variable backward : real -> nat -> result real.
Variable gaussian_blur : real -> nat -> spec_float -> real.

(** The gradient filter fails or returns according to the shapes alone. *)
Lemma filter_outcome_by_shape (X : Type) (grad lowpass1 lowpass2 : real)
      (k : result X) :
  shape lowpass1 = shape lowpass2 ->
  (lowpass_filtering_in_frequency_domain fft2_kernel ifft2_kernel grad lowpass1 ;;; k)
  = (lowpass_filtering_in_frequency_domain fft2_kernel ifft2_kernel grad lowpass2 ;;; k).
Proof.
  intros Hs. unfold lowpass_filtering_in_frequency_domain, fft2.
  destruct (2 <=? ndim grad); [|reflexivity]. cbn [bind].
  unfold mul_complex_real, map_data. cbn [shape data]. rewrite Hs.
  destruct (bshape (shape grad) (shape lowpass2)) as [out|]; [|reflexivity].
  cbn [bind]. unfold ifft2, ndim. cbn [shape].
  destruct (2 <=? length out); reflexivity.
Qed.

End Step.

(** X11. The step uses its lowpass mask for its shape only: with two masks
    of one shape, whatever their entries, it returns the same image or
    raises the same exception. *)
Theorem step_ignores_mask_entries
        (fft2_kernel ifft2_kernel : list nat -> list complex -> list complex)
        (backward : real -> nat -> result real)
        (gaussian_blur : real -> nat -> spec_float -> real)
        (image lowpass1 lowpass2 : real) (neuron_idx : nat)
        (step_gain lr sigma : spec_float) :
  shape lowpass1 = shape lowpass2 ->
  naive_gradient_ascent_step fft2_kernel ifft2_kernel backward gaussian_blur
    image lowpass1 neuron_idx step_gain lr sigma
  = naive_gradient_ascent_step fft2_kernel ifft2_kernel backward gaussian_blur
      image lowpass2 neuron_idx step_gain lr sigma.
Proof.
  intros Hs. unfold naive_gradient_ascent_step.
  destruct (max image) as [m|e]; [|reflexivity]. cbn [bind].
  destruct (backward _ neuron_idx) as [grad|e]; [|reflexivity]. cbn [bind].
  apply (filter_outcome_by_shape fft2_kernel ifft2_kernel _ grad
           lowpass1 lowpass2 _ Hs).
Qed.

Lemma step_ignores_mask_entries_witness :
  naive_gradient_ascent_step Examples.fft2_single_sample
    Examples.fft2_single_sample Examples.constant_score MeiExamples.no_blur
    Examples.image_2x2 Examples.mask_2x2 0
    Examples.step_gain_default Examples.lr_default (F64.of_Z 1)
  = naive_gradient_ascent_step Examples.fft2_single_sample
      Examples.fft2_single_sample Examples.constant_score MeiExamples.no_blur
      Examples.image_2x2 (mk_ndarray [2; 2] (data Examples.image_2x2)) 0
      Examples.step_gain_default Examples.lr_default (F64.of_Z 1).
Proof.
  apply (step_ignores_mask_entries Examples.fft2_single_sample
           Examples.fft2_single_sample Examples.constant_score
           MeiExamples.no_blur Examples.image_2x2 Examples.mask_2x2
           (mk_ndarray [2; 2] (data Examples.image_2x2)) 0
           Examples.step_gain_default Examples.lr_default (F64.of_Z 1)).
  reflexivity.
Defined.

(** X12. One NaN pixel poisons the step. The maximum of the image is then
    NaN, so the step runs as on the image of the same shape with NaN in
    every pixel; and when it returns, the image it hands to the blur has
    the shape of the input and NaN in every pixel. *)
Theorem step_nan_pixel
        (fft2_kernel ifft2_kernel : list nat -> list complex -> list complex)
        (backward : real -> nat -> result real)
        (gaussian_blur : real -> nat -> spec_float -> real)
        (image lowpass : real) (neuron_idx : nat)
        (step_gain lr sigma : spec_float) :
  In S754_nan (data image) ->
  naive_gradient_ascent_step fft2_kernel ifft2_kernel backward gaussian_blur
    image lowpass neuron_idx step_gain lr sigma
  = naive_gradient_ascent_step fft2_kernel ifft2_kernel backward gaussian_blur
      (map_data (fun _ => S754_nan) image) lowpass neuron_idx step_gain lr sigma
  /\
  forall r,
    naive_gradient_ascent_step fft2_kernel ifft2_kernel backward gaussian_blur
      image lowpass neuron_idx step_gain lr sigma = Ok r ->
    exists image',
      r = gaussian_blur image' 3 sigma /\
      shape image' = shape image /\
      forall x, In x (data image') -> x = S754_nan.
Proof.
  intros Hin.
  assert (Hin' : In S754_nan (data (map_data (fun _ => S754_nan) image))).
  { unfold map_data. cbn [data]. apply in_map_iff. now exists S754_nan. }
  assert (Hnorm : map_data (fun x => F32.div x S754_nan) image
                  = map_data (fun x => F32.div x S754_nan)
                             (map_data (fun _ => S754_nan) image)).
  { unfold map_data. cbn [shape data]. f_equal. rewrite map_map.
    apply map_ext. intros a. now rewrite !div_by_nan. }
  unfold naive_gradient_ascent_step.
  rewrite (max_nan image Hin), (max_nan _ Hin'). cbn [bind].
  rewrite <- Hnorm. split; [reflexivity|].
  intros r.
  destruct (backward _ neuron_idx) as [grad|e]; [|discriminate]. cbn [bind].
  destruct (lowpass_filtering_in_frequency_domain _ _ grad lowpass) as [a|e];
    [|discriminate]. cbn [bind].
  unfold iadd.
  destruct (list_eq_dec Nat.eq_dec _ _) as [Heq|Hne]; [|discriminate].
  cbn [bind]. intros Hr. injection Hr as <-.
  eexists. split; [reflexivity|]. cbn [shape data map_data].
  split; [reflexivity|].
  intros x Hx. apply (map2_add_nan _ _ x) in Hx; [exact Hx|].
  intros a' Ha'. apply in_map_iff in Ha'. destruct Ha' as [y [<- _]].
  apply div_by_nan.
Qed.

Lemma step_nan_pixel_witness :
  In S754_nan (data MeiExamples.nan_pixel) /\
  naive_gradient_ascent_step Examples.fft2_single_sample
    Examples.fft2_single_sample Examples.constant_score MeiExamples.no_blur
    MeiExamples.nan_pixel Examples.pixel_mask 0
    Examples.step_gain_default Examples.lr_default (F64.of_Z 1)
  = Ok (mk_ndarray [1; 1; 1; 2] [S754_nan; S754_nan]).
Proof.
  assert (Hin : In S754_nan (data MeiExamples.nan_pixel))
    by (simpl; right; left; reflexivity).
  split; [exact Hin|].
  destruct (step_nan_pixel Examples.fft2_single_sample
              Examples.fft2_single_sample Examples.constant_score
              MeiExamples.no_blur MeiExamples.nan_pixel Examples.pixel_mask 0
              Examples.step_gain_default Examples.lr_default (F64.of_Z 1) Hin)
    as [Heq _].
  rewrite Heq. reflexivity.
Defined.

End StepFacts.

(* ================================================================== *)
(** * The loop of [mei] *)
(* ================================================================== *)

Module LoopFacts.

Import Mei MeiLoop.

Lemma dict_get_set (V : Type) (k : nat) (v : V) : forall d k',
  dict_get (dict_set d k v) k'
  = if k =? k' then Some v else dict_get d k'.
Proof.
  induction d as [|[k0 v0] d IH]; intros k'; simpl.
  - reflexivity.
  - destruct (k0 =? k) eqn:E0; simpl.
    + apply Nat.eqb_eq in E0. subst k0.
      destruct (k =? k'); reflexivity.
    + destruct (k0 =? k') eqn:E1.
      * apply Nat.eqb_eq in E1. subst k0.
        rewrite Nat.eqb_sym, E0. reflexivity.
      * apply IH.
Qed.

Section Loop.

Variable tpow : spec_float -> spec_float -> spec_float.
Variable fft2_kernel : list nat -> list complex -> list complex.
Variable ifft2_kernel : list nat -> list complex -> list complex.
Variable gaussian_blur : real -> nat -> spec_float -> real.
Variable backward : real -> nat -> result real.
Variable backward_untracked : real -> nat -> result unit.
Variable linspace : spec_float -> spec_float -> nat -> list spec_float.
Variable start_run : nat -> result unit.
Variable save_mei : nat -> real -> result unit.
Variable plot : nat -> real -> result unit.
Variable final_figures : nat -> real -> bool -> bool -> result unit.

(** A step on an image that does not require grad never returns. *)
Lemma step_without_grad_fails image neuron :
  returns (step_without_grad backward_untracked image neuron) = false.
Proof.
  unfold step_without_grad.
  destruct (max image) as [m|e]; [|reflexivity]. cbn [bind].
  destruct (backward_untracked _ neuron) as [[]|e]; reflexivity.
Qed.

Lemma later_epochs_fails lrs sigmas neuron show epoch rest image :
  returns (later_epochs backward_untracked plot lrs sigmas neuron show
             (epoch :: rest) image) = false.
Proof.
  cbn [later_epochs].
  destruct (index lrs epoch) as [lr|e]; [|reflexivity]. cbn [bind].
  destruct (index sigmas epoch) as [sigma|e]; [|reflexivity]. cbn [bind].
  pose proof (step_without_grad_fails image neuron) as H.
  destruct (step_without_grad backward_untracked image neuron) as [r|e];
    [discriminate|reflexivity].
Qed.

Lemma one_neuron_fails image lowpass lrs sigmas epochs show show_last meis neuron :
  length lrs = epochs -> epochs <> 1 ->
  returns (one_neuron fft2_kernel ifft2_kernel gaussian_blur backward
             backward_untracked start_run save_mei plot final_figures
             image lowpass lrs sigmas epochs show show_last meis neuron)
  = false.
Proof.
  intros Hl He. unfold one_neuron.
  destruct (start_run neuron) as [[]|e]; [|reflexivity]. cbn [bind].
  destruct epochs as [|[|k]]; [| congruence |].
  - destruct lrs; [reflexivity|discriminate].
  - destruct (index lrs 0) as [lr|e]; [|reflexivity]. cbn [bind].
    destruct (index sigmas 0) as [sigma|e]; [|reflexivity]. cbn [bind].
    destruct (naive_gradient_ascent_step _ _ _ _ _ _ _ _ _ _) as [r|e];
      [|reflexivity]. cbn [bind].
    change (seq 1 (S (S k) - 1)) with (1 :: seq 2 k).
    pose proof (later_epochs_fails lrs sigmas neuron show 1 (seq 2 k) r) as H.
    destruct (later_epochs _ _ _ _ _ _ _ _) as [r'|e];
      [discriminate|reflexivity].
Qed.

Lemma one_neuron_one_epoch image lowpass lrs sigmas show show_last meis neuron meis' :
  one_neuron fft2_kernel ifft2_kernel gaussian_blur backward
    backward_untracked start_run save_mei plot final_figures
    image lowpass lrs sigmas 1 show show_last meis neuron = Ok meis' ->
  exists lr sigma img,
    nth_error lrs 0 = Some lr /\
    nth_error sigmas 0 = Some sigma /\
    naive_gradient_ascent_step fft2_kernel ifft2_kernel backward gaussian_blur
      image lowpass neuron step_gain_default lr sigma = Ok img /\
    meis' = dict_set meis neuron img.
Proof.
  unfold one_neuron, index.
  destruct (start_run neuron) as [[]|e]; [|discriminate]. cbn [bind].
  destruct (nth_error lrs 0) as [lr|]; [|discriminate]. cbn [bind].
  destruct (nth_error sigmas 0) as [sigma|]; [|discriminate]. cbn [bind].
  destruct (naive_gradient_ascent_step _ _ _ _ _ _ _ _ _ _) as [img|e] eqn:Es;
    [|discriminate].
  cbn [bind Nat.sub seq later_epochs].
  destruct (save_mei neuron img) as [[]|e]; [|discriminate]. cbn [bind].
  destruct (final_figures neuron img show show_last) as [[]|e];
    [|discriminate]. cbn [bind].
  intros H. injection H as <-.
  exists lr, sigma, img. repeat split; assumption || reflexivity.
Qed.

(** What a returned dict holds, in terms of the dict the loop started
    with. *)
Lemma over_neurons_one_epoch image lowpass lrs sigmas show show_last :
  forall neurons meis d,
  over_neurons fft2_kernel ifft2_kernel gaussian_blur backward
    backward_untracked start_run save_mei plot final_figures
    image lowpass lrs sigmas 1 show show_last meis neurons = Ok d ->
  (forall k, dict_get d k <> None <-> dict_get meis k <> None \/ In k neurons) /\
  (forall k img, dict_get d k = Some img ->
     dict_get meis k = Some img \/
     exists lr sigma,
       nth_error lrs 0 = Some lr /\
       nth_error sigmas 0 = Some sigma /\
       naive_gradient_ascent_step fft2_kernel ifft2_kernel backward
         gaussian_blur image lowpass k step_gain_default lr sigma = Ok img).
Proof.
  induction neurons as [|neuron rest IH]; intros meis d H.
  - simpl in H. injection H as <-. split.
    + intros k. split; [now left|]. intros [Hk|[]]. exact Hk.
    + intros k img Hk. now left.
  - cbn [over_neurons] in H.
    destruct (one_neuron _ _ _ _ _ _ _ _ _ _ _ _ _ _ _ _ _ _) as [meis'|e] eqn:E1;
      [|discriminate].
    cbn [bind] in H.
    destruct (one_neuron_one_epoch _ _ _ _ _ _ _ _ _ E1)
      as [lr [sigma [img0 [Hlr [Hsigma [Hstep ->]]]]]].
    destruct (IH _ _ H) as [Hkeys Hvals]. split.
    + intros k. rewrite (Hkeys k), dict_get_set.
      destruct (Nat.eqb_spec neuron k) as [->|Hne]; simpl.
      * split; intros _; [right; now left|left; discriminate].
      * split; intros [Hk|Hk]; auto.
        destruct Hk as [Hk|Hk]; [contradiction|auto].
    + intros k img Hk. destruct (Hvals k img Hk) as [Hold|Hnew]; [|now right].
      rewrite dict_get_set in Hold.
      destruct (Nat.eqb_spec neuron k) as [->|Hne]; [|now left].
      injection Hold as <-. right. now exists lr, sigma.
Qed.

End Loop.

(** X13. [mei] returns a dict for one epoch only. With no epoch the first
    learning rate is missing: once the kernel is built and the run is set
    up, [lrs[0]] raises [IndexError]. With two epochs or more the second
    step of the first neuron gets the blurred image, which does not require
    grad, and never returns; so [mei] raises in every such call with a
    neuron to work on. *)
Theorem mei_needs_one_epoch
        (tpow : spec_float -> spec_float -> spec_float)
        (fft2_kernel ifft2_kernel : list nat -> list complex -> list complex)
        (gaussian_blur : real -> nat -> spec_float -> real)
        (backward : real -> nat -> result real)
        (backward_untracked : real -> nat -> result unit)
        (linspace : spec_float -> spec_float -> nat -> list spec_float)
        (start_run : nat -> result unit)
        (save_mei : nat -> real -> result unit)
        (plot : nat -> real -> result unit)
        (final_figures : nat -> real -> bool -> bool -> result unit)
        (image : real) (neuron : nat) (rest : list nat)
        (lr_start lr_end : spec_float) (epochs : nat) (show show_last : bool)
        (sigma_start sigma_end : spec_float) :
  (forall a b n, length (linspace a b n) = n) ->
  epochs <> 1 ->
  returns (mei tpow fft2_kernel ifft2_kernel gaussian_blur backward
             backward_untracked linspace start_run save_mei plot final_figures
             image (neuron :: rest) lr_start lr_end epochs show show_last
             sigma_start sigma_end) = false /\
  (epochs = 0 ->
   mei tpow fft2_kernel ifft2_kernel gaussian_blur backward
     backward_untracked linspace start_run save_mei plot final_figures
     image (neuron :: rest) lr_start lr_end epochs show show_last
     sigma_start sigma_end
   = (get_lowpass_tensor tpow image alpha_default ;;;
      start_run neuron ;;;
      Raise IndexError)).
Proof.
  intros Hlen He. unfold mei.
  destruct (get_lowpass_tensor tpow image alpha_default) as [lowpass|e];
    [|split; reflexivity].
  cbn [bind over_neurons]. split.
  - pose proof (one_neuron_fails fft2_kernel ifft2_kernel gaussian_blur
                  backward backward_untracked start_run save_mei plot
                  final_figures image lowpass
                  (linspace lr_start lr_end epochs)
                  (linspace sigma_start sigma_end epochs)
                  epochs show show_last [] neuron (Hlen _ _ _) He) as H.
    destruct (one_neuron _ _ _ _ _ _ _ _ _ _ _ _ _ _ _ _ _ _) as [m|e];
      [discriminate|reflexivity].
  - intros ->. unfold one_neuron.
    destruct (start_run neuron) as [[]|e]; [|reflexivity]. cbn [bind].
    pose proof (Hlen lr_start lr_end 0) as H0.
    destruct (linspace lr_start lr_end 0); [reflexivity|discriminate].
Qed.

Lemma mei_needs_one_epoch_witness :
  returns (mei Examples.pow_ref Examples.fft2_single_sample
             Examples.fft2_single_sample MeiExamples.no_blur
             Examples.constant_score MeiExamples.backward_parameters
             MeiExamples.linspace_constant MeiExamples.quiet
             MeiExamples.quiet_save MeiExamples.quiet_save
             MeiExamples.quiet_figures
             Examples.pixel [0] (F64.of_Z 1) (F64.of_Z 1) 2 false false
             (F64.of_Z 1) (F64.of_Z 1)) = false.
Proof.
  refine (proj1 (mei_needs_one_epoch Examples.pow_ref
                   Examples.fft2_single_sample Examples.fft2_single_sample
                   MeiExamples.no_blur Examples.constant_score
                   MeiExamples.backward_parameters
                   MeiExamples.linspace_constant MeiExamples.quiet
                   MeiExamples.quiet_save MeiExamples.quiet_save
                   MeiExamples.quiet_figures
                   Examples.pixel 0 [] (F64.of_Z 1) (F64.of_Z 1) 2 false false
                   (F64.of_Z 1) (F64.of_Z 1) _ _)).
  - intros a b n. apply repeat_length.
  - discriminate.
Defined.

(** X14. With one epoch, a dict that [mei] returns has exactly the
    selected neurons as keys, and the image of each neuron is one step from
    the seed image, with the first learning rate and the first sigma, the
    default step gain and the kernel of the seed image: no neuron starts
    from the image of another. *)
Theorem mei_one_epoch
        (tpow : spec_float -> spec_float -> spec_float)
        (fft2_kernel ifft2_kernel : list nat -> list complex -> list complex)
        (gaussian_blur : real -> nat -> spec_float -> real)
        (backward : real -> nat -> result real)
        (backward_untracked : real -> nat -> result unit)
        (linspace : spec_float -> spec_float -> nat -> list spec_float)
        (start_run : nat -> result unit)
        (save_mei : nat -> real -> result unit)
        (plot : nat -> real -> result unit)
        (final_figures : nat -> real -> bool -> bool -> result unit)
        (image : real) (neurons : list nat)
        (lr_start lr_end : spec_float) (show show_last : bool)
        (sigma_start sigma_end : spec_float) (d : list (nat * real)) :
  mei tpow fft2_kernel ifft2_kernel gaussian_blur backward
    backward_untracked linspace start_run save_mei plot final_figures
    image neurons lr_start lr_end 1 show show_last sigma_start sigma_end
  = Ok d ->
  exists lowpass,
    get_lowpass_tensor tpow image alpha_default = Ok lowpass /\
    (forall neuron, dict_get d neuron <> None <-> In neuron neurons) /\
    (forall neuron img, dict_get d neuron = Some img ->
       exists lr sigma,
         nth_error (linspace lr_start lr_end 1) 0 = Some lr /\
         nth_error (linspace sigma_start sigma_end 1) 0 = Some sigma /\
         naive_gradient_ascent_step fft2_kernel ifft2_kernel backward
           gaussian_blur image lowpass neuron step_gain_default lr sigma
         = Ok img).
Proof.
  unfold mei.
  destruct (get_lowpass_tensor tpow image alpha_default) as [lowpass|e];
    [|discriminate].
  cbn [bind]. intros H. exists lowpass. split; [reflexivity|].
  destruct (over_neurons_one_epoch _ _ _ _ _ _ _ _ _ _ _ _ _ _ _ _ _ _ H)
    as [Hkeys Hvals].
  split.
  - intros neuron. rewrite (Hkeys neuron). simpl. split.
    + intros [Hk|Hk]; [now contradiction Hk|exact Hk].
    + intros Hk. now right.
  - intros neuron img Hk.
    destruct (Hvals neuron img Hk) as [Hold|Hnew]; [discriminate|exact Hnew].
Qed.

Lemma mei_one_epoch_witness :
  exists d lowpass,
    mei Examples.pow_ref Examples.fft2_single_sample
      Examples.fft2_single_sample MeiExamples.no_blur
      Examples.constant_score MeiExamples.backward_parameters
      MeiExamples.linspace_constant MeiExamples.quiet
      MeiExamples.quiet_save MeiExamples.quiet_save
      MeiExamples.quiet_figures
      Examples.pixel [3; 5] (F64.of_Z 1) (F64.of_Z 1) 1 false false
      (F64.of_Z 1) (F64.of_Z 1) = Ok d /\
    get_lowpass_tensor Examples.pow_ref Examples.pixel alpha_default
    = Ok lowpass /\
    forall neuron, dict_get d neuron <> None <-> In neuron [3; 5].
Proof.
  eexists.
  assert (H : mei Examples.pow_ref Examples.fft2_single_sample
      Examples.fft2_single_sample MeiExamples.no_blur
      Examples.constant_score MeiExamples.backward_parameters
      MeiExamples.linspace_constant MeiExamples.quiet
      MeiExamples.quiet_save MeiExamples.quiet_save
      MeiExamples.quiet_figures
      Examples.pixel [3; 5] (F64.of_Z 1) (F64.of_Z 1) 1 false false
      (F64.of_Z 1) (F64.of_Z 1) = Ok _) by (vm_compute; reflexivity).
  destruct (mei_one_epoch _ _ _ _ _ _ _ _ _ _ _ _ _ _ _ _ _ _ _ _ H)
    as [lowpass [Hl [Hkeys _]]].
  exists lowpass. split; [exact H|]. split; [exact Hl|exact Hkeys].
Defined.

End LoopFacts.

(* ================================================================== *)
(** * The Laplace regularizer *)
(* ================================================================== *)

Module LaplaceFacts.

Import LinFilter Laplace.

Lemma set_nth_length (X : Type) (v : X) : forall l i,
  length (set_nth l i v) = length l.
Proof.
  induction l as [|a l IH]; intros [|i]; simpl; auto.
Qed.

Lemma nth_error_set_nth (X : Type) (v : X) : forall l i j,
  i < length l ->
  nth_error (set_nth l i v) j = if i =? j then Some v else nth_error l j.
Proof.
  induction l as [|a l IH]; intros i j Hi; simpl in Hi; [lia|].
  destruct i as [|i], j as [|j]; simpl; try reflexivity.
  apply IH. lia.
Qed.

Lemma for_each_app (X S : Type) (body : S -> X -> result S) : forall l1 l2 s,
  for_each body (l1 ++ l2) s = (s' <- for_each body l1 s ;; for_each body l2 s').
Proof.
  induction l1 as [|x l1 IH]; intros l2 s; simpl; [reflexivity|].
  destruct (body s x) as [s1|e]; simpl; [apply IH|reflexivity].
Qed.

Lemma for_each_map (X Y S : Type) (f : X -> Y) (body : S -> Y -> result S) :
  forall l s,
  for_each body (map f l) s = for_each (fun s x => body s (f x)) l s.
Proof.
  induction l as [|x l IH]; intros s; simpl; [reflexivity|].
  destruct (body s (f x)) as [s1|e]; simpl; [apply IH|reflexivity].
Qed.

(** Two nested loops are one loop over the pairs, in the same order. *)
Lemma for_each_nested (X Y S : Type) (body : S -> X * Y -> result S) ys :
  forall xs s,
  for_each (fun s x => for_each (fun s y => body s (x, y)) ys s) xs s
  = for_each body (list_prod xs ys) s.
Proof.
  induction xs as [|x xs IH]; intros s; simpl; [reflexivity|].
  rewrite for_each_app, for_each_map.
  destruct (for_each _ ys s) as [s1|e]; simpl; [apply IH|reflexivity].
Qed.

(** The row-major index determines the row and the column. *)
Lemma index_eqb c x y x' y' :
  y < c -> y' < c ->
  (x * c + y =? x' * c + y') = (x =? x') && (y =? y').
Proof.
  intros Hy Hy'.
  destruct (Nat.eqb_spec x x') as [->|Hx]; simpl.
  - destruct (Nat.eqb_spec y y') as [->|Hne].
    + apply Nat.eqb_refl.
    + apply Nat.eqb_neq. lia.
  - apply Nat.eqb_neq. intros H. apply Hx.
    assert (Hd : (x * c + y) / c = (x' * c + y') / c) by now rewrite H.
    rewrite !Nat.div_add_l, !(Nat.div_small _ c), !Nat.add_0_r in Hd by lia.
    exact Hd.
Qed.

Lemma nth_error_concat (X : Type) (m : nat) :
  forall (rows : list (list X)) i j row,
  Forall (fun r => length r = m) rows ->
  nth_error rows i = Some row -> j < m ->
  nth_error (concat rows) (i * m + j) = nth_error row j.
Proof.
  induction rows as [|r rows IH]; intros i j row Hall Hi Hj.
  - destruct i; discriminate.
  - inversion Hall as [|? ? Hr Hall']; subst. simpl.
    destruct i as [|i]; simpl in Hi.
    + injection Hi as ->. simpl. apply nth_error_app1. lia.
    + rewrite nth_error_app2 by (simpl; nia).
      replace (S i * length r + j - length r) with (i * length r + j)
        by (simpl; lia).
      now apply IH.
Qed.

Lemma length_concat (X : Type) (m : nat) : forall (rows : list (list X)),
  Forall (fun r => length r = m) rows -> length (concat rows) = length rows * m.
Proof.
  induction rows as [|r rows IH]; intros Hall; simpl; [reflexivity|].
  inversion Hall; subst. rewrite length_app, IH by assumption. reflexivity.
Qed.

Lemma Forall_set_nth (X : Type) (P : X -> Prop) (v : X) : forall l i,
  Forall P l -> P v -> Forall P (set_nth l i v).
Proof.
  induction l as [|a l IH]; intros i Hl Hv; simpl; [constructor|].
  inversion Hl; subst. destruct i; constructor; auto.
Qed.

Lemma map_add_seq b : forall m s,
  map (fun y => b + y) (seq s m) = seq (b + s) m.
Proof.
  induction m as [|m IH]; intros s; simpl; [reflexivity|].
  f_equal. rewrite IH. now rewrite Nat.add_succ_r.
Qed.

(** The rows the pairs of a square grid go to are all the rows, once
    each. *)
Lemma rows_of_square n : forall k a,
  map (fun xy : nat * nat => fst xy * n + snd xy)
      (list_prod (seq a k) (seq 0 n))
  = seq (a * n) (k * n).
Proof.
  induction k as [|k IH]; intros a; simpl; [reflexivity|].
  rewrite map_app, map_map, IH. simpl.
  rewrite seq_app, (map_add_seq (a * n) n 0), Nat.add_0_r.
  now rewrite (Nat.add_comm n (a * n)).
Qed.

Section Bias.

Variable A : Type.
Variables zero four neg_one : A.

Lemma setitem_ok rows cols norm i j (v : A) :
  i < rows -> j < cols ->
  setitem rows cols norm i j v = Ok (set_nth norm (i * cols + j) v).
Proof.
  intros Hi Hj. unfold setitem.
  destruct (Nat.ltb_spec i rows); [|lia].
  destruct (Nat.ltb_spec j cols); [|lia]. reflexivity.
Qed.

Lemma index_lt sizex sizey x y :
  x < sizex -> y < sizey -> x * sizey + y < sizex * sizey.
Proof. intros Hx Hy. nia. Qed.

(** A guarded assignment that is in range whenever its guard holds. *)
Lemma guarded_setitem rows cols norm (b : bool) i j (v : A) :
  (b = true -> i < rows /\ j < cols) ->
  (if b then setitem rows cols norm i j v else Ok norm)
  = Ok (if b then set_nth norm (i * cols + j) v else norm).
Proof.
  destruct b; intros H; [|reflexivity].
  destruct (H eq_refl). now apply setitem_ok.
Qed.

Lemma guarded_set_length (b : bool) (norm : list A) i v :
  length (if b then set_nth norm i v else norm) = length norm.
Proof. destruct b; [apply set_nth_length|reflexivity]. Qed.

Lemma nth_error_guarded_set (b : bool) (norm : list A) i j v :
  (b = true -> i < length norm) ->
  nth_error (if b then set_nth norm i v else norm) j
  = if b && (i =? j) then Some v else nth_error norm j.
Proof.
  destruct b; intros H; [|reflexivity].
  simpl. apply nth_error_set_nth. now apply H.
Qed.

Lemma guarded_index_eqb (b : bool) c x y x' y' :
  (b = true -> y < c) -> y' < c ->
  b && (x * c + y =? x' * c + y') = b && ((x =? x') && (y =? y')).
Proof.
  destruct b; intros H Hy'; [|reflexivity].
  simpl. apply index_eqb; auto.
Qed.

(** The stencil of a pixel: 4 at the pixel, -1 at its neighbours along the
    two axes, 0 elsewhere. *)
Lemma stencil_entries sizex sizey x y :
  x < sizex -> y < sizey ->
  exists norm,
    stencil zero four neg_one sizex sizey x y = Ok norm /\
    length norm = sizex * sizey /\
    forall x' y', x' < sizex -> y' < sizey ->
      nth_error norm (x' * sizey + y')
      = Some (if (x' =? x) && (y' =? y) then four
              else if ((x' + 1 =? x) && (y' =? y))
                      || ((x' =? x + 1) && (y' =? y))
                      || ((x' =? x) && (y' + 1 =? y))
                      || ((x' =? x) && (y' =? y + 1))
                   then neg_one
                   else zero).
Proof.
  intros Hx Hy. unfold stencil.
  rewrite setitem_ok by assumption. cbn [bind].
  rewrite (guarded_setitem sizex sizey _ (0 <? x) (x - 1) y)
    by (intros G; apply Nat.ltb_lt in G; lia).
  cbn [bind].
  rewrite (guarded_setitem sizex sizey _ (x <? sizex - 1) (x + 1) y)
    by (intros G; apply Nat.ltb_lt in G; lia).
  cbn [bind].
  rewrite (guarded_setitem sizex sizey _ (0 <? y) x (y - 1))
    by (intros G; apply Nat.ltb_lt in G; lia).
  cbn [bind].
  rewrite (guarded_setitem sizex sizey _ (y <? sizey - 1) x (y + 1))
    by (intros G; apply Nat.ltb_lt in G; lia).
  cbn [bind].
  eexists. split; [reflexivity|]. split.
  - now rewrite !guarded_set_length, set_nth_length, repeat_length.
  - intros x' y' Hx' Hy'.
    rewrite nth_error_guarded_set
      by (intros G; apply Nat.ltb_lt in G;
          rewrite !guarded_set_length, set_nth_length, repeat_length;
          apply index_lt; lia).
    rewrite nth_error_guarded_set
      by (intros G; apply Nat.ltb_lt in G;
          rewrite !guarded_set_length, set_nth_length, repeat_length;
          apply index_lt; lia).
    rewrite nth_error_guarded_set
      by (intros G; apply Nat.ltb_lt in G;
          rewrite !guarded_set_length, set_nth_length, repeat_length;
          apply index_lt; lia).
    rewrite nth_error_guarded_set
      by (intros G; apply Nat.ltb_lt in G;
          rewrite set_nth_length, repeat_length;
          apply index_lt; lia).
    rewrite nth_error_set_nth
      by (rewrite repeat_length; apply index_lt; lia).
    rewrite nth_error_repeat by (apply index_lt; lia).
    rewrite (guarded_index_eqb (y <? sizey - 1) sizey x (y + 1) x' y'),
            (guarded_index_eqb (0 <? y) sizey x (y - 1) x' y'),
            (guarded_index_eqb (x <? sizex - 1) sizey (x + 1) y x' y'),
            (guarded_index_eqb (0 <? x) sizey (x - 1) y x' y'),
            (index_eqb sizey x y x' y')
      by (try (intros G; apply Nat.ltb_lt in G); lia).
    repeat (match goal with
            | |- context [?a <? ?b] => destruct (Nat.ltb_spec a b)
            | |- context [?a =? ?b] => destruct (Nat.eqb_spec a b)
            end; simpl; try reflexivity; try lia).
Qed.

Lemma write_stencil_ok sizex sizey rows x y :
  x < sizex -> y < sizey -> x * sizex + y < length rows ->
  exists norm,
    stencil zero four neg_one sizex sizey x y = Ok norm /\
    length norm = sizex * sizey /\
    write_stencil zero four neg_one sizex sizey rows (x, y)
    = Ok (set_nth rows (x * sizex + y) norm).
Proof.
  intros Hx Hy Hr.
  destruct (stencil_entries sizex sizey x y Hx Hy) as [norm [Hn [Hl _]]].
  exists norm. split; [exact Hn|]. split; [exact Hl|].
  unfold write_stencil, set_row. rewrite Hn. cbn [bind].
  destruct (Nat.ltb_spec (x * sizex + y) (length rows)); [reflexivity|lia].
Qed.

Lemma write_stencil_raises sizex sizey rows x y :
  x < sizex -> y < sizey -> length rows <= x * sizex + y ->
  write_stencil zero four neg_one sizex sizey rows (x, y) = Raise IndexError.
Proof.
  intros Hx Hy Hr.
  destruct (stencil_entries sizex sizey x y Hx Hy) as [norm [Hn _]].
  unfold write_stencil, set_row. rewrite Hn. cbn [bind].
  destruct (Nat.ltb_spec (x * sizex + y) (length rows)); [lia|reflexivity].
Qed.

(** A loop that meets a row out of range raises [IndexError]. *)
Lemma loop_raises sizex sizey : forall ps rows,
  (forall p, In p ps -> fst p < sizex /\ snd p < sizey) ->
  (exists p, In p ps /\ length rows <= fst p * sizex + snd p) ->
  for_each (write_stencil zero four neg_one sizex sizey) ps rows
  = Raise IndexError.
Proof.
  induction ps as [|[x y] ps IH]; intros rows Hv [p [Hin Hbad]];
    [contradiction|].
  cbn [for_each].
  destruct (Hv (x, y) (or_introl eq_refl)) as [Hx Hy]. simpl in Hx, Hy.
  destruct (Nat.lt_ge_cases (x * sizex + y) (length rows)) as [Hr|Hr].
  - destruct (write_stencil_ok sizex sizey rows x y Hx Hy Hr)
      as [norm [_ [_ Hw]]].
    rewrite Hw. cbn [bind]. apply IH.
    + intros q Hq. apply Hv. now right.
    + exists p. rewrite set_nth_length. split; [|exact Hbad].
      destruct Hin as [<-|Hin]; [simpl in Hbad; lia|exact Hin].
  - now rewrite write_stencil_raises.
Qed.

(** A loop whose rows are all in range returns; it leaves the rows no
    pair goes to as they were, and when no two pairs go to one row, the
    row of each pair holds the stencil of the pair. *)
Lemma loop_returns sizex sizey : forall ps rows,
  (forall p, In p ps ->
     fst p < sizex /\ snd p < sizey /\ fst p * sizex + snd p < length rows) ->
  Forall (fun r => length r = sizex * sizey) rows ->
  exists rows',
    for_each (write_stencil zero four neg_one sizex sizey) ps rows = Ok rows' /\
    length rows' = length rows /\
    Forall (fun r => length r = sizex * sizey) rows' /\
    (forall r, ~ In r (map (fun p => fst p * sizex + snd p) ps) ->
       nth_error rows' r = nth_error rows r) /\
    (NoDup (map (fun p => fst p * sizex + snd p) ps) ->
     forall x y, In (x, y) ps ->
       exists norm,
         stencil zero four neg_one sizex sizey x y = Ok norm /\
         nth_error rows' (x * sizex + y) = Some norm).
Proof.
  induction ps as [|[x y] ps IH]; intros rows Hv Hall.
  - exists rows. repeat split; auto. intros _ x y [].
  - destruct (Hv (x, y) (or_introl eq_refl)) as [Hx [Hy Hr]].
    simpl in Hx, Hy, Hr.
    destruct (write_stencil_ok sizex sizey rows x y Hx Hy Hr)
      as [norm [Hn [Hl Hw]]].
    destruct (IH (set_nth rows (x * sizex + y) norm)) as
      [rows' [Hloop [Hlen [Hall' [Hkeep Hset]]]]].
    + intros q Hq. rewrite set_nth_length. apply Hv. now right.
    + now apply Forall_set_nth.
    + exists rows'. cbn [for_each]. rewrite Hw. cbn [bind].
      split; [exact Hloop|].
      split; [now rewrite Hlen, set_nth_length|].
      split; [exact Hall'|]. split.
      * intros r Hr'. cbn [map In fst snd] in Hr'.
        rewrite Hkeep by tauto.
        rewrite nth_error_set_nth by exact Hr.
        destruct (Nat.eqb_spec (x * sizex + y) r); [tauto|reflexivity].
      * intros Hnd x0 y0 Hin. cbn [map fst snd] in Hnd.
        inversion Hnd as [|? ? Hfresh Hnd']; subst.
        destruct Hin as [Heq|Hin].
        -- injection Heq as <- <-. exists norm. split; [exact Hn|].
           rewrite Hkeep by exact Hfresh.
           rewrite nth_error_set_nth by exact Hr.
           now rewrite Nat.eqb_refl.
        -- now apply Hset.
Qed.

Lemma in_grid sizex sizey p :
  In p (list_prod (seq 0 sizex) (seq 0 sizey)) <->
  fst p < sizex /\ snd p < sizey.
Proof.
  destruct p as [x y]. rewrite in_prod_iff, !in_seq. simpl. lia.
Qed.

(** For more rows than columns the last pixel goes to a row that does not
    exist. *)
Lemma laplaceBias_tall sizex sizey :
  0 < sizey -> sizey < sizex ->
  __laplaceBias zero four neg_one sizex sizey = Raise IndexError.
Proof.
  intros H0 Hlt. unfold __laplaceBias.
  rewrite (for_each_nested _ _ _
             (write_stencil zero four neg_one sizex sizey) (seq 0 sizey)).
  rewrite loop_raises; [reflexivity| |].
  - intros p Hp. now apply in_grid.
  - exists (sizex - 1, sizey - 1). split.
    + apply in_grid. simpl. lia.
    + rewrite repeat_length. simpl. nia.
Qed.

(** For no more rows than columns every stencil goes to a row that
    exists. *)
Lemma laplaceBias_returns sizex sizey :
  sizex <= sizey ->
  exists rows,
    __laplaceBias zero four neg_one sizex sizey
    = Ok (mk_ndarray [sizex * sizey; sizex * sizey] (concat rows)) /\
    length rows = sizex * sizey /\
    Forall (fun r => length r = sizex * sizey) rows /\
    (forall r, ~ In r (map (fun p => fst p * sizex + snd p)
                           (list_prod (seq 0 sizex) (seq 0 sizey))) ->
       nth_error rows r
       = nth_error (repeat (repeat zero (sizex * sizey)) (sizex * sizey)) r) /\
    (NoDup (map (fun p => fst p * sizex + snd p)
                (list_prod (seq 0 sizex) (seq 0 sizey))) ->
     forall x y, x < sizex -> y < sizey ->
       exists norm,
         stencil zero four neg_one sizex sizey x y = Ok norm /\
         nth_error rows (x * sizex + y) = Some norm).
Proof.
  intros Hle. unfold __laplaceBias.
  rewrite (for_each_nested _ _ _
             (write_stencil zero four neg_one sizex sizey) (seq 0 sizey)).
  destruct (loop_returns sizex sizey
              (list_prod (seq 0 sizex) (seq 0 sizey))
              (repeat (repeat zero (sizex * sizey)) (sizex * sizey)))
    as [rows [Hloop [Hlen [Hall [Hkeep Hset]]]]].
  - intros p Hp. apply in_grid in Hp. destruct Hp as [Hx Hy].
    rewrite repeat_length. repeat split; try assumption. nia.
  - apply Forall_forall. intros r Hr. apply repeat_spec in Hr. subst r.
    apply repeat_length.
  - exists rows. rewrite Hloop. cbn [bind].
    split; [reflexivity|]. split; [now rewrite Hlen, repeat_length|].
    split; [exact Hall|]. split; [exact Hkeep|].
    intros Hnd x y Hx Hy. apply Hset; [exact Hnd|].
    apply in_grid. simpl. lia.
Qed.

End Bias.

(** X15. For single-channel images with more rows than columns the
    Laplace estimator cannot be computed: [__laplaceBias] writes the
    stencil of pixel (x, y) to row [x * sizex + y], which for the last
    pixel lies beyond the [sizex * sizey] rows of the matrix, so the
    estimator raises [IndexError] whatever the data, the factor and the
    pseudo-inverse are. *)
Theorem laplace_tall_images_raise
        (A : Type) (zero four neg_one : A) (add mul : A -> A -> A)
        (pinv : ndarray A -> result (ndarray A))
        (self : Filter A) (responses : ndarray A) (reg_factor : A) :
  shape (images self)
  = [image_count self; channels self; dim1 self; dim2 self] ->
  channels self = 1 ->
  0 < dim2 self -> dim2 self < dim1 self ->
  __laplaceBias zero four neg_one (dim1 self) (dim2 self) = Raise IndexError /\
  _laplace_regularized_filter zero four neg_one add mul pinv
    self responses reg_factor = Raise IndexError.
Proof.
  intros Hs Hc H0 Hlt.
  pose proof (laplaceBias_tall A zero four neg_one _ _ H0 Hlt) as Hb.
  split; [exact Hb|].
  unfold _laplace_regularized_filter.
  rewrite (TrainingFacts.image_2d_flat A self Hs (or_introl Hc)).
  cbn [bind dim1 dim2 set_images]. now rewrite Hb.
Qed.

Lemma laplace_tall_images_raise_witness :
  __laplaceBias 0%Z 4%Z (-1)%Z 2 1 = Raise IndexError /\
  _laplace_regularized_filter 0%Z 4%Z (-1)%Z Z.add Z.mul
    LaplaceExamples.pinv_diverges LaplaceExamples.tall_filter
    (mk_ndarray [1; 1] [5%Z]) 10%Z = Raise IndexError.
Proof.
  apply (laplace_tall_images_raise Z 0%Z 4%Z (-1)%Z Z.add Z.mul
           LaplaceExamples.pinv_diverges LaplaceExamples.tall_filter
           (mk_ndarray [1; 1] [5%Z]) 10%Z);
    [reflexivity | reflexivity | simpl; lia | simpl; lia].
Defined.

(** X16. For a square image of side n, [__laplaceBias] returns the matrix
    of the discrete Laplace operator: n * n rows and columns, and in the
    row of pixel (x, y) a 4 in the column of the pixel, a -1 in the columns
    of its neighbours along the two axes and 0 elsewhere. *)
Theorem laplace_bias_square
        (A : Type) (zero four neg_one : A) (n : nat) :
  exists S,
    __laplaceBias zero four neg_one n n = Ok S /\
    shape S = [n * n; n * n] /\
    length (data S) = n * n * (n * n) /\
    forall x y x' y', x < n -> y < n -> x' < n -> y' < n ->
      nth_error (data S) ((x * n + y) * (n * n) + (x' * n + y'))
      = Some (if (x' =? x) && (y' =? y) then four
              else if ((x' + 1 =? x) && (y' =? y))
                      || ((x' =? x + 1) && (y' =? y))
                      || ((x' =? x) && (y' + 1 =? y))
                      || ((x' =? x) && (y' =? y + 1))
                   then neg_one
                   else zero).
Proof.
  destruct (laplaceBias_returns A zero four neg_one n n (Nat.le_refl n))
    as [rows [Hb [Hlen [Hall [_ Hset]]]]].
  eexists. split; [exact Hb|]. cbn [shape data].
  split; [reflexivity|].
  split; [now rewrite (length_concat A (n * n) rows Hall), Hlen|].
  intros x y x' y' Hx Hy Hx' Hy'.
  assert (Hnd : NoDup (map (fun p : nat * nat => fst p * n + snd p)
                           (list_prod (seq 0 n) (seq 0 n)))).
  { rewrite (rows_of_square n n 0). apply seq_NoDup. }
  destruct (Hset Hnd x y Hx Hy) as [norm [Hn Hrow]].
  destruct (stencil_entries A zero four neg_one n n x y Hx Hy)
    as [norm' [Hn' [_ He]]].
  rewrite Hn in Hn'. injection Hn' as <-.
  rewrite (nth_error_concat A (n * n) rows _ _ norm Hall Hrow)
    by (apply (index_lt n n); assumption).
  now apply He.
Qed.

(** X17. For an image with fewer rows than columns [__laplaceBias]
    returns, but the rows from [(sizex - 1) * sizex + sizey] on are never
    written and stay zero: the pixels of those rows are not regularized.
    There are such rows as soon as [1 < sizex < sizey]. *)
Theorem laplace_bias_wide
        (A : Type) (zero four neg_one : A) (sizex sizey : nat) :
  sizex <= sizey ->
  exists S,
    __laplaceBias zero four neg_one sizex sizey = Ok S /\
    shape S = [sizex * sizey; sizex * sizey] /\
    forall r c,
      (sizex - 1) * sizex + sizey <= r -> r < sizex * sizey ->
      c < sizex * sizey ->
      nth_error (data S) (r * (sizex * sizey) + c) = Some zero.
Proof.
  intros Hle.
  destruct (laplaceBias_returns A zero four neg_one sizex sizey Hle)
    as [rows [Hb [Hlen [Hall [Hkeep _]]]]].
  eexists. split; [exact Hb|]. cbn [shape data].
  split; [reflexivity|].
  intros r c Hr Hrn Hc.
  assert (Hrow : nth_error rows r = Some (repeat zero (sizex * sizey))).
  { rewrite Hkeep.
    - now apply nth_error_repeat.
    - intros Hin. apply in_map_iff in Hin.
      destruct Hin as [[x y] [Heq Hin]]. apply in_grid in Hin.
      simpl in Heq, Hin. nia. }
  rewrite (nth_error_concat A (sizex * sizey) rows _ _ _ Hall Hrow Hc).
  now apply nth_error_repeat.
Qed.

Lemma laplace_bias_wide_witness :
  exists S,
    __laplaceBias 0%Z 4%Z (-1)%Z 2 3 = Ok S /\
    shape S = [6; 6] /\
    nth_error (data S) (5 * 6 + 4) = Some 0%Z /\
    nth_error (data S) (5 * 6 + 5) = Some 0%Z.
Proof.
  destruct (laplace_bias_wide Z 0%Z 4%Z (-1)%Z 2 3) as [S [Hb [Hs He]]];
    [lia|].
  exists S. split; [exact Hb|]. split; [exact Hs|].
  split; apply (He 5); simpl; lia.
Defined.

End LaplaceFacts.

(* ================================================================== *)
(** * Prediction and evaluation *)
(* ================================================================== *)

Module EvaluateFacts.

Import LinFilter Evaluate NpFacts.

Section Products.

Variable A : Type.
Variable zero : A.
Variables add mul : A -> A -> A.

(** The product of an [N] x [p] array with the flattened form of [n]
    filters of [p] pixels: entry (i, k) is the dot product of row [i] with
    filter [k]. *)
Lemma matmul_flattened (X F : list A) (N p n : nat) :
  length F = n * p ->
  exists d,
    matmul zero add mul (mk_ndarray [N; p] X)
                        (mk_ndarray [p; n] (swap_data n p 1 F))
    = Ok (mk_ndarray [N; n] d) /\
    length d = N * n /\
    forall i k, i < N -> k < n ->
      nth_error d (i * n + k)
      = Some (dot zero add mul (block p i X) (block p k F)).
Proof.
  intros HF. unfold matmul. cbn [shape data]. rewrite Nat.eqb_refl.
  eexists. split; [reflexivity|].
  rewrite (swap_data_involutive F n p) by assumption.
  assert (Hrow : forall i, i < N ->
            length (map (fun j => dot zero add mul (block p i X) (block p j F))
                        (seq 0 n)) = n)
    by (intros; now rewrite length_map, length_seq).
  split.
  - now apply length_pieces.
  - intros i k Hi Hk.
    rewrite (nth_error_pieces _ (r := n)) by assumption.
    rewrite nth_error_map, nth_error_seq.
    destruct (Nat.ltb_spec k n); [|lia]. reflexivity.
Qed.

End Products.

(** The flattened form of a well-formed single-channel filter. *)
Lemma reshape_filter_2d_flat (A : Type) (f : ndarray A) (n d1 d2 : nat) :
  shape f = [n; 1; d1; d2] ->
  _reshape_filter_2d f
  = Ok (mk_ndarray [d1 * d2; n] (swap_data n (d1 * d2) 1 (data f))).
Proof.
  intros Hs. unfold _reshape_filter_2d, shape_at, ndim. rewrite Hs.
  cbn [length Nat.eqb nth_error bind].
  unfold reshape, squeeze. cbn [shape data].
  rewrite size_of_squeeze, Hs. cbn [size_of fold_right].
  replace (n * (1 * (d1 * (d2 * 1)))) with (n * (d1 * d2 * 1)) by lia.
  rewrite Nat.eqb_refl. reflexivity.
Qed.

Section Methods.

Variable A : Type.
Variable zero : A.
Variables add mul : A -> A -> A.
Variable pearson : list A -> list A -> A.
Variable train : Filter A -> result (Filter A * option (ndarray A)).
Variable env : Env.
Variable write_correlations : option string -> list (nat * A) -> result unit.
Variable save_filter : string -> ndarray A -> result unit.
Variable save_figure : string -> nat -> A -> ndarray A -> result unit.

(** [predict] on a single-channel filter of the shape of the images. *)
Lemma predict_flat (self : Evaluated A) (f : ndarray A) (n : nat) :
  let s := filter self in
  shape (images s) = [image_count s; channels s; dim1 s; dim2 s] ->
  channels s = 1 ->
  shape f = [n; 1; dim1 s; dim2 s] ->
  wf f ->
  exists P,
    shape P = [image_count s; n] /\
    length (data P) = image_count s * n /\
    (forall i k, i < image_count s -> k < n ->
       nth_error (data P) (i * n + k)
       = Some (dot zero add mul
                 (block (dim1 s * dim2 s) i (data (images s)))
                 (block (dim1 s * dim2 s) k (data f)))) /\
    predict zero add mul pearson train self (Some f) false
    = (c <- corrcoef pearson (data P) (data (responses s)) ;;
       Ok (set_filter self
             (set_prediction
                (set_images s (mk_ndarray [image_count s; dim1 s * dim2 s]
                                          (data (images s))))
                P c),
           (P, c))).
Proof.
  intros s Hs Hc Hf Hwf.
  red in Hwf. rewrite Hf in Hwf. cbn [size_of fold_right] in Hwf.
  destruct (matmul_flattened A zero add mul (data (images s)) (data f)
              (image_count s) (dim1 s * dim2 s) n) as [d [Hm [Hl He]]];
    [lia|].
  exists (mk_ndarray [image_count s; n] d). cbn [shape data].
  split; [reflexivity|]. split; [exact Hl|]. split; [exact He|].
  unfold predict, _handle_predict_parsing, flatten_if_4d, ndim.
  fold s. rewrite Hf. cbn [length Nat.eqb].
  rewrite (reshape_filter_2d_flat A f n (dim1 s) (dim2 s) Hf). cbn [bind].
  rewrite (TrainingFacts.image_2d_flat A s Hs (or_introl Hc)). cbn [bind].
  cbn [images set_images]. rewrite Hm. cbn [bind data responses set_images].
  destruct (corrcoef pearson d (data (responses s))); reflexivity.
Qed.

(** [predict] on a filter that is already flattened. *)
Lemma predict_2d (self : Evaluated A) (F : list A) (n : nat) :
  let s := filter self in
  shape (images s) = [image_count s; channels s; dim1 s; dim2 s] ->
  channels s = 1 ->
  length F = n * (dim1 s * dim2 s) ->
  exists P,
    shape P = [image_count s; n] /\
    length (data P) = image_count s * n /\
    predict zero add mul pearson train self
      (Some (mk_ndarray [dim1 s * dim2 s; n]
                        (swap_data n (dim1 s * dim2 s) 1 F))) false
    = (c <- corrcoef pearson (data P) (data (responses s)) ;;
       Ok (set_filter self
             (set_prediction
                (set_images s (mk_ndarray [image_count s; dim1 s * dim2 s]
                                          (data (images s))))
                P c),
           (P, c))).
Proof.
  intros s Hs Hc HF.
  destruct (matmul_flattened A zero add mul (data (images s)) F
              (image_count s) (dim1 s * dim2 s) n HF) as [d [Hm [Hl He]]].
  exists (mk_ndarray [image_count s; n] d). cbn [shape data].
  split; [reflexivity|]. split; [exact Hl|].
  unfold predict, _handle_predict_parsing, flatten_if_4d, ndim.
  fold s. cbn [shape length Nat.eqb bind].
  rewrite (TrainingFacts.image_2d_flat A s Hs (or_introl Hc)). cbn [bind].
  cbn [images set_images]. rewrite Hm. cbn [bind data responses set_images].
  destruct (corrcoef pearson d (data (responses s))); reflexivity.
Qed.

Lemma column_ok (a : ndarray A) (r c j : nat) :
  shape a = [r; c] -> j < c ->
  column zero a j
  = Ok (map (fun i => nth (i * c + j) (data a) zero) (seq 0 r)).
Proof.
  intros Hs Hj. unfold column. rewrite Hs.
  destruct (Nat.ltb_spec j c); [reflexivity|lia].
Qed.

(** The loop of [evaluate] without figures: one coefficient per neuron,
    in order, and the object as it was. *)
Lemma evaluate_neurons_plain (P fil2 : ndarray A) (s : Filter A) (N n : nat) :
  shape P = [N; n] ->
  shape (responses s) = [N; n] ->
  forall neurons acc,
  (forall k, In k neurons -> k < n) ->
  evaluate_neurons zero pearson env save_figure false P fil2 neurons (s, acc)
  = Ok (s, acc ++ map (fun k =>
                         (k, pearson
                               (map (fun i => nth (i * n + k) (data P) zero)
                                    (seq 0 N))
                               (map (fun i => nth (i * n + k)
                                                  (data (responses s)) zero)
                                    (seq 0 N))))
                      neurons).
Proof.
  intros HP HR. induction neurons as [|k rest IH]; intros acc Hin.
  - simpl. now rewrite app_nil_r.
  - cbn [evaluate_neurons evaluate_neuron].
    rewrite (column_ok P N n k HP) by (apply Hin; now left).
    cbn [bind].
    rewrite (column_ok (responses s) N n k HR) by (apply Hin; now left).
    cbn [bind]. unfold corrcoef.
    rewrite !length_map, Nat.eqb_refl. cbn [bind].
    rewrite IH by (intros; apply Hin; now right).
    cbn [map]. now rewrite <- app_assoc.
Qed.

End Methods.

(** X18. [evaluate] returns for a 4-D filter argument only. Without a
    filter, the default, it works out a prediction and then hands the
    missing argument itself to [_reshape_filter_2d], which fails on
    [None]; a filter that is not 4-D is rejected there by the assertion.
    Neither call returns, whatever training, file system and data are. *)
Theorem evaluate_needs_4d_filter
        (A : Type) (zero : A) (add mul : A -> A -> A)
        (pearson : list A -> list A -> A)
        (train : Filter A -> result (Filter A * option (ndarray A)))
        (env : Env)
        (write_correlations : option string -> list (nat * A) -> result unit)
        (save_filter : string -> ndarray A -> result unit)
        (save_figure : string -> nat -> A -> ndarray A -> result unit)
        (self : Evaluated A) (fil : option (ndarray A))
        (reports store_images : bool) (report_dir : option string) :
  fil = None \/ (exists f, fil = Some f /\ ndim f <> 4) ->
  returns (evaluate zero add mul pearson train env write_correlations
             save_filter save_figure self fil reports store_images report_dir)
  = false.
Proof.
  intros Hfil. unfold evaluate.
  destruct (match report_dir with None => _ | Some d => _ end) as [s|e];
    [|reflexivity].
  cbn [bind].
  destruct (_handle_evaluate_parsing _ _ _ _ _ _ fil) as [[self' cp]|e];
    [|reflexivity].
  cbn [bind].
  assert (Hr : returns (reshape_argument fil) = false).
  { destruct Hfil as [->|[f [-> Hn]]]; [reflexivity|].
    unfold reshape_argument, _reshape_filter_2d.
    destruct (Nat.eqb_spec (ndim f) 4); [contradiction|reflexivity]. }
  destruct (reshape_argument fil) as [f|e]; [discriminate|reflexivity].
Qed.

Lemma evaluate_needs_4d_filter_witness :
  returns (evaluate 0%Z Z.add Z.mul EvaluateExamples.pearson_collinear
             EvaluateExamples.base_train Examples.env
             EvaluateExamples.write_ok EvaluateExamples.save_ok
             EvaluateExamples.figure_ok EvaluateExamples.fresh None
             true false None)
  = false.
Proof.
  apply (evaluate_needs_4d_filter Z 0%Z Z.add Z.mul
           EvaluateExamples.pearson_collinear EvaluateExamples.base_train
           Examples.env EvaluateExamples.write_ok EvaluateExamples.save_ok
           EvaluateExamples.figure_ok EvaluateExamples.fresh None
           true false None).
  left. reflexivity.
Defined.

(** X19. [predict] with a single-channel 4-D filter of n neurons whose
    pixels match the images: the prediction has shape (image_count, n) and
    its entry (i, k) is the dot product of image i with filter k. The call
    returns it, with the correlation, exactly when the responses have
    image_count * n elements; otherwise [np.corrcoef] raises
    [ValueError]. *)
Theorem predict_single_channel
        (A : Type) (zero : A) (add mul : A -> A -> A)
        (pearson : list A -> list A -> A)
        (train : Filter A -> result (Filter A * option (ndarray A)))
        (self : Evaluated A) (f : ndarray A) (n : nat) :
  let s := filter self in
  shape (images s) = [image_count s; channels s; dim1 s; dim2 s] ->
  channels s = 1 ->
  shape f = [n; 1; dim1 s; dim2 s] ->
  wf f ->
  exists P,
    shape P = [image_count s; n] /\
    (forall i k, i < image_count s -> k < n ->
       nth_error (data P) (i * n + k)
       = Some (dot zero add mul
                 (block (dim1 s * dim2 s) i (data (images s)))
                 (block (dim1 s * dim2 s) k (data f)))) /\
    (length (data (responses s)) = image_count s * n ->
     exists self',
       predict zero add mul pearson train self (Some f) false
       = Ok (self', (P, pearson (data P) (data (responses s)))) /\
       prediction (filter self') = Some P /\
       corr (filter self') = Some (pearson (data P) (data (responses s))) /\
       fil (filter self') = fil s) /\
    (length (data (responses s)) <> image_count s * n ->
     predict zero add mul pearson train self (Some f) false
     = Raise ValueError).
Proof.
  intros s Hs Hc Hf Hwf.
  destruct (predict_flat A zero add mul pearson train self f n Hs Hc Hf Hwf)
    as [P [HP [Hl [He Hp]]]].
  fold s in HP, Hl, He, Hp.
  exists P. split; [exact HP|]. split; [exact He|].
  rewrite Hp. unfold corrcoef. rewrite Hl. split.
  - intros Hr. rewrite Hr, Nat.eqb_refl. cbn [bind].
    eexists. split; [reflexivity|]. repeat split.
  - intros Hr.
    destruct (Nat.eqb_spec (image_count s * n) (length (data (responses s))));
      [congruence|reflexivity].
Qed.

Lemma predict_single_channel_witness :
  exists self' P,
    predict 0%Z Z.add Z.mul EvaluateExamples.pearson_collinear
      EvaluateExamples.base_train EvaluateExamples.fresh
      (Some EvaluateExamples.three_filters) false
    = Ok (self', (P, 1%Z)) /\
    shape P = [1; 3] /\
    nth_error (data P) 1 = Some 70%Z.
Proof.
  destruct (predict_single_channel Z 0%Z Z.add Z.mul
              EvaluateExamples.pearson_collinear EvaluateExamples.base_train
              EvaluateExamples.fresh EvaluateExamples.three_filters 3
              eq_refl eq_refl eq_refl eq_refl)
    as [P [HP [He [Hok _]]]].
  destruct (Hok eq_refl) as [self' [Hp _]].
  exists self', P. split; [exact Hp|]. split; [exact HP|].
  refine (He 0 1 _ _); simpl; lia.
Defined.

(** X20. [evaluate] with a single-channel 4-D filter of the shape the
    object expects, without figures and on a file system that accepts the
    writes: it returns one coefficient per neuron, in order, each the
    coefficient of a column of the prediction with the same column of the
    responses; the prediction is stored, and the filter ends up in
    [self.fil] in the 4-D form it was passed in. *)
Theorem evaluate_single_channel
        (A : Type) (zero : A) (add mul : A -> A -> A)
        (pearson : list A -> list A -> A)
        (train : Filter A -> result (Filter A * option (ndarray A)))
        (env : Env)
        (write_correlations : option string -> list (nat * A) -> result unit)
        (save_filter : string -> ndarray A -> result unit)
        (save_figure : string -> nat -> A -> ndarray A -> result unit)
        (self : Evaluated A) (f : ndarray A)
        (reports : bool) (report_dir : option string) :
  let s := filter self in
  let N := image_count s in
  let n := neuron_count s in
  shape (images s) = [N; channels s; dim1 s; dim2 s] ->
  channels s = 1 ->
  shape f = [n; 1; dim1 s; dim2 s] ->
  wf f ->
  shape (responses s) = [N; n] ->
  wf (responses s) ->
  (forall d, mkdir env d = Ok tt) ->
  (forall d c, write_correlations d c = Ok tt) ->
  (forall d g, save_filter d g = Ok tt) ->
  exists self' P,
    evaluate zero add mul pearson train env write_correlations
      save_filter save_figure self (Some f) reports false report_dir
    = Ok (self',
          map (fun k =>
                 (k, pearson
                       (map (fun i => nth (i * n + k) (data P) zero) (seq 0 N))
                       (map (fun i => nth (i * n + k) (data (responses s)) zero)
                            (seq 0 N))))
              (seq 0 n)) /\
    shape P = [N; n] /\
    prediction (filter self') = Some P /\
    fil (filter self') = Some f.
Proof.
  intros s N n Hs Hc Hf Hwf HR HwR Hmk Hw Hsave.
  red in Hwf, HwR. rewrite Hf in Hwf. rewrite HR in HwR.
  cbn [size_of fold_right] in Hwf, HwR.
  assert (HF : length (data f) = n * (dim1 s * dim2 s)) by lia.
  unfold evaluate.
  set (d := match report_dir with
            | Some d => d
            | None => (cwd env ++ "/reports/linear_filter/" ++ time s)%string
            end).
  assert (Hdir : match report_dir with
                 | Some d0 => Ok (set_report_dir (filter self) d0)
                 | None =>
                     mkdir env (cwd env ++ "/reports/linear_filter/"
                                ++ time (filter self))%string ;;;
                     Ok (set_report_dir (filter self)
                           (cwd env ++ "/reports/linear_filter/"
                            ++ time (filter self))%string)
                 end = Ok (set_report_dir s d)).
  { subst d. destruct report_dir; [reflexivity|]. now rewrite Hmk. }
  rewrite Hdir. cbn [bind]. clear Hdir.
  unfold _handle_evaluate_parsing, flatten_if_4d, ndim.
  rewrite Hf. cbn [length Nat.eqb].
  rewrite (reshape_filter_2d_flat A f n (dim1 s) (dim2 s) Hf). cbn [bind].
  destruct (predict_2d A zero add mul pearson train
              (set_filter self (set_report_dir s d)) (data f) n)
    as [P [HP [Hl Hp]]]; try assumption.
  cbn [filter set_filter set_report_dir images image_count channels dim1 dim2
       responses] in HP, Hl, Hp.
  rewrite Hp. unfold corrcoef. rewrite Hl.
  replace (length (data (responses s))) with (image_count s * n) by (subst N; lia).
  rewrite Nat.eqb_refl. cbn [bind fst snd reshape_argument].
  rewrite (reshape_filter_2d_flat A f n (dim1 s) (dim2 s) Hf). cbn [bind].
  unfold shape_at. rewrite HP. cbn [nth_error bind].
  cbn [filter set_filter].
  rewrite (evaluate_neurons_plain A zero pearson env save_figure P _ _ N n HP)
    by (try exact HR; intros k Hk; apply in_seq in Hk; lia).
  cbn [bind app].
  match goal with
  | |- context [_fil_4d ?x] =>
      rewrite (@FilterFacts.fil_4d_of_2d A x
                 (mk_ndarray [dim1 s * dim2 s; n]
                    (swap_data n (dim1 s * dim2 s) 1 (data f)))
                 eq_refl eq_refl (or_introl Hc))
  end.
  cbn [bind data neuron_count channels dim1 dim2 set_fil set_prediction
       set_images set_report_dir].
  fold n. rewrite (swap_data_involutive (data f) n (dim1 s * dim2 s)) by exact HF.
  assert (Hfil : mk_ndarray [n; channels s; dim1 s; dim2 s] (data f) = f).
  { destruct f as [sh dt]. cbn [shape data] in *. now rewrite Hc, Hf. }
  rewrite Hfil.
  destruct reports;
    [rewrite Hw; cbn [bind]; unfold get_fil; cbn [fil set_fil bind];
     rewrite Hsave; cbn [bind] | cbn [bind]];
    (eexists; exists P; split; [reflexivity|]; repeat split; exact HP).
Qed.

Lemma evaluate_single_channel_witness :
  exists self' P,
    evaluate 0%Z Z.add Z.mul EvaluateExamples.pearson_collinear
      EvaluateExamples.base_train Examples.env
      EvaluateExamples.write_ok EvaluateExamples.save_ok
      EvaluateExamples.figure_ok EvaluateExamples.fresh
      (Some EvaluateExamples.three_filters) true false None
    = Ok (self', [(0, 1%Z); (1, 1%Z); (2, 1%Z)]) /\
    shape P = [1; 3] /\
    prediction (filter self') = Some P /\
    fil (filter self') = Some EvaluateExamples.three_filters.
Proof.
  destruct (evaluate_single_channel Z 0%Z Z.add Z.mul
              EvaluateExamples.pearson_collinear EvaluateExamples.base_train
              Examples.env EvaluateExamples.write_ok EvaluateExamples.save_ok
              EvaluateExamples.figure_ok EvaluateExamples.fresh
              EvaluateExamples.three_filters true None
              eq_refl eq_refl eq_refl eq_refl eq_refl eq_refl
              (fun _ => eq_refl) (fun _ _ => eq_refl) (fun _ _ => eq_refl))
    as [self' [P [He [HP [Hpred Hfil]]]]].
  exists self', P. split; [exact He|]. repeat split; assumption.
Defined.

(** X24. [predict] without a filter uses the stored one, with a side
    effect: for a stored single-channel 4-D filter it returns the
    prediction and the correlation that [predict] returns for that filter
    passed as the argument, but it leaves [self.fil] in the flattened 2-D
    form, where the call with the argument leaves [self.fil] as it was. *)
Theorem predict_default_flattens_stored_filter
        (A : Type) (zero : A) (add mul : A -> A -> A)
        (pearson : list A -> list A -> A)
        (train : Filter A -> result (Filter A * option (ndarray A)))
        (self : Evaluated A) (f : ndarray A) :
  let s := filter self in
  let n := neuron_count s in
  let p := dim1 s * dim2 s in
  fil s = Some f ->
  shape (images s) = [image_count s; channels s; dim1 s; dim2 s] ->
  channels s = 1 ->
  shape f = [n; channels s; dim1 s; dim2 s] ->
  wf f ->
  length (data (responses s)) = image_count s * n ->
  exists self0 self1 P c,
    predict zero add mul pearson train self (Some f) false
    = Ok (self0, (P, c)) /\
    predict zero add mul pearson train self None false
    = Ok (self1, (P, c)) /\
    fil (filter self0) = Some f /\
    fil (filter self1)
    = Some (mk_ndarray [p; n] (swap_data n p 1 (data f))).
Proof.
  intros s n p Hfil Hs Hc Hf Hwf HlR.
  assert (Hf1 : shape f = [n; 1; dim1 s; dim2 s]) by now rewrite <- Hc.
  red in Hwf. rewrite Hf1 in Hwf. cbn [size_of fold_right] in Hwf.
  assert (HF : length (data f) = n * p) by (subst p; lia).
  destruct (matmul_flattened A zero add mul (data (images s)) (data f)
              (image_count s) p n HF) as [d [Hm [Hl He]]].
  exists (set_filter self
            (set_prediction
               (set_images s (mk_ndarray [image_count s; p] (data (images s))))
               (mk_ndarray [image_count s; n] d)
               (pearson d (data (responses s))))).
  exists (set_filter self
            (set_prediction
               (set_images
                  (set_fil s (mk_ndarray [p; n] (swap_data n p 1 (data f))))
                  (mk_ndarray [image_count s; p] (data (images s))))
               (mk_ndarray [image_count s; n] d)
               (pearson d (data (responses s))))).
  exists (mk_ndarray [image_count s; n] d), (pearson d (data (responses s))).
  split; [|split; [|split; [exact Hfil|reflexivity]]].
  - unfold predict, _handle_predict_parsing, flatten_if_4d, ndim.
    fold s. rewrite Hf1. cbn [length Nat.eqb].
    rewrite (reshape_filter_2d_flat A f n (dim1 s) (dim2 s) Hf1). cbn [bind].
    rewrite (TrainingFacts.image_2d_flat A s Hs (or_introl Hc)). cbn [bind].
    cbn [images set_images]. fold p. rewrite Hm.
    cbn [bind data responses set_images]. unfold corrcoef.
    rewrite Hl, HlR, Nat.eqb_refl. reflexivity.
  - unfold predict, _handle_predict_parsing. fold s. rewrite Hfil.
    cbn [bind].
    rewrite (@FilterFacts.fil_2d_of_4d A s f Hfil Hf (or_introl Hc)).
    cbn [bind]. unfold get_fil. cbn [fil set_fil bind].
    unfold flatten_if_4d, ndim. cbn [shape length Nat.eqb bind].
    rewrite (TrainingFacts.image_2d_flat A
               (set_fil s (mk_ndarray [dim1 s * dim2 s; neuron_count s]
                             (swap_data (neuron_count s) (dim1 s * dim2 s) 1
                                        (data f))))
               Hs (or_introl Hc)).
    cbn [bind images set_images set_fil image_count dim1 dim2].
    fold p n. rewrite Hm.
    cbn [bind data responses set_images set_fil]. unfold corrcoef.
    rewrite Hl, HlR, Nat.eqb_refl. reflexivity.
Qed.

Lemma predict_default_flattens_stored_filter_witness :
  exists self0 self1 P c,
    predict 0%Z Z.add Z.mul EvaluateExamples.pearson_collinear
      EvaluateExamples.base_train EvaluateExamples.fresh
      (Some EvaluateExamples.three_filters) false
    = Ok (self0, (P, c)) /\
    predict 0%Z Z.add Z.mul EvaluateExamples.pearson_collinear
      EvaluateExamples.base_train EvaluateExamples.fresh None false
    = Ok (self1, (P, c)) /\
    fil (filter self0) = Some EvaluateExamples.three_filters /\
    fil (filter self1)
    = Some (mk_ndarray [4; 3] [1; 5; 9; 2; 6; 10; 3; 7; 11; 4; 8; 12]%Z).
Proof.
  apply (predict_default_flattens_stored_filter Z 0%Z Z.add Z.mul
           EvaluateExamples.pearson_collinear EvaluateExamples.base_train
           EvaluateExamples.fresh EvaluateExamples.three_filters);
    reflexivity.
Defined.

End EvaluateFacts.

(* ================================================================== *)
(** * [FilterReport] *)
(* ================================================================== *)

Module ReportFacts.

Import LinFilter PyType Report.

Lemma split_not_nil sep s : split sep s <> [].
Proof.
  destruct s as [|c s]; simpl; [discriminate|].
  destruct (Ascii.eqb c sep); [discriminate|].
  destruct (split sep s); discriminate.
Qed.

(** A string has one part more than it has separators. *)
Lemma length_split sep s :
  length (split sep s)
  = S (length (filter (fun c => Ascii.eqb c sep) (list_ascii_of_string s))).
Proof.
  induction s as [|c s IH]; simpl; [reflexivity|].
  destruct (Ascii.eqb c sep); simpl.
  - now rewrite IH.
  - pose proof (split_not_nil sep s) as Hn.
    destruct (split sep s) as [|p ps]; [contradiction|]. exact IH.
Qed.

(** [rsplit] splits at all the separators, or at [maxsplit] of them. *)
Lemma length_rsplit sep maxsplit s :
  length (rsplit sep maxsplit s)
  = S (Nat.min (length (split sep s) - 1) maxsplit).
Proof.
  unfold rsplit. cbn [length]. rewrite length_skipn.
  pose proof (split_not_nil sep s) as Hn.
  destruct (split sep s) as [|p ps]; [contradiction|]. simpl. lia.
Qed.

(** The path of a report of the hyperparameter search, split as the
    constructor splits it. *)
Lemma rsplit_report_path :
  rsplit slash 5
    "/home/user/reports/linear_filter/global_hyperparametersearch/2021-09-01_12:00:00/hyperparametersearch_report.npy"
  = ["/home/user"; "reports"; "linear_filter"; "global_hyperparametersearch";
     "2021-09-01_12:00:00"; "hyperparametersearch_report.npy"]%string.
Proof. reflexivity. Qed.

(** X21. A [FilterReport] cannot be constructed. A path with fewer than
    five [/] does not give the six parts the constructor unpacks
    ([ValueError]); for every other path the constructor reaches
    [mkdir(parents=True, exists_ok=True)], and [exists_ok] is not a
    keyword of [Path.mkdir] ([TypeError]), on every file system. *)
Theorem filter_report_never_constructed
        (env : Env) (report_file : string) (counter : nat) :
  let slashes :=
    length (filter (fun c => Ascii.eqb c slash)
                   (list_ascii_of_string report_file)) in
  (slashes < 5 ->
   __init__ env report_file counter = Raised (Builtin ValueError)) /\
  (5 <= slashes ->
   __init__ env report_file counter = Raised TypeError).
Proof.
  intros slashes.
  pose proof (length_rsplit slash 5 report_file) as Hl.
  rewrite length_split in Hl. fold slashes in Hl.
  unfold __init__.
  destruct (rsplit slash 5 report_file)
    as [|a [|b [|c [|d [|e [|f [|g l]]]]]]];
    simpl in Hl; split; intros H; try reflexivity; lia.
Qed.

Lemma filter_report_never_constructed_witness :
  __init__ Examples.env
    "/home/user/reports/linear_filter/global_hyperparametersearch/2021-09-01_12:00:00/hyperparametersearch_report.npy"
    3
  = Raised TypeError.
Proof.
  apply (filter_report_never_constructed Examples.env
           "/home/user/reports/linear_filter/global_hyperparametersearch/2021-09-01_12:00:00/hyperparametersearch_report.npy"
           3).
  simpl. lia.
Defined.

End ReportFacts.

(* ================================================================== *)
(** * Training with one factor per neuron *)
(* ================================================================== *)

Module IndividualFacts.

Import LinFilter PyType Training Individual NpFacts.

Section Columns.

Variable A : Type.
Variable zero : A.

Lemma nth_map_seq (g : nat -> A) m idx :
  idx < m -> nth idx (map g (seq 0 m)) zero = g idx.
Proof.
  intros H. apply nth_error_nth.
  rewrite nth_error_map, nth_error_seq.
  destruct (Nat.ltb_spec idx m); [reflexivity|lia].
Qed.

Lemma with_column_nth r c j (g : nat -> A) (a : ndarray A) idx :
  idx < r * c ->
  nth idx (data (with_column zero r c j g a)) zero
  = if idx mod c =? j then g (idx / c) else nth idx (data a) zero.
Proof.
  intros H. unfold with_column. cbn [data].
  now rewrite (nth_map_seq _ (r * c) idx H).
Qed.

Lemma with_column_length r c j (g : nat -> A) (a : ndarray A) :
  length (data (with_column zero r c j g a)) = r * c.
Proof. unfold with_column. cbn [data]. now rewrite length_map, length_seq. Qed.

(** An assignment to a column that returns gives an array of the same
    shape in which the other columns are as before. *)
Lemma set_column_keeps (filters v f' : ndarray A) r c j :
  shape filters = [r; c] ->
  set_column zero filters j v = Ok f' ->
  shape f' = [r; c] /\
  length (data f') = r * c /\
  forall idx, idx < r * c -> idx mod c <> j ->
    nth idx (data f') zero = nth idx (data filters) zero.
Proof.
  intros Hs. unfold set_column. rewrite Hs.
  destruct (j <? c); [|discriminate].
  assert (Hw : forall g, Ok (with_column zero r c j g filters) = Ok f' ->
               shape f' = [r; c] /\
               length (data f') = r * c /\
               forall idx, idx < r * c -> idx mod c <> j ->
                 nth idx (data f') zero = nth idx (data filters) zero).
  { intros g [= <-]. split; [reflexivity|].
    split; [apply with_column_length|].
    intros idx Hi Hj. rewrite with_column_nth by exact Hi.
    destruct (Nat.eqb_spec (idx mod c) j); [contradiction|reflexivity]. }
  destruct (shape v) as [|m [|m' sh]]; try discriminate.
  - apply Hw.
  - destruct (m =? r); [apply Hw|].
    destruct (m =? 1); [apply Hw|discriminate].
Qed.

(** The column of a one-column array of as many rows: the values
    themselves, also when the column is a single cell. *)
Lemma set_column_of_column (filters : ndarray A) (d : list A) r c j :
  shape filters = [r; c] -> j < c -> length d = r ->
  set_column zero filters j (squeeze (mk_ndarray [r; 1] d))
  = Ok (with_column zero r c j (fun i => nth i d zero) filters).
Proof.
  intros Hs Hj Hd. unfold set_column, squeeze. rewrite Hs.
  destruct (Nat.ltb_spec j c); [|lia]. cbn [shape data filter].
  destruct (Nat.eqb_spec r 1) as [->|Hr]; cbn [negb Nat.eqb filter].
  - f_equal. unfold with_column. f_equal. apply map_ext_in.
    intros idx Hin. apply in_seq in Hin.
    destruct (idx mod c =? j); [|reflexivity].
    f_equal. symmetry. apply Nat.div_small. lia.
  - now rewrite Nat.eqb_refl.
Qed.

(** [zip] stops with the shorter of its arguments. *)
Lemma zip_range_short : forall (l : list A) s n k y,
  In (k, y) (combine (seq s n) l) -> k < s + length l.
Proof.
  induction l as [|x l IH]; intros s n k y H.
  - destruct (seq s n); contradiction.
  - destruct n as [|n]; [contradiction|]. simpl in H.
    destruct H as [H|H].
    + injection H as <- _. simpl. lia.
    + apply IH in H. simpl. lia.
Qed.

Variable call :
  Filter A -> ndarray A -> factor A -> result (Filter A * ndarray A).

(** The loop leaves the columns of the neurons it does not visit as they
    were. *)
Lemma train_loop_untouched p n : forall pairs self filters s' filters',
  shape filters = [p; n] ->
  length (data filters) = p * n ->
  train_loop zero call self filters pairs = Ok (s', filters') ->
  shape filters' = [p; n] /\
  length (data filters') = p * n /\
  forall idx, idx < p * n -> ~ In (idx mod n) (map fst pairs) ->
    nth idx (data filters') zero = nth idx (data filters) zero.
Proof.
  induction pairs as [|[neuron reg_factor] rest IH];
    intros self filters s' filters' Hs Hl H.
  - injection H as <- <-. auto.
  - cbn [train_loop] in H.
    destruct (_image_2d self) as [s1|e]; [|discriminate]. cbn [bind] in H.
    destruct (Evaluate.column zero (responses s1) neuron) as [col|e];
      [|discriminate]. cbn [bind] in H.
    destruct (reshape _ _) as [response|e]; [|discriminate]. cbn [bind] in H.
    destruct (call s1 response (FScalar reg_factor)) as [[s2 fil]|e];
      [|discriminate]. cbn [bind] in H.
    destruct (set_column zero filters neuron (squeeze fil)) as [f1|e] eqn:E;
      [|discriminate]. cbn [bind] in H.
    destruct (set_column_keeps filters _ f1 p n neuron Hs E)
      as [Hs1 [Hl1 Hk1]].
    destruct (IH s2 f1 s' filters' Hs1 Hl1 H) as [Hs' [Hl' Hk']].
    split; [exact Hs'|]. split; [exact Hl'|].
    intros idx Hi Hn. cbn [map fst In] in Hn.
    rewrite Hk' by tauto. apply Hk1; [exact Hi|]. intros Heq. apply Hn.
    now left.
Qed.

(** One pass of the loop for a neuron whose estimator returns a column of
    [p] values. *)
Lemma train_step (s2 : Filter A) (filters : ndarray A) (p n k : nat)
      (x : A) (d : list A) rest :
  _image_2d s2 = Ok s2 ->
  shape (responses s2) = [image_count s2; n] ->
  k < n ->
  shape filters = [p; n] ->
  call s2
       (mk_ndarray [image_count s2; 1]
          (map (fun i => nth (i * n + k) (data (responses s2)) zero)
               (seq 0 (image_count s2))))
       (FScalar x)
  = Ok (s2, mk_ndarray [p; 1] d) ->
  length d = p ->
  train_loop zero call s2 filters ((k, x) :: rest)
  = train_loop zero call s2
      (with_column zero p n k (fun i => nth i d zero) filters) rest.
Proof.
  intros H2d HR Hk Hs Hcall Hd. cbn [train_loop].
  rewrite H2d. cbn [bind].
  rewrite (EvaluateFacts.column_ok A zero (responses s2) (image_count s2) n k HR Hk).
  cbn [bind]. unfold reshape. cbn [shape data size_of fold_right].
  rewrite length_map, length_seq.
  replace (image_count s2 * (1 * 1)) with (image_count s2 * 1) by lia.
  rewrite Nat.eqb_refl. cbn [bind].
  rewrite Hcall. cbn [bind].
  rewrite (set_column_of_column filters d p n k Hs Hk Hd).
  reflexivity.
Qed.

(** The loop over equal factors, for an estimator that returns for each
    neuron the column of that neuron in [F]: it fills the array with
    [F]. *)
Lemma train_loop_fills (s2 : Filter A) (p n : nat) (x : A) (F : list A) :
  _image_2d s2 = Ok s2 ->
  shape (responses s2) = [image_count s2; n] ->
  (forall k, k < n ->
     exists d,
       call s2
            (mk_ndarray [image_count s2; 1]
               (map (fun i => nth (i * n + k) (data (responses s2)) zero)
                    (seq 0 (image_count s2))))
            (FScalar x)
       = Ok (s2, mk_ndarray [p; 1] d) /\
       length d = p /\
       forall a, a < p -> nth a d zero = nth (a * n + k) F zero) ->
  forall ks filters,
    (forall k, In k ks -> k < n) ->
    shape filters = [p; n] ->
    exists filters',
      train_loop zero call s2 filters (map (fun k => (k, x)) ks)
      = Ok (s2, filters') /\
      shape filters' = [p; n] /\
      (length (data filters) = p * n -> length (data filters') = p * n) /\
      forall a k, a < p -> k < n ->
        nth (a * n + k) (data filters') zero
        = if in_dec Nat.eq_dec k ks then nth (a * n + k) F zero
          else nth (a * n + k) (data filters) zero.
Proof.
  intros H2d HR Hcol.
  induction ks as [|k ks IH]; intros filters Hin Hs.
  - exists filters. cbn [map train_loop]. repeat split; auto.
  - destruct (Hcol k (Hin k (or_introl eq_refl))) as [d [Hcall [Hd He]]].
    cbn [map].
    rewrite (train_step s2 filters p n k x d _ H2d HR
               (Hin k (or_introl eq_refl)) Hs Hcall Hd).
    destruct (IH (with_column zero p n k (fun i => nth i d zero) filters))
      as [filters' [Hloop [Hs' [Hl' He']]]].
    + intros j Hj. apply Hin. now right.
    + reflexivity.
    + exists filters'. split; [exact Hloop|]. split; [exact Hs'|].
      split; [intros _; apply Hl'; apply with_column_length|].
      intros a j Ha Hj. rewrite (He' a j Ha Hj).
      assert (Hidx : a * n + j < p * n) by nia.
      assert (Hmod : (a * n + j) mod n = j).
      { rewrite Nat.add_comm, Nat.Div0.mod_add. now apply Nat.mod_small. }
      assert (Hdiv : (a * n + j) / n = a).
      { rewrite Nat.add_comm, Nat.div_add by lia.
        rewrite (Nat.div_small j n) by lia. reflexivity. }
      destruct (in_dec Nat.eq_dec j ks) as [Hjk|Hjk];
        destruct (in_dec Nat.eq_dec j (k :: ks)) as [Hjk'|Hjk'];
        try reflexivity.
      * exfalso. apply Hjk'. now right.
      * rewrite with_column_nth by exact Hidx. rewrite Hmod, Hdiv.
        destruct Hjk' as [->|Hjk']; [|contradiction].
        rewrite Nat.eqb_refl. now apply He.
      * rewrite with_column_nth by exact Hidx. rewrite Hmod.
        destruct (Nat.eqb_spec j k) as [->|Hne]; [|reflexivity].
        exfalso. apply Hjk'. now left.
Qed.

End Columns.

Section Ridge.

Variable A : Type.
Variables zero one : A.
Variables add mul : A -> A -> A.
Variable pinv : ndarray A -> result (ndarray A).

Lemma combine_seq_repeat (x : A) : forall n s,
  combine (seq s n) (repeat x n) = map (fun k => (k, x)) (seq s n).
Proof.
  induction n as [|n IH]; intros s; simpl; [reflexivity|].
  now rewrite IH.
Qed.

Lemma matmul_left_shape (L B F : ndarray A) r n :
  shape B = [r; n] ->
  matmul zero add mul L B = Ok F -> exists q, shape L = [q; r].
Proof.
  intros HB. unfold matmul. rewrite HB.
  destruct (shape L) as [|q [|r' [|? ?]]]; try discriminate.
  destruct (Nat.eqb_spec r' r) as [->|]; [|discriminate].
  intros _. now exists q.
Qed.

(** A product with one column of the right factor is that column of the
    product. *)
Lemma matmul_column (L : ndarray A) (q r n : nat) (dB : list A) :
  shape L = [q; r] ->
  length dB = r * n ->
  exists dF,
    matmul zero add mul L (mk_ndarray [r; n] dB) = Ok (mk_ndarray [q; n] dF) /\
    length dF = q * n /\
    forall k dBk,
      k < n -> length dBk = r ->
      (forall b, b < r -> nth b dBk zero = nth (b * n + k) dB zero) ->
      exists dFk,
        matmul zero add mul L (mk_ndarray [r; 1] dBk)
        = Ok (mk_ndarray [q; 1] dFk) /\
        length dFk = q /\
        forall a, a < q -> nth a dFk zero = nth (a * n + k) dF zero.
Proof.
  intros HL HB. unfold matmul. rewrite HL. cbn [shape data].
  rewrite Nat.eqb_refl.
  eexists. split; [reflexivity|].
  split.
  - apply length_pieces. intros i Hi. now rewrite length_map, length_seq.
  - intros k dBk Hk Hl He.
    eexists. split; [reflexivity|]. split.
    + rewrite (length_pieces _ (r := 1)); [lia|].
      intros i Hi. now rewrite length_map, length_seq.
    + intros a Ha.
      assert (E1 : forall l : list A, nth_error l a = nth_error l (a * 1 + 0))
        by (intros; f_equal; lia).
      erewrite (nth_error_nth _ a), (nth_error_nth _ (a * n + k));
        [reflexivity| |].
      * rewrite (nth_error_pieces _ (r := n)); try assumption.
        -- rewrite nth_error_map, nth_error_seq.
           destruct (Nat.ltb_spec k n); [|lia]. reflexivity.
        -- intros i Hi. now rewrite length_map, length_seq.
      * rewrite E1.
        rewrite (nth_error_pieces _ (r := 1)); try assumption; try lia.
        -- cbn [seq map nth_error]. f_equal. f_equal.
           change (0 + k) with k.
           rewrite (TrainingFacts.block_of_swap A dB r n k zero) by assumption.
           rewrite (TrainingFacts.block_of_swap A dBk r 1 0 zero) by lia.
           apply map_ext_in. intros i Hi. apply in_seq in Hi.
           rewrite Nat.mul_1_r, Nat.add_0_r. apply He. lia.
        -- intros i Hi. reflexivity.
Qed.

(** The ridge estimator works column by column: for responses of [n]
    columns it returns, when it returns, an array whose column [k] is what
    it returns for column [k] of the responses alone. *)
Lemma ridge_columns (s2 s' : Filter A) (Y F : ndarray A) (n : nat) (x : A) :
  _image_2d s2 = Ok s2 ->
  shape (images s2) = [image_count s2; dim1 s2 * dim2 s2] ->
  shape Y = [image_count s2; n] ->
  length (data Y) = image_count s2 * n ->
  _ridge_regularized_filter zero one add mul pinv s2 Y x = Ok (s', F) ->
  s' = s2 /\
  exists q dF,
    F = mk_ndarray [q; n] dF /\
    length dF = q * n /\
    forall k, k < n ->
      exists d,
        _ridge_regularized_filter zero one add mul pinv s2
          (mk_ndarray [image_count s2; 1]
             (map (fun i => nth (i * n + k) (data Y) zero)
                  (seq 0 (image_count s2))))
          x
        = Ok (s2, mk_ndarray [q; 1] d) /\
        length d = q /\
        forall a, a < q -> nth a d zero = nth (a * n + k) dF zero.
Proof.
  intros H2d HX HY HlY. unfold _ridge_regularized_filter.
  rewrite H2d. cbn [bind].
  unfold transpose, moveaxis_01. rewrite HX. cbn [bind size_of fold_right].
  set (xt := mk_ndarray [dim1 s2 * dim2 s2; image_count s2]
               (swap_data (image_count s2) (dim1 s2 * dim2 s2) 1
                          (data (images s2)))).
  destruct (matmul zero add mul xt (images s2)) as [xtx|e]; [|discriminate].
  cbn [bind].
  destruct (plus add xtx _) as [m|e]; [|discriminate]. cbn [bind].
  destruct (pinv m) as [inv|e]; [|discriminate]. cbn [bind].
  destruct Y as [shY dY]. cbn [shape data] in *. subst shY.
  destruct (matmul_column xt (dim1 s2 * dim2 s2) (image_count s2) n dY
              eq_refl HlY) as [dy [Hxty [Hly Hcol1]]].
  rewrite Hxty. cbn [bind].
  destruct (matmul zero add mul inv (mk_ndarray [dim1 s2 * dim2 s2; n] dy))
    as [F'|e] eqn:EF; [|discriminate].
  cbn [bind]. intros H. injection H as <- <-. split; [reflexivity|].
  destruct (matmul_left_shape inv (mk_ndarray [dim1 s2 * dim2 s2; n] dy) F'
              (dim1 s2 * dim2 s2) n eq_refl EF)
    as [q Hq].
  destruct (matmul_column inv q (dim1 s2 * dim2 s2) n dy Hq Hly)
    as [dF [HF [HlF Hcol2]]].
  rewrite HF in EF. injection EF as <-.
  exists q, dF. split; [reflexivity|]. split; [exact HlF|].
  intros k Hk.
  destruct (Hcol1 k (map (fun i => nth (i * n + k) dY zero)
                         (seq 0 (image_count s2))) Hk)
    as [dyk [Hxtyk [Hlk Hek]]].
  { now rewrite length_map, length_seq. }
  { intros b Hb. now apply nth_map_seq. }
  destruct (Hcol2 k dyk Hk Hlk Hek) as [dFk [HFk [HlFk HeFk]]].
  exists dFk. rewrite Hxtyk. cbn [bind]. rewrite HFk. cbn [bind].
  repeat split; assumption.
Qed.

End Ridge.

(** X22. With the ridge estimator, training with the same factor for
    every neuron is global training with that factor: for single-channel
    images, responses of one column per neuron and at least one neuron,
    whenever [GlobalRegularizationFilter.train] returns,
    [IndividualRegularizationFilter.train] with [neuron_count] copies of
    the factor returns the same filter and leaves the same object, whatever
    [np.empty] handed out. *)
Theorem individual_equal_factors_is_global
        (A : Type) (zero one : A) (add mul : A -> A -> A)
        (pinv : ndarray A -> result (ndarray A))
        (call : Filter A -> ndarray A -> factor A -> result (Filter A * ndarray A))
        (garbage : nat -> A)
        (self sg : Filter A) (x : A) (f : ndarray A) :
  (forall s r y,
     call s r (FScalar y)
     = _ridge_regularized_filter zero one add mul pinv s r y) ->
  shape (images self)
  = [image_count self; channels self; dim1 self; dim2 self] ->
  channels self = 1 ->
  shape (responses self) = [image_count self; neuron_count self] ->
  wf (responses self) ->
  0 < neuron_count self ->
  GlobalRegularizationFilter_train call self (FScalar x) = Ok (sg, f) ->
  IndividualRegularizationFilter_train zero call garbage self
    (FList (repeat x (neuron_count self)))
  = Returned (sg, f).
Proof.
  intros Hcall Hs Hc HR HwR Hn Hg.
  red in HwR. rewrite HR in HwR. cbn [size_of fold_right] in HwR.
  assert (HlY : length (data (responses self))
                = image_count self * neuron_count self) by lia.
  set (N := image_count self) in *.
  set (n := neuron_count self) in *.
  set (p := dim1 self * dim2 self) in *.
  set (s2 := set_images self (mk_ndarray [N; p] (data (images self)))).
  assert (H1 : _image_2d self = Ok s2)
    by (apply (TrainingFacts.image_2d_flat A self Hs (or_introl Hc))).
  assert (H2 : _image_2d s2 = Ok s2).
  { unfold _image_2d, reshape. subst s2 N p.
    cbn [images set_images image_count dim1 dim2 shape data].
    now rewrite Nat.eqb_refl. }
  unfold GlobalRegularizationFilter_train in Hg.
  cbn [_handle_train_parsing] in Hg.
  rewrite H1 in Hg. cbn [bind] in Hg. rewrite Hcall in Hg.
  destruct (_ridge_regularized_filter zero one add mul pinv s2
              (responses s2) x) as [[s' F]|e] eqn:Er; [|discriminate].
  cbn [bind] in Hg.
  destruct (ridge_columns A zero one add mul pinv s2 s' (responses s2) F n x
              H2 eq_refl HR HlY Er)
    as [-> [q [dF [-> [HlF Hcol]]]]].
  assert (Hq : forall g : ndarray A,
            shape g = [q; n] ->
            (s0 <- _fil_4d (set_fil s2 g) ;; f0 <- get_fil s0 ;; Ok (s0, f0))
            = (if n * (channels self * (dim1 self * (dim2 self * 1)))
                  =? n * (q * 1)
               then Ok (set_fil s2
                          (mk_ndarray [n; channels self; dim1 self; dim2 self]
                             (swap_data q n 1 (data g))),
                        mk_ndarray [n; channels self; dim1 self; dim2 self]
                             (swap_data q n 1 (data g)))
               else Raise ValueError)).
  { intros g Hsg. unfold _fil_4d, get_fil at 1, moveaxis_01, reshape, ndim.
    cbn [fil set_fil bind]. rewrite Hsg.
    cbn [length Nat.eqb bind shape data size_of fold_right
         neuron_count channels dim1 dim2 s2 set_images].
    fold n.
    destruct (_ =? _); reflexivity. }
  rewrite (Hq (mk_ndarray [q; n] dF) eq_refl) in Hg. cbn [data] in Hg.
  destruct (Nat.eqb_spec (n * (channels self * (dim1 self * (dim2 self * 1))))
              (n * (q * 1))) as [Esz|]; [|discriminate].
  injection Hg as <- <-.
  assert (Hqp : q = p) by (subst p; rewrite Hc in Esz; nia).
  subst q.
  unfold IndividualRegularizationFilter_train.
  cbn [_handle_train_parsing]. fold n. fold p.
  rewrite combine_seq_repeat.
  assert (Hloop : exists filters',
            train_loop zero call self (empty garbage [p; n])
              (map (fun k => (k, x)) (seq 0 n))
            = Ok (s2, filters') /\
            shape filters' = [p; n] /\
            length (data filters') = p * n /\
            forall a k, a < p -> k < n ->
              nth (a * n + k) (data filters') zero = nth (a * n + k) dF zero).
  { destruct (train_loop_fills A zero call s2 p n x dF H2 HR) with
      (ks := seq 0 n) (filters := empty garbage [p; n])
      as [filters' [Hl [Hsh [Hlen He]]]].
    - intros k Hk. destruct (Hcol k Hk) as [d [Hd [Hld Hed]]].
      exists d. rewrite Hcall. repeat split; assumption.
    - intros k Hk. apply in_seq in Hk. lia.
    - reflexivity.
    - exists filters'. split.
      + destruct n as [|n']; [lia|].
        cbn [seq map train_loop] in Hl |- *.
        rewrite H1. rewrite H2 in Hl. exact Hl.
      + split; [exact Hsh|]. split.
        * apply Hlen. unfold empty. cbn [data size_of fold_right].
          rewrite length_map, length_seq. lia.
        * intros a k Ha Hk. rewrite (He a k Ha Hk).
          destruct (in_dec Nat.eq_dec k (seq 0 n)) as [_|Hout];
            [reflexivity|].
          exfalso. apply Hout. apply in_seq. lia. }
  destruct Hloop as [filters' [Hl [Hsh [Hlen He]]]].
  rewrite Hl. cbn [bind lift].
  assert (Hdata : data filters' = dF).
  { apply (nth_ext _ _ zero zero); [lia|].
    intros idx Hidx. rewrite Hlen in Hidx.
    assert (Hn0 : n <> 0) by lia.
    pose proof (Nat.div_mod_eq idx n) as Hdm.
    pose proof (Nat.mod_upper_bound idx n Hn0) as Hmod.
    assert (Hdiv : idx / n < p).
    { apply Nat.Div0.div_lt_upper_bound. lia. }
    replace idx with (idx / n * n + idx mod n) by lia.
    now apply He. }
  rewrite (Hq filters' Hsh), Hdata.
  destruct (Nat.eqb_spec (n * (channels self * (dim1 self * (dim2 self * 1))))
              (n * (p * 1))) as [_|Hne]; [reflexivity|contradiction].
Qed.

Lemma individual_equal_factors_is_global_witness :
  exists sg f,
    GlobalRegularizationFilter_train IndividualExamples.ridge_call
      IndividualExamples.dark_filter (FScalar 1%Z) = Ok (sg, f) /\
    IndividualRegularizationFilter_train 0%Z IndividualExamples.ridge_call
      IndividualExamples.memory IndividualExamples.dark_filter
      (FList [1; 1]%Z)
    = Returned (sg, f) /\
    shape f = [2; 1; 1; 2].
Proof.
  eexists. eexists.
  assert (Hg : GlobalRegularizationFilter_train IndividualExamples.ridge_call
                 IndividualExamples.dark_filter (FScalar 1%Z) = Ok (_, _))
    by (vm_compute; reflexivity).
  split; [exact Hg|]. split; [|reflexivity].
  apply (individual_equal_factors_is_global Z 0%Z 1%Z Z.add Z.mul
           IndividualExamples.pinv_of_identity IndividualExamples.ridge_call
           IndividualExamples.memory IndividualExamples.dark_filter _ 1%Z _);
    try reflexivity; try exact Hg.
  simpl. lia.
Defined.

(** X23. With fewer factors than neurons the loop stops at the last
    factor: when [IndividualRegularizationFilter.train] returns, the
    filters of the neurons from [len(reg_factors)] on are never computed,
    and the returned array holds at their places what [np.empty] handed
    out. *)
Theorem individual_short_list_leaves_memory
        (A : Type) (zero : A)
        (call : Filter A -> ndarray A -> factor A -> result (Filter A * ndarray A))
        (garbage : nat -> A)
        (self s : Filter A) (reg_factors : factor A) (l : list A)
        (f : ndarray A) :
  _handle_train_parsing self reg_factors = FList l ->
  IndividualRegularizationFilter_train zero call garbage self reg_factors
  = Returned (s, f) ->
  let n := neuron_count self in
  let p := dim1 self * dim2 self in
  forall k a, length l <= k -> k < n -> a < p ->
    nth_error (data f) (k * p + a) = Some (garbage (a * n + k)).
Proof.
  intros Hparse H n p k a Hlk Hk Ha.
  unfold IndividualRegularizationFilter_train in H. rewrite Hparse in H.
  fold n p in H.
  destruct (train_loop zero call self (empty garbage [p; n])
              (combine (seq 0 n) l)) as [[s1 filters']|e] eqn:El;
    [|discriminate].
  cbn [bind lift] in H.
  assert (Hl0 : length (data (empty garbage [p; n])) = p * n).
  { unfold empty. cbn [data size_of fold_right].
    rewrite length_map, length_seq. lia. }
  destruct (train_loop_untouched A zero call p n (combine (seq 0 n) l) self
              (empty garbage [p; n]) s1 filters' eq_refl Hl0 El)
    as [Hsh [Hlen Hkeep]].
  assert (Hcell : nth (a * n + k) (data filters') zero = garbage (a * n + k)).
  { assert (Hidx : a * n + k < p * n) by nia.
    rewrite Hkeep.
    - unfold empty. cbn [data size_of fold_right].
      apply nth_map_seq. lia.
    - exact Hidx.
    - rewrite Nat.add_comm, Nat.Div0.mod_add, Nat.mod_small by exact Hk.
      intros Hin. apply in_map_iff in Hin.
      destruct Hin as [[k' y] [Heq Hin]]. simpl in Heq. subst k'.
      apply (zip_range_short A l 0 n k y) in Hin. simpl in Hin. lia. }
  unfold _fil_4d, get_fil at 1, moveaxis_01, reshape, ndim in H.
  cbn [fil set_fil bind] in H. rewrite Hsh in H.
  cbn [length Nat.eqb bind shape data size_of fold_right] in H.
  destruct (_ =? _) in H; [|discriminate].
  cbn [bind get_fil fil set_fil lift] in H.
  injection H as _ <-. cbn [data].
  rewrite (@swap_data_nth_error A (data filters') p n a k) by assumption.
  rewrite (nth_error_nth' _ zero) by nia.
  now rewrite Hcell.
Qed.

Lemma individual_short_list_leaves_memory_witness :
  exists s f,
    IndividualRegularizationFilter_train 0%Z IndividualExamples.raw_call
      IndividualExamples.memory Examples.one_channel_filter (FList [10%Z])
    = Returned (s, f) /\
    nth_error (data f) (1 * 4 + 0) = Some (-1)%Z /\
    nth_error (data f) (2 * 4 + 3) = Some (-1)%Z.
Proof.
  eexists. eexists.
  assert (H : IndividualRegularizationFilter_train 0%Z
                IndividualExamples.raw_call IndividualExamples.memory
                Examples.one_channel_filter (FList [10%Z])
              = Returned (_, _)) by (vm_compute; reflexivity).
  split; [exact H|].
  pose proof (individual_short_list_leaves_memory Z 0%Z
                IndividualExamples.raw_call IndividualExamples.memory
                Examples.one_channel_filter _ (FList [10%Z]) [10%Z] _
                eq_refl H) as Hm.
  split.
  - refine (Hm 1 0 _ _ _); simpl; lia.
  - refine (Hm 2 3 _ _ _); simpl; lia.
Defined.

End IndividualFacts.
